(** * Dense-region decomposition of big-fish: a shallow embedding

    This development embeds [bigfish/detection/dense_decomposition.py] in Rocq
    and states the properties of its specification as theorems.

    - numpy's 2-d [int64] arrays are lists of rows with an explicit number of
      columns; images are nested lists of pixels carrying their [dtype];
    - [float64] arithmetic is an interface ([Float64Arith], [Float64Cast])
      so that the control flow is verified for every implementation of the
      arithmetic; exact rationals and integers instantiate it;
    - exceptions, warnings and the unbounded [while] loop are explicit: a
      computation returns a [result] together with the warnings it recorded. *)

From Stdlib Require Import String.
From Stdlib Require Import List ZArith QArith Qround Bool Lia Arith.
Import ListNotations.

Set Implicit Arguments.
Local Open Scope Z_scope.

(* ================================================================== *)
(** * Numeric interface *)

(** The operations the code performs on [float64] values. [of_int] is the
    conversion of a Python [int] (or of an integer pixel) and [np_sum] is
    [np.sum] over a 1-d array. *)
Class Float64Arith (F : Type) : Type := {
  f0 : F;
  fadd : F -> F -> F;
  fsub : F -> F -> F;
  fmul : F -> F -> F;
  fltb : F -> F -> bool;
  feqb : F -> F -> bool;
  of_int : Z -> F;
  np_sum : list F -> F
}.

(** Division, and the conversion to an integer that both Python's [int(x)]
    and numpy's cast to [int64] perform: truncation toward zero. *)
Class Float64Cast (F : Type) : Type := {
  fdiv : F -> F -> F;
  trunc : F -> Z
}.

(** [a <= b], as the negation of [b < a]. *)
Definition fleb {F} `{Float64Arith F} (a b : F) : bool := negb (fltb b a).

(* ================================================================== *)
(** * Exceptions, warnings and results *)

Inductive exn : Type :=
| ValueError (msg : string)
| IndexError (msg : string).

Inductive warning : Type :=
| UserWarning (msg : string).

(** [OutOfFuel] stands for a [while] loop that has not stopped within the
    number of iterations the model was given. *)
Inductive result (A : Type) : Type :=
| Ok (a : A)
| Raise (e : exn)
| OutOfFuel.
Arguments Raise {A} e.
Arguments OutOfFuel {A}.

(** A computation: its result and the warnings recorded on the way. *)
Definition M (A : Type) : Type := (result A * list warning)%type.

Definition ret {A} (a : A) : M A := (Ok a, []).
Definition raise {A} (e : exn) : M A := (Raise e, []).
Definition warn (msg : string) : M unit := (Ok tt, [UserWarning msg]).

Definition bind {A B} (m : M A) (f : A -> M B) : M B :=
  match m with
  | (Ok a, w) => let (r, w') := f a in (r, w ++ w')
  | (Raise e, w) => (Raise e, w)
  | (OutOfFuel, w) => (OutOfFuel, w)
  end.

Declare Scope py_scope.
Delimit Scope py_scope with py.
Notation "x <- c1 ;; c2" := (bind c1 (fun x => c2))
  (at level 61, c1 at next level, right associativity) : py_scope.
Notation "' pat <- c1 ;; c2" := (bind c1 (fun x => match x with pat => c2 end))
  (at level 61, pat pattern, c1 at next level, right associativity) : py_scope.
Notation "c1 ;;; c2" := (bind c1 (fun _ => c2))
  (at level 61, right associativity) : py_scope.
Local Open Scope py_scope.

(* ================================================================== *)
(** * Arrays *)

(** A 2-d [np.int64] array of shape [(length rows, shape1)]. *)
Record int_array : Type := IntArray {
  shape1 : nat;
  rows : list (list Z)
}.

(** [a.size] *)
Definition size (a : int_array) : nat := (length (rows a) * shape1 a)%nat.

(** [a[:, k]]: numpy checks [k] against the number of columns. *)
Definition column (k : nat) (a : int_array) : M (list Z) :=
  if (k <? shape1 a)%nat
  then ret (map (fun r => nth k r 0) (rows a))
  else raise (IndexError "index is out of bounds for axis 1").

(** Element-wise operations on 1-d arrays of equal length. *)
Fixpoint map2 {A B C} (f : A -> B -> C) (l : list A) (l' : list B) : list C :=
  match l, l' with
  | a :: t, b :: t' => f a b :: map2 f t t'
  | _, _ => []
  end.

(** [a[mask]]: the rows whose mask entry is [True], in order. *)
Fixpoint mask_select {A} (mask : list bool) (l : list A) : list A :=
  match mask, l with
  | b :: mask', a :: l' => if b then a :: mask_select mask' l' else mask_select mask' l'
  | _, _ => []
  end.

(* ================================================================== *)
(** * Spots outside the candidate regions
      ([_filter_spot_out_candidate_regions]) *)

(** One iteration of the loop over the boxes of 3-d regions. *)
Definition step_3d (spots : int_array) (st : list bool * Z) (box : list Z)
  : M (list bool * Z) :=
  let '(mask_spots_out, max_region_size) := st in
  match box with
  | [min_z; min_y; min_x; max_z; max_y; max_x] =>
      (* get the size of the biggest region *)
      let size_z := max_z - min_z in
      let size_y := max_y - min_y in
      let size_x := max_x - min_x in
      let max_region_size :=
        Z.max (Z.max (Z.max max_region_size size_z) size_y) size_x in
      (* get coordinates of spots inside the region *)
      s0 <- column 0 spots ;;
      let mask_spots_in := map (fun v => v <? max_z) s0 in
      s1 <- column 1 spots ;;
      let mask_spots_in := map2 andb mask_spots_in (map (fun v => v <? max_y) s1) in
      s2 <- column 2 spots ;;
      let mask_spots_in := map2 andb mask_spots_in (map (fun v => v <? max_x) s2) in
      s0 <- column 0 spots ;;
      let mask_spots_in := map2 andb mask_spots_in (map (fun v => min_z <=? v) s0) in
      s1 <- column 1 spots ;;
      let mask_spots_in := map2 andb mask_spots_in (map (fun v => min_y <=? v) s1) in
      s2 <- column 2 spots ;;
      let mask_spots_in := map2 andb mask_spots_in (map (fun v => min_x <=? v) s2) in
      let mask_spots_out := map2 andb mask_spots_out (map negb mask_spots_in) in
      ret (mask_spots_out, max_region_size)
  | _ => raise (ValueError "wrong number of values to unpack")
  end.

(** One iteration of the loop over the boxes of 2-d regions. *)
Definition step_2d (spots : int_array) (st : list bool * Z) (box : list Z)
  : M (list bool * Z) :=
  let '(mask_spots_out, max_region_size) := st in
  match box with
  | [min_y; min_x; max_y; max_x] =>
      (* get the size of the biggest region *)
      let size_y := max_y - min_y in
      let size_x := max_x - min_x in
      let max_region_size := Z.max (Z.max max_region_size size_y) size_x in
      (* get coordinates of spots inside the region *)
      s0 <- column 0 spots ;;
      let mask_spots_in := map (fun v => v <? max_y) s0 in
      s1 <- column 1 spots ;;
      let mask_spots_in := map2 andb mask_spots_in (map (fun v => v <? max_x) s1) in
      s0 <- column 0 spots ;;
      let mask_spots_in := map2 andb mask_spots_in (map (fun v => min_y <=? v) s0) in
      s1 <- column 1 spots ;;
      let mask_spots_in := map2 andb mask_spots_in (map (fun v => min_x <=? v) s1) in
      let mask_spots_out := map2 andb mask_spots_out (map negb mask_spots_in) in
      ret (mask_spots_out, max_region_size)
  | _ => raise (ValueError "wrong number of values to unpack")
  end.

(** [for box in candidate_bbox: ...] *)
Fixpoint for_each {S B} (body : S -> B -> M S) (l : list B) (st : S) : M S :=
  match l with
  | [] => ret st
  | b :: l' => st' <- body st b ;; for_each body l' st'
  end.

Definition _filter_spot_out_candidate_regions
    (candidate_bbox : list (list Z)) (spots : int_array) (nb_dim : nat)
  : M (int_array * Z) :=
  (* initialization *)
  s0 <- column 0 spots ;;
  let mask_spots_out := map (fun _ => true) s0 in
  let max_region_size := 0 in
  '(mask_spots_out, max_region_size) <-
    (if (nb_dim =? 3)%nat
     (* get detected spots outside 3-d regions *)
     then for_each (step_3d spots) candidate_bbox (mask_spots_out, max_region_size)
     (* get detected spots outside 2-d regions *)
     else for_each (step_2d spots) candidate_bbox (mask_spots_out, max_region_size)) ;;
  (* keep apart spots inside a region *)
  let spots_out_region :=
    IntArray (shape1 spots) (mask_select mask_spots_out (rows spots)) in
  ret (spots_out_region, max_region_size).

(* ================================================================== *)
(** * Images and regions *)

Inductive dtype : Type := uint8 | uint16 | float32 | float64.

(** Pixel data of rank 2 [(y, x)] or rank 3 [(z, y, x)], row-major. *)
Inductive nd (A : Type) : Type :=
| Arr2 (px : list (list A))
| Arr3 (px : list (list (list A))).

(** An array with its element type. Every value of the four element types
    is a [float64] value, which is how a pixel is held. *)
Record ndarray (F : Type) : Type := NdArray {
  nd_dtype : dtype;
  nd_data : nd F
}.

Definition nd_ndim {A} (a : nd A) : nat :=
  match a with Arr2 _ => 2 | Arr3 _ => 3 end.

Definition ndim {F} (a : ndarray F) : nat := nd_ndim (nd_data a).

(** [np.reshape(a, a.size)] *)
Definition flatten {A} (a : nd A) : list A :=
  match a with
  | Arr2 px => concat px
  | Arr3 px => concat (map (@concat A) px)
  end.

Definition nd_map {A B} (f : A -> B) (a : nd A) : nd B :=
  match a with
  | Arr2 px => Arr2 (map (map f) px)
  | Arr3 px => Arr3 (map (map (map f)) px)
  end.

(** Python's [l[a:b]], negative and out-of-range bounds included. *)
Definition slice_bound (n i : Z) : Z :=
  if i <? 0 then Z.max 0 (i + n) else Z.min i n.

Definition py_slice {A} (a b : Z) (l : list A) : list A :=
  let n := Z.of_nat (length l) in
  let a' := slice_bound n a in
  let b' := slice_bound n b in
  firstn (Z.to_nat (b' - a')) (skipn (Z.to_nat a') l).

(** What the code reads of a [skimage] region: [region.bbox],
    [region.area] and [region.mean_intensity]. *)
Record region (F : Type) : Type := Region {
  bbox : list Z;
  area : Z;
  mean_intensity : F
}.

(** A Python number that is either an [int] or a [float]. *)
Inductive pynum (F : Type) : Type :=
| PyInt (n : Z)
| PyFloat (x : F).
Arguments PyInt {F} n.

(** [np.iinfo(dtype).max]: numpy raises for a dtype that is not an
    integer type. *)
Definition np_iinfo_max (d : dtype) : M Z :=
  match d with
  | uint8 => ret 255
  | uint16 => ret 65535
  | float32 | float64 => raise (ValueError "Invalid integer data type 'f'.")
  end.

(* ================================================================== *)
(** * The greedy fitting loop
      (lines 643-683 of [_gaussian_mixture_3d], 739-776 of
      [_gaussian_mixture_2d]: the same text but for the Gaussian called) *)

Section GreedyLoop.

Context {F : Type} {FA : Float64Arith F}.

(** [P] is a grid column: [(y, x)] or [(z, y, x)]. [gaussian pos background]
    is the call of [_gaussian_2d] or [_gaussian_3d] centred at [pos], every
    other argument being fixed during the loop. *)
Variable P : Type.
Variable gaussian : P -> F -> list F.
Variable grid : list P.
Variable image_region_raw : list F.
Variable limit_gaussian : Z.

Record fit_state : Type := FitState {
  simulation : list F;
  residual : list F;
  ssr : F;
  diff_ssr : pynum F;
  nb_gaussian : Z;
  background : F;
  best_simulation : list F;
  positions_gaussian : list P
}.

(** [x < 0] for the Python number [x] *)
Definition lt0 (x : pynum F) : bool :=
  match x with
  | PyInt n => n <? 0
  | PyFloat x => fltb x f0
  end.

(** [np.argmax]: the first index of the maximum. *)
Fixpoint argmax_from (best_i : nat) (best : F) (i : nat) (l : list F) : nat :=
  match l with
  | [] => best_i
  | x :: t =>
      if fltb best x then argmax_from i x (S i) t
      else argmax_from best_i best (S i) t
  end.

Definition np_argmax (l : list F) : M nat :=
  match l with
  | [] => raise (ValueError "attempt to get an argmax of an empty sequence")
  | x :: t => ret (argmax_from 0 x 1 t)
  end.

(** [grid[:, i]] *)
Definition grid_column (i : nat) : M P :=
  match nth_error grid i with
  | Some p => ret p
  | None => raise (IndexError "index is out of bounds for axis 1")
  end.

(** [np.sum(residual ** 2)] *)
Definition sum_squares (r : list F) : F := np_sum (map (fun x => fmul x x) r).

(** The state before the loop. *)
Definition fit_init (background : F) : fit_state :=
  let simulation := map (fun _ => f0) image_region_raw in
  let residual := map2 fsub image_region_raw simulation in
  let ssr := sum_squares residual in
  FitState simulation residual ssr (PyInt (-1)) 0 background simulation [].

(** The condition of the [while]. *)
Definition loop_test (st : fit_state) : bool :=
  lt0 (diff_ssr st) || (nb_gaussian st =? limit_gaussian).

(** The body of the [while]. *)
Definition loop_body (st : fit_state) : M fit_state :=
  position_gaussian <- np_argmax (residual st) ;;
  pos <- grid_column position_gaussian ;;
  let positions_gaussian := positions_gaussian st ++ [pos] in
  let simulation := map2 fadd (simulation st) (gaussian pos (background st)) in
  let residual := map2 fsub image_region_raw simulation in
  let new_ssr := sum_squares residual in
  let diff_ssr := fsub new_ssr (ssr st) in
  let ssr := new_ssr in
  let nb_gaussian := nb_gaussian st + 1 in
  let background := of_int 0 in
  let best_simulation :=
    if fltb diff_ssr f0 then simulation else best_simulation st in
  ret (FitState simulation residual ssr (PyFloat diff_ssr) nb_gaussian
                background best_simulation positions_gaussian).

Fixpoint while_loop (fuel : nat) (st : fit_state) : M fit_state :=
  if loop_test st then
    match fuel with
    | O => (OutOfFuel, [])
    | S fuel' => st' <- loop_body st ;; while_loop fuel' st'
    end
  else ret st.

Definition incomplete_message : string :=
  "Problem occurs during the decomposition of a dense region. More than {0} spots seem to be necessary to reproduce the candidate region and decomposition was stopped early. Set a higher limit or check a potential artifact in the image if you do not expect such a large region to be decomposed.".

(** [positions_gaussian.pop(-1)] *)
Definition pop_last (l : list P) : M (list P) :=
  match l with
  | [] => raise (IndexError "pop from empty list")
  | _ => ret (removelast l)
  end.

(** After the loop: drop the last position or warn. *)
Definition after_loop (st : fit_state) : M (list P) :=
  if (1 <? nb_gaussian st) && (nb_gaussian st <? limit_gaussian)
  then pop_last (positions_gaussian st)
  else if nb_gaussian st =? limit_gaussian
  then warn incomplete_message ;;; ret (positions_gaussian st)
  else ret (positions_gaussian st).

(** The loop and what follows it: the best simulation, the positions and
    the number of Gaussians placed. *)
Definition fit_region (fuel : nat) (background : F) : M (list F * list P * Z) :=
  st <- while_loop fuel (fit_init background) ;;
  positions_gaussian <- after_loop st ;;
  ret (best_simulation st, positions_gaussian, nb_gaussian st).

End GreedyLoop.

Arguments fit_state : clear implicits.

(* ================================================================== *)
(** * Clipping the best simulation (lines 685-688 and 778-781) *)

Section Clip.

Context {F : Type} {FA : Float64Arith F} {FC : Float64Cast F}.

(** [np.clip(x, 0, max_value_dtype)] on one value *)
Definition np_clip (max_value_dtype : Z) (x : F) : F :=
  if fltb x (of_int 0) then of_int 0
  else if fltb (of_int max_value_dtype) x then of_int max_value_dtype
  else x.

(** [x.astype(dtype)] on a clipped value: an unsigned integer type takes
    the truncation; [np.iinfo] has raised for the other types before a
    cast can take place. *)
Definition astype (d : dtype) (x : F) : F :=
  match d with
  | uint8 | uint16 => of_int (trunc x)
  | float32 | float64 => x
  end.

End Clip.

(* ================================================================== *)
(** * Gaussian simulation *)

(** [tuple[k]] *)
Definition tuple_get (k : nat) (t : list Z) : M Z :=
  match nth_error t k with
  | Some v => ret v
  | None => raise (IndexError "tuple index out of range")
  end.

(** [np.reshape(flat, (h, w))] and [np.reshape(flat, (d, h, w))] for a
    [flat] of the matching size *)
Fixpoint chunks {A} (w : nat) (h : nat) (flat : list A) : list (list A) :=
  match h with
  | O => []
  | S h' => firstn w flat :: chunks w h' (skipn w flat)
  end.

Definition reshape_like_2d {A B} (shape : list (list A)) (flat : list B)
  : list (list B) :=
  chunks (length (hd [] shape)) (length shape) flat.

Definition reshape_like_3d {A B} (shape : list (list (list A))) (flat : list B)
  : list (list (list B)) :=
  let h := length (hd [] shape) in
  let w := length (hd [] (hd [] shape)) in
  map (chunks w h) (chunks (h * w) (length shape) flat).

Section GaussianSimulation.

Context {F : Type} {FA : Float64Arith F} {FC : Float64Cast F}.

(** The functions of [spot_modeling] the decomposer calls, and the type of
    the tables [precompute_erf] builds. *)
Variable erf_table : Type.
Variable _initialize_grid_2d : list (list F) -> F -> list (F * F).
Variable _initialize_grid_3d : list (list (list F)) -> F -> F -> list (F * F * F).
Variable _gaussian_2d :
  list (F * F) -> F -> F -> F -> F -> F -> F -> erf_table -> list F.
Variable _gaussian_3d :
  list (F * F * F) -> F -> F -> F -> F -> F -> F -> F -> F -> F -> erf_table ->
  list F.

Definition _gaussian_mixture_3d (fuel : nat) (image_dtype : dtype)
    (image : list (list (list F))) (region : region F)
    (voxel_size_z voxel_size_yx sigma_z sigma_yx amplitude background : F)
    (precomputed_gaussian : erf_table) (limit_gaussian : Z)
  : M (list (list (list F)) * list (list (list F)) * list (F * F * F)) :=
  (* get an image of the region *)
  let box := bbox region in
  b0 <- tuple_get 0 box ;; b3 <- tuple_get 3 box ;;
  b1 <- tuple_get 1 box ;; b4 <- tuple_get 4 box ;;
  b2 <- tuple_get 2 box ;; b5 <- tuple_get 5 box ;;
  let image_region :=
    map (fun plane => map (py_slice b2 b5) (py_slice b1 b4 plane))
        (py_slice b0 b3 image) in
  let image_region_raw := flatten (Arr3 image_region) in
  (* build a grid to represent this image *)
  let grid := _initialize_grid_3d image_region voxel_size_z voxel_size_yx in
  (* add a gaussian for each local maximum while the RSS decreases *)
  '(best_simulation, positions_gaussian, _) <-
    fit_region
      (fun pos background =>
         let '(mu_z, mu_y, mu_x) := pos in
         _gaussian_3d grid mu_z mu_y mu_x sigma_z sigma_yx voxel_size_z
                      voxel_size_yx amplitude background precomputed_gaussian)
      grid image_region_raw limit_gaussian fuel background ;;
  let best_simulation := reshape_like_3d image_region best_simulation in
  max_value_dtype <- np_iinfo_max image_dtype ;;
  let best_simulation :=
    map (map (map (np_clip max_value_dtype))) best_simulation in
  let best_simulation := map (map (map (astype image_dtype))) best_simulation in
  ret (image_region, best_simulation, positions_gaussian).

Definition _gaussian_mixture_2d (fuel : nat) (image_dtype : dtype)
    (image : list (list F)) (region : region F)
    (voxel_size_yx sigma_yx amplitude background : F)
    (precomputed_gaussian : erf_table) (limit_gaussian : Z)
  : M (list (list F) * list (list F) * list (F * F)) :=
  (* get an image of the region *)
  let box := bbox region in
  b0 <- tuple_get 0 box ;; b2 <- tuple_get 2 box ;;
  b1 <- tuple_get 1 box ;; b3 <- tuple_get 3 box ;;
  let image_region := map (py_slice b1 b3) (py_slice b0 b2 image) in
  let image_region_raw := flatten (Arr2 image_region) in
  (* build a grid to represent this image *)
  let grid := _initialize_grid_2d image_region voxel_size_yx in
  (* add a gaussian for each local maximum while the RSS decreases *)
  '(best_simulation, positions_gaussian, _) <-
    fit_region
      (fun pos background =>
         let '(mu_y, mu_x) := pos in
         _gaussian_2d grid mu_y mu_x sigma_yx voxel_size_yx amplitude
                      background precomputed_gaussian)
      grid image_region_raw limit_gaussian fuel background ;;
  let best_simulation := reshape_like_2d image_region best_simulation in
  max_value_dtype <- np_iinfo_max image_dtype ;;
  let best_simulation := map (map (np_clip max_value_dtype)) best_simulation in
  let best_simulation := map (map (astype image_dtype)) best_simulation in
  ret (image_region, best_simulation, positions_gaussian).

(** [np.array(row, dtype=np.int64)] on one entry *)
Definition to_int64 (x : pynum F) : Z :=
  match x with
  | PyInt n => n
  | PyFloat x => trunc x
  end.

(** [x / voxel_size + min_] for a fitted coordinate *)
Definition to_pixel (x voxel_size : F) (min_ : Z) : F :=
  fadd (fdiv x voxel_size) (of_int min_).

(** The body of the loop over 3-d regions, lines 540-555, once the
    region is fitted. *)
Definition reconcile_3d (i_region : Z) (region : region F)
    (voxel_size_z voxel_size_yx : F) (coord_gaussian : list (F * F * F))
  : M (list (list Z) * list (pynum F)) :=
  match bbox region with
  | [min_z; min_y; min_x; _; _; _] =>
      let coord :=
        map (fun '(z, y, x) => (to_pixel z voxel_size_z min_z,
                                to_pixel y voxel_size_yx min_y,
                                to_pixel x voxel_size_yx min_x))
            coord_gaussian in
      match coord with
      | [] => raise (IndexError "too many indices for array")
      | (region_z, region_y, region_x) :: _ =>
          let spots_in_region :=
            map (fun '(z, y, x) => [trunc z; trunc y; trunc x; i_region]) coord in
          let nb_rna_region := Z.of_nat (length coord) in
          let region_area := area region in
          let region_intensity := mean_intensity region in
          ret (spots_in_region,
               [PyFloat region_z; PyFloat region_y; PyFloat region_x;
                PyInt nb_rna_region; PyInt region_area;
                PyFloat region_intensity; PyInt i_region])
      end
  | _ => raise (ValueError "wrong number of values to unpack")
  end.

(** The same for 2-d regions, lines 570-585. *)
Definition reconcile_2d (i_region : Z) (region : region F)
    (voxel_size_yx : F) (coord_gaussian : list (F * F))
  : M (list (list Z) * list (pynum F)) :=
  match bbox region with
  | [min_y; min_x; _; _] =>
      let coord :=
        map (fun '(y, x) => (to_pixel y voxel_size_yx min_y,
                             to_pixel x voxel_size_yx min_x))
            coord_gaussian in
      match coord with
      | [] => raise (IndexError "too many indices for array")
      | (region_y, region_x) :: _ =>
          let spots_in_region :=
            map (fun '(y, x) => [trunc y; trunc x; i_region]) coord in
          let nb_rna_region := Z.of_nat (length coord) in
          let region_area := area region in
          let region_intensity := mean_intensity region in
          ret (spots_in_region,
               [PyFloat region_y; PyFloat region_x;
                PyInt nb_rna_region; PyInt region_area;
                PyFloat region_intensity; PyInt i_region])
      end
  | _ => raise (ValueError "wrong number of values to unpack")
  end.

(** [for i_region, region in enumerate(candidate_regions)], accumulating
    [spots_in_regions] and [regions]. *)
Fixpoint for_regions
    (body : Z -> region F -> M (list (list Z) * list (pynum F)))
    (i_region : Z) (candidate_regions : list (region F))
  : M (list (list (list Z)) * list (list (pynum F))) :=
  match candidate_regions with
  | [] => ret ([], [])
  | region :: rest =>
      '(spots_in_region, row) <- body i_region region ;;
      '(spots_in_regions, regions) <- for_regions body (i_region + 1) rest ;;
      ret (spots_in_region :: spots_in_regions, row :: regions)
  end.

Definition is_none {A} (o : option A) : bool :=
  match o with None => true | Some _ => false end.

Definition simulate_gaussian_mixture (fuel : nat) (image : ndarray F)
    (candidate_regions : list (region F))
    (voxel_size_z : option F) (voxel_size_yx : F)
    (sigma_z : option F) (sigma_yx amplitude background : F)
    (precomputed_gaussian : erf_table)
  : M (int_array * int_array) :=
  (* check parameters *)
  if fltb background (of_int 0)
  then raise (ValueError "Background value can't be negative: {0}") else
  (* check number of dimensions *)
  let ndim := ndim image in
  if (ndim =? 3)%nat && is_none voxel_size_z
  then raise (ValueError "Provided image has {0} dimensions but 'voxel_size_z' parameter is missing.") else
  if (ndim =? 3)%nat && is_none sigma_z
  then raise (ValueError "Provided image has {0} dimensions but 'sigma_z' parameter is missing.") else
  (* simulate gaussian mixtures in the candidate regions... *)
  '(spots_in_regions, regions) <-
    match nd_data image, voxel_size_z, sigma_z with
    (* ... for 3-d regions... *)
    | Arr3 px, Some voxel_size_z, Some sigma_z =>
        for_regions
          (fun i_region region =>
             '(_, _, coord_gaussian) <-
               _gaussian_mixture_3d fuel (nd_dtype image) px region
                 voxel_size_z voxel_size_yx sigma_z sigma_yx amplitude
                 background precomputed_gaussian 1000 ;;
             reconcile_3d i_region region voxel_size_z voxel_size_yx
                          coord_gaussian)
          0 candidate_regions
    (* excluded by the two checks above *)
    | Arr3 _, _, _ => raise (ValueError "Provided image has {0} dimensions but 'voxel_size_z' parameter is missing.")
    (* ... or 2-d regions *)
    | Arr2 px, _, _ =>
        for_regions
          (fun i_region region =>
             '(_, _, coord_gaussian) <-
               _gaussian_mixture_2d fuel (nd_dtype image) px region
                 voxel_size_yx sigma_yx amplitude background
                 precomputed_gaussian 1000 ;;
             reconcile_2d i_region region voxel_size_yx coord_gaussian)
          0 candidate_regions
    end ;;
  match spots_in_regions with
  | [] => raise (ValueError "need at least one array to concatenate")
  | _ =>
      let spots_in_regions := IntArray (ndim + 1) (concat spots_in_regions) in
      let regions := IntArray (ndim + 4) (map (map to_int64) regions) in
      ret (spots_in_regions, regions)
  end.

End GaussianSimulation.

(* ================================================================== *)
(** * Dense regions and the main function *)

(** The messages of the [ValueError]s of the parameter checks,
    lines 100-121. *)
Definition alpha_message : string :=
  "'alpha' should be a value between 0 and 1, not {0}".
Definition beta_message : string :=
  "'beta' should be a positive value, not {0}".
Definition gamma_message : string :=
  "'gamma' should be a positive value, not {0}".
Definition voxel_size_z_message : string :=
  "Provided image has {0} dimensions but 'voxel_size_z' parameter is missing.".
Definition psf_z_message : string :=
  "Provided image has {0} dimensions but 'psf_z' parameter is missing.".
Definition rank_message : string :=
  "Provided image has {0} dimensions but spots are detected in {1} dimensions.".

Section DenseRegions.

Context {F : Type} {FA : Float64Arith F} {FC : Float64Cast F}.

(** Collaborators: [spot_modeling.build_reference_spot] and the two
    [skimage.measure] functions. *)
Variable build_reference_spot :
  ndarray F -> int_array -> option F -> F -> option F -> F -> F -> ndarray F.
Variable label : nd bool -> nd Z.
Variable regionprops : nd Z -> ndarray F -> list (region F).

(** [a.max()] *)
Definition np_max (a : ndarray F) : M F :=
  match flatten (nd_data a) with
  | [] => raise (ValueError "zero-size array to reduction operation maximum which has no identity")
  | x :: t => ret (fold_left (fun m y => if fltb m y then y else m) t x)
  end.

(** [int(max * beta)] *)
Definition dense_threshold (max_ beta : F) : Z := trunc (fmul max_ beta).

(** [image > threshold] on one pixel *)
Definition above (threshold : Z) (pixel : F) : bool :=
  fltb (of_int threshold) pixel.

Definition _get_connected_region (image : ndarray F) (threshold : Z) : nd Z :=
  (* compute binary mask of the filtered image *)
  let mask := nd_map (above threshold) (nd_data image) in
  (* find connected components *)
  let cc := label mask in
  cc.

Definition _filter_connected_region (image : ndarray F)
    (connected_component : nd Z) (spots : int_array)
  : M (list (region F) * int_array * Z) :=
  (* get properties of the different connected regions *)
  let regions := regionprops connected_component image in
  (* get different features of the regions *)
  let area_ := map (@area F) regions in
  let bbox_ := map (@bbox F) regions in
  (* keep regions with a minimum size *)
  let big_area := map (fun a => 2 <=? a) area_ in
  let regions_filtered := mask_select big_area regions in
  let bbox_filtered := mask_select big_area bbox_ in
  (* case where no region big enough were detected *)
  if (length regions =? 0)%nat then ret ([], spots, 0) else
  '(spots_out_region, max_region_size) <-
    _filter_spot_out_candidate_regions bbox_filtered spots (ndim image) ;;
  ret (regions_filtered, spots_out_region, max_region_size).

Definition get_dense_region (image : ndarray F) (spots : int_array)
    (voxel_size_z : option F) (voxel_size_yx : F)
    (psf_z : option F) (psf_yx : F) (beta : F)
  : M (list (region F) * int_array * Z) :=
  (* check parameters *)
  if fltb beta (of_int 0)
  then raise (ValueError beta_message) else
  (* check number of dimensions *)
  let ndim := ndim image in
  if (ndim =? 3)%nat && is_none voxel_size_z
  then raise (ValueError voxel_size_z_message) else
  if (ndim =? 3)%nat && is_none psf_z
  then raise (ValueError psf_z_message) else
  if negb (ndim =? shape1 spots)%nat
  then raise (ValueError rank_message) else
  let '(voxel_size_z, psf_z) :=
    if (ndim =? 2)%nat then (None, None) else (voxel_size_z, psf_z) in
  (* estimate median spot value and a threshold to detect dense regions *)
  let median_spot :=
    build_reference_spot image spots voxel_size_z voxel_size_yx psf_z psf_yx
                         (fdiv (of_int 1) (of_int 2)) in
  max_ <- np_max median_spot ;;
  let threshold := dense_threshold max_ beta in
  (* get connected regions *)
  let connected_regions := _get_connected_region image threshold in
  (* filter connected regions *)
  _filter_connected_region image connected_regions spots.

(** The remaining collaborators of [decompose_dense]. *)
Variable erf_table : Type.
Variable _initialize_grid_2d : list (list F) -> F -> list (F * F).
Variable _initialize_grid_3d : list (list (list F)) -> F -> F -> list (F * F * F).
Variable _gaussian_2d :
  list (F * F) -> F -> F -> F -> F -> F -> F -> erf_table -> list F.
Variable _gaussian_3d :
  list (F * F * F) -> F -> F -> F -> F -> F -> F -> F -> F -> F -> erf_table ->
  list F.
Variable get_sigma : option F -> F -> option F -> F -> list F.
Variable remove_background_gaussian : ndarray F -> list F -> ndarray F.
Variable modelize_spot : ndarray F -> option F -> F -> option F -> F -> list F.
Variable precompute_erf : option F -> F -> option F -> F -> Z -> erf_table.

(** [np.zeros((5,) * ndim, dtype=image.dtype)] *)
Definition zeros_5 (image : ndarray F) : ndarray F :=
  NdArray (nd_dtype image)
    (match nd_data image with
     | Arr2 _ => Arr2 (repeat (repeat f0 5) 5)
     | Arr3 _ => Arr3 (repeat (repeat (repeat f0 5) 5) 5)
     end).

(** [np.array([], dtype=np.int64).reshape((0, ndim + 4))] *)
Definition no_dense_regions (ndim : nat) : int_array := IntArray (ndim + 4) [].

Definition less_spots_message : string :=
  "Problem occurs during the decomposition of dense regions. Less spots are detected after the decomposition than before.".

Definition decompose_dense (fuel : nat) (image : ndarray F) (spots : int_array)
    (voxel_size_z : option F) (voxel_size_yx : F)
    (psf_z : option F) (psf_yx : F) (alpha beta gamma : F)
  : M (int_array * int_array * ndarray F) :=
  (* check parameters *)
  if fltb alpha (of_int 0) || fltb (of_int 1) alpha
  then raise (ValueError alpha_message) else
  if fltb beta (of_int 0) then raise (ValueError beta_message) else
  if fltb gamma (of_int 0) then raise (ValueError gamma_message) else
  (* check number of dimensions *)
  let ndim := ndim image in
  if (ndim =? 3)%nat && is_none voxel_size_z
  then raise (ValueError voxel_size_z_message) else
  if (ndim =? 3)%nat && is_none psf_z
  then raise (ValueError psf_z_message) else
  if negb (ndim =? shape1 spots)%nat
  then raise (ValueError rank_message) else
  let '(voxel_size_z, psf_z) :=
    if (ndim =? 2)%nat then (None, None) else (voxel_size_z, psf_z) in
  (* case where no spot were detected *)
  if (size spots =? 0)%nat
  then ret (spots, no_dense_regions ndim, zeros_5 image) else
  (* compute expected standard deviation of the spots *)
  let sigma := get_sigma voxel_size_z voxel_size_yx psf_z psf_yx in
  let large_sigma := map (fun sigma_ => fmul sigma_ gamma) sigma in
  (* denoise the image *)
  let image_denoised :=
    if fltb (of_int 0) gamma
    then remove_background_gaussian image large_sigma
    else image in
  (* build a reference median spot *)
  let reference_spot :=
    build_reference_spot image_denoised spots voxel_size_z voxel_size_yx
                         psf_z psf_yx alpha in
  (* case with an empty frame as reference spot *)
  if feqb (np_sum (flatten (nd_data reference_spot))) (of_int 0)
  then ret (spots, no_dense_regions ndim, reference_spot) else
  (* fit a gaussian function on the reference spot to be able to simulate it *)
  let parameters_fitted :=
    modelize_spot reference_spot voxel_size_z voxel_size_yx psf_z psf_yx in
  '(sigma_z, sigma_yx, amplitude, background) <-
    (if (ndim =? 3)%nat
     then match parameters_fitted with
          | [sigma_z; sigma_yx; amplitude; background] =>
              ret (Some sigma_z, sigma_yx, amplitude, background)
          | _ => raise (ValueError "wrong number of values to unpack")
          end
     else match parameters_fitted with
          | [sigma_yx; amplitude; background] =>
              ret (None, sigma_yx, amplitude, background)
          | _ => raise (ValueError "wrong number of values to unpack")
          end) ;;
  (* use connected components to detect dense and bright regions *)
  '(regions_to_decompose, spots_out_regions, region_size) <-
    get_dense_region image_denoised spots voxel_size_z voxel_size_yx
                     psf_z psf_yx beta ;;
  (* case where no region where detected *)
  if (length regions_to_decompose =? 0)%nat
  then ret (spots, no_dense_regions ndim, reference_spot) else
  (* precompute gaussian function values *)
  let max_grid := Z.max 200 (region_size + 1) in
  let precomputed_gaussian :=
    precompute_erf voxel_size_z voxel_size_yx sigma_z sigma_yx max_grid in
  (* simulate gaussian mixtures in the dense regions *)
  '(spots_in_regions, dense_regions) <-
    simulate_gaussian_mixture _initialize_grid_2d _initialize_grid_3d
      _gaussian_2d _gaussian_3d fuel image_denoised regions_to_decompose
      voxel_size_z voxel_size_yx sigma_z sigma_yx amplitude background
      precomputed_gaussian ;;
  (* normally the number of detected spots should increase *)
  (if (length (rows spots_out_regions) + length (rows spots_in_regions)
       <? length (rows spots))%nat
   then warn less_spots_message
   else ret tt) ;;;
  (* merge outside and inside spots *)
  if negb (shape1 spots_out_regions =? Nat.min ndim (shape1 spots_in_regions))%nat
  then raise (ValueError "all the input array dimensions except for the concatenation axis must match exactly") else
  let spots :=
    IntArray (shape1 spots_out_regions)
             (rows spots_out_regions
              ++ map (firstn ndim) (rows spots_in_regions)) in
  ret (spots, dense_regions, reference_spot).

End DenseRegions.

(* ================================================================== *)
(** * Two implementations of the arithmetic *)

(** Exact rational arithmetic. It agrees with [float64] on every run whose
    values are dyadic rationals of small size, which is the case of the
    runs evaluated below. Results are kept in lowest terms. *)
Module Rational.

Definition qltb (a b : Q) : bool :=
  match Qcompare a b with Lt => true | _ => false end.

#[export] Instance Q_arith : Float64Arith Q := {|
  f0 := 0%Q;
  fadd a b := Qred (a + b);
  fsub a b := Qred (a - b);
  fmul a b := Qred (a * b);
  fltb := qltb;
  feqb := Qeq_bool;
  of_int := inject_Z;
  np_sum l := fold_left (fun s x => Qred (s + x)) l 0%Q
|}.

#[export] Instance Q_cast : Float64Cast Q := {|
  fdiv a b := Qred (a / b);
  trunc q := Z.quot (Qnum q) (Zpos (Qden q))
|}.

(** Modelled from the spec: [_initialize_grid_2d] of [spot_modeling], the
    coordinate grid covering the patch, expressed in physical units (pixel
    index times voxel size per axis), in row-major order. *)
Definition index_grid_2d (image_region : list (list Q)) (voxel_size_yx : Q)
  : list (Q * Q) :=
  concat
    (map (fun '(y, row) =>
            map (fun x => (Qred (inject_Z (Z.of_nat y) * voxel_size_yx),
                           Qred (inject_Z (Z.of_nat x) * voxel_size_yx)))
                (seq 0 (length row)))
         (combine (seq 0 (length image_region)) image_region)).

Definition index_grid_3d (image_region : list (list (list Q)))
    (voxel_size_z voxel_size_yx : Q) : list (Q * Q * Q) :=
  concat
    (map (fun '(z, plane) =>
            map (fun '(y, x) =>
                   (Qred (inject_Z (Z.of_nat z) * voxel_size_z), y, x))
                (index_grid_2d plane voxel_size_yx))
         (combine (seq 0 (length image_region)) image_region)).

(** A stand-in for [_gaussian_2d]: the response of a PSF far narrower than
    a voxel, which is [psf_amplitude] on the voxel of its centre and
    nothing elsewhere, over the background. *)
Definition point_gaussian_2d (grid : list (Q * Q))
    (mu_y mu_x sigma_yx voxel_size_yx psf_amplitude psf_background : Q)
    (precomputed : unit) : list Q :=
  map (fun '(y, x) =>
         if Qeq_bool y mu_y && Qeq_bool x mu_x
         then Qred (psf_background + psf_amplitude)
         else psf_background)
      grid.

Definition point_gaussian_3d (grid : list (Q * Q * Q))
    (mu_z mu_y mu_x sigma_z sigma_yx voxel_size_z voxel_size_yx
     psf_amplitude psf_background : Q)
    (precomputed : unit) : list Q :=
  map (fun '(z, y, x) =>
         if Qeq_bool z mu_z && Qeq_bool y mu_y && Qeq_bool x mu_x
         then Qred (psf_background + psf_amplitude)
         else psf_background)
      grid.

(** [simulate_gaussian_mixture] and [_gaussian_mixture_2d] with these. *)
Definition simulate (fuel : nat) (image : ndarray Q)
    (candidate_regions : list (region Q))
    (voxel_size_z : option Q) (voxel_size_yx : Q)
    (sigma_z : option Q) (sigma_yx amplitude background : Q)
  : M (int_array * int_array) :=
  simulate_gaussian_mixture index_grid_2d index_grid_3d
    point_gaussian_2d point_gaussian_3d fuel image candidate_regions
    voxel_size_z voxel_size_yx sigma_z sigma_yx amplitude background tt.

Definition mixture_2d (fuel : nat) (image : ndarray Q) (region : region Q)
    (voxel_size_yx sigma_yx amplitude background : Q) (limit_gaussian : Z)
  : M (list (list Q) * list (list Q) * list (Q * Q)) :=
  match nd_data image with
  | Arr2 px =>
      _gaussian_mixture_2d index_grid_2d point_gaussian_2d fuel
        (nd_dtype image) px region voxel_size_yx sigma_yx amplitude
        background tt limit_gaussian
  | Arr3 _ => raise (ValueError "not a 2-d image")
  end.

(** A [uint16] image of one row, two pixels of value 600, which make one
    region. *)
Definition bright_pair : ndarray Q := NdArray uint16 (Arr2 [[600%Q; 600%Q]]).
Definition bright_pair_region : region Q := Region [0; 0; 1; 2] 2 600%Q.

(** A [uint16] image of one row, pixels 5 and 6, which make one region of
    mean intensity 5.5. *)
Definition uneven_pair : ndarray Q := NdArray uint16 (Arr2 [[5%Q; 6%Q]]).
Definition uneven_pair_region : region Q := Region [0; 0; 1; 2] 2 (11 # 2)%Q.

(** The same pixels held as [float32]. *)
Definition float_pair : ndarray Q := NdArray float32 (Arr2 [[5%Q; 6%Q]]).

(** Stand-ins for the collaborators of [decompose_dense], to run it on the
    images above: no background is removed; the reference spot is a patch
    of 5 x 5 pixels of value 4; the parameters fitted on it are a sigma of
    1, an amplitude of 5 and no background; a pixel above the threshold has
    label 1, and the labelled pixels make the region of the two pixels. *)
Definition sigma_of (voxel_size_z : option Q) (voxel_size_yx : Q)
    (psf_z : option Q) (psf_yx : Q) : list Q :=
  [Qred (psf_yx / voxel_size_yx); Qred (psf_yx / voxel_size_yx)].

Definition keep_background (image : ndarray Q) (sigma : list Q) : ndarray Q :=
  image.

Definition flat_reference_spot (image : ndarray Q) (spots : int_array)
    (voxel_size_z : option Q) (voxel_size_yx : Q) (psf_z : option Q)
    (psf_yx alpha : Q) : ndarray Q :=
  NdArray (nd_dtype image) (Arr2 (repeat (repeat 4%Q 5) 5)).

Definition fitted_parameters (reference_spot : ndarray Q)
    (voxel_size_z : option Q) (voxel_size_yx : Q) (psf_z : option Q)
    (psf_yx : Q) : list Q :=
  [1%Q; 5%Q; 0%Q].

Definition label_above (mask : nd bool) : nd Z :=
  nd_map (fun b : bool => if b then 1 else 0) mask.

Definition region_of_pair (cc : nd Z) (image : ndarray Q) : list (region Q) :=
  if existsb (fun l => negb (l =? 0)) (flatten cc)
  then [uneven_pair_region] else [].

Definition no_table (voxel_size_z : option Q) (voxel_size_yx : Q)
    (sigma_z : option Q) (sigma_yx : Q) (max_grid : Z) : unit := tt.

Definition decompose (fuel : nat) (image : ndarray Q) (spots : int_array)
    (voxel_size_z : option Q) (voxel_size_yx : Q) (psf_z : option Q)
    (psf_yx alpha beta gamma : Q)
  : M (int_array * int_array * ndarray Q) :=
  decompose_dense flat_reference_spot label_above region_of_pair
    index_grid_2d index_grid_3d point_gaussian_2d point_gaussian_3d sigma_of
    keep_background fitted_parameters no_table fuel image spots voxel_size_z
    voxel_size_yx psf_z psf_yx alpha beta gamma.

(** Three spots detected on the two pixels. *)
Definition three_spots : int_array := IntArray 2 [[0; 0]; [0; 1]; [0; 1]].

(** A stand-in for [_initialize_grid_2d] whose points are shifted by
    [shift] pixels from the pixel indices: the pixel centres for a shift of
    one half. *)
Definition shifted_grid_2d (shift : Q) (image_region : list (list Q))
    (voxel_size_yx : Q) : list (Q * Q) :=
  concat
    (map (fun '(y, row) =>
            map (fun x =>
                   (Qred ((inject_Z (Z.of_nat y) + shift) * voxel_size_yx),
                    Qred ((inject_Z (Z.of_nat x) + shift) * voxel_size_yx)))
                (seq 0 (length row)))
         (combine (seq 0 (length image_region)) image_region)).

(** A [uint16] image of two rows whose pixels 5 and 6 are on the second
    row, from the second column on, and make one region away from the
    origin; three spots, the first one outside the region. *)
Definition corner_pair : ndarray Q :=
  NdArray uint16 (Arr2 [[0%Q; 0%Q; 0%Q]; [0%Q; 5%Q; 6%Q]]).
Definition corner_pair_region : region Q := Region [1; 1; 2; 3] 2 (11 # 2)%Q.

Definition region_of_corner (cc : nd Z) (image : ndarray Q)
  : list (region Q) :=
  if existsb (fun l => negb (l =? 0)) (flatten cc)
  then [corner_pair_region] else [].

Definition corner_spots : int_array := IntArray 2 [[0; 0]; [1; 1]; [1; 2]].

End Rational.

(** Integer arithmetic: the values of [float64] that are integers below
    [2^53], on which addition, subtraction and multiplication are exact. *)
Module Integer.

#[export] Instance Z_arith : Float64Arith Z := {|
  f0 := 0;
  fadd := Z.add;
  fsub := Z.sub;
  fmul := Z.mul;
  fltb := Z.ltb;
  feqb := Z.eqb;
  of_int z := z;
  np_sum l := fold_left Z.add l 0
|}.

(** A point response on a grid of pixel indices. *)
Definition point_response (n : nat) (amplitude : Z) (mu : nat) (background : Z)
  : list Z :=
  map (fun i => if (i =? mu)%nat then background + amplitude else background)
      (seq 0 n).

End Integer.

(* ================================================================== *)
(** * The statements of the specification, as definitions *)

(** A spot is inside a box when [min <= coord < max] on every axis. *)
Definition inside_box (nb_dim : nat) (box spot : list Z) : bool :=
  forallb (fun k => (nth k box 0 <=? nth k spot 0)
                    && (nth k spot 0 <? nth (nb_dim + k) box 0))
          (seq 0 nb_dim).

Definition inside_some_box (nb_dim : nat) (boxes : list (list Z))
    (spot : list Z) : bool :=
  existsb (fun box => inside_box nb_dim box spot) boxes.

Section Reconciled.

Context {F : Type} {FA : Float64Arith F} {FC : Float64Cast F}.
Variable erf_table : Type.
Variable _initialize_grid_2d : list (list F) -> F -> list (F * F).
Variable _initialize_grid_3d : list (list (list F)) -> F -> F -> list (F * F * F).
Variable _gaussian_2d :
  list (F * F) -> F -> F -> F -> F -> F -> F -> erf_table -> list F.
Variable _gaussian_3d :
  list (F * F * F) -> F -> F -> F -> F -> F -> F -> F -> F -> F -> erf_table ->
  list F.

(** The fitted positions of one region, as [simulate_gaussian_mixture]
    obtains them: one list of physical coordinates per position. *)
Definition fitted_positions (fuel : nat) (image : ndarray F)
    (region : region F) (voxel_size_z : option F) (voxel_size_yx : F)
    (sigma_z : option F) (sigma_yx amplitude background : F)
    (precomputed_gaussian : erf_table) : M (list (list F)) :=
  match nd_data image, voxel_size_z, sigma_z with
  | Arr3 px, Some voxel_size_z, Some sigma_z =>
      '(_, _, coord_gaussian) <-
        _gaussian_mixture_3d _initialize_grid_3d _gaussian_3d fuel
          (nd_dtype image) px region voxel_size_z voxel_size_yx sigma_z
          sigma_yx amplitude background precomputed_gaussian 1000 ;;
      ret (map (fun '(z, y, x) => [z; y; x]) coord_gaussian)
  | Arr3 _, _, _ => raise (ValueError voxel_size_z_message)
  | Arr2 px, _, _ =>
      '(_, _, coord_gaussian) <-
        _gaussian_mixture_2d _initialize_grid_2d _gaussian_2d fuel
          (nd_dtype image) px region voxel_size_yx sigma_yx amplitude
          background precomputed_gaussian 1000 ;;
      ret (map (fun '(y, x) => [y; x]) coord_gaussian)
  end.

(** The voxel size along each axis of the image. *)
Definition voxel_sizes (image : ndarray F) (voxel_size_z : option F)
    (voxel_size_yx : F) : list F :=
  match nd_data image, voxel_size_z with
  | Arr3 _, Some voxel_size_z => [voxel_size_z; voxel_size_yx; voxel_size_yx]
  | _, _ => [voxel_size_yx; voxel_size_yx]
  end.

(** The global pixel coordinates of a position, as floats: the physical
    coordinate divided by the voxel size of the axis, plus the minimum
    corner of the box. *)
Fixpoint global_coordinates (position voxels : list F) (box : list Z)
  : list F :=
  match position, voxels, box with
  | x :: position', v :: voxels', m :: box' =>
      to_pixel x v m :: global_coordinates position' voxels' box'
  | _, _, _ => []
  end.

(** The rows of a region in [spots_in_regions]: the global coordinates
    truncated, then the index of the region. *)
Definition fitted_rows (voxels : list F) (i_region : Z) (region : region F)
    (positions : list (list F)) : list (list Z) :=
  map (fun position =>
         map trunc (global_coordinates position voxels (bbox region))
         ++ [i_region])
      positions.

(** The row of a region in [regions]. *)
Definition region_summary (voxels : list F) (i_region : Z) (region : region F)
    (positions : list (list F)) : list Z :=
  map trunc (global_coordinates (hd [] positions) voxels (bbox region))
  ++ [Z.of_nat (length positions); area region;
      trunc (mean_intensity region); i_region].

(** The row the specification describes: float centroid, the first fitted
    position in global coordinates; spot count; area and mean intensity as
    the region has them; index. *)
Definition claimed_summary (voxels : list F) (i_region : Z) (region : region F)
    (positions : list (list F)) : list F :=
  global_coordinates (hd [] positions) voxels (bbox region)
  ++ [of_int (Z.of_nat (length positions)); of_int (area region);
      mean_intensity region; of_int i_region].

(** All regions, in their order, numbered from [i_region]. *)
Fixpoint all_fitted_rows (voxels : list F) (i_region : Z)
    (regions : list (region F)) (fits : list (list (list F)))
  : list (list Z) :=
  match regions, fits with
  | region :: regions', positions :: fits' =>
      fitted_rows voxels i_region region positions
      ++ all_fitted_rows voxels (i_region + 1) regions' fits'
  | _, _ => []
  end.

Fixpoint all_summaries (voxels : list F) (i_region : Z)
    (regions : list (region F)) (fits : list (list (list F)))
  : list (list Z) :=
  match regions, fits with
  | region :: regions', positions :: fits' =>
      region_summary voxels i_region region positions
      :: all_summaries voxels (i_region + 1) regions' fits'
  | _, _ => []
  end.

(** The coordinates of the fitted positions of all regions, truncated:
    what the fitted rows hold before the index of their region. *)
Fixpoint fitted_coordinates (voxels : list F) (regions : list (region F))
    (fits : list (list (list F))) : list (list Z) :=
  match regions, fits with
  | region :: regions', positions :: fits' =>
      map (fun position =>
             map trunc (global_coordinates position voxels (bbox region)))
          positions
      ++ fitted_coordinates voxels regions' fits'
  | _, _ => []
  end.

(** The row of a fitted position as the specification words it, without
    the code's conversion: along each axis [k] of the [n] axes, the physical
    coordinate divided by the voxel size of the axis, plus the minimum of
    the box along the axis (its bound [k]), truncated to an integer. *)
Definition claimed_spot (n : nat) (position voxels : list F) (box : list Z)
  : list Z :=
  map (fun k =>
         trunc (fadd (fdiv (nth k position f0) (nth k voxels f0))
                     (of_int (nth k box 0))))
      (seq 0 n).

(** The rows of the fitted positions of all regions, region after region. *)
Fixpoint claimed_spots (n : nat) (voxels : list F)
    (regions : list (region F)) (fits : list (list (list F)))
  : list (list Z) :=
  match regions, fits with
  | region :: regions', positions :: fits' =>
      map (fun position => claimed_spot n position voxels (bbox region))
          positions
      ++ claimed_spots n voxels regions' fits'
  | _, _ => []
  end.

(** A box of [2 n] bounds and positions of [n] coordinates. *)
Definition well_shaped (n : nat) (region : region F)
    (positions : list (list F)) : Prop :=
  length (bbox region) = (2 * n)%nat
  /\ Forall (fun position => length position = n) positions.

End Reconciled.

(** Invariants of the greedy loop. The number of positions is the number
    of Gaussians placed, and before the first placement [diff_ssr] is the
    integer [-1]. *)
Record count_inv {F P} (st : fit_state F P) : Prop := CountInv {
  inv_nb : 0 <= nb_gaussian st;
  inv_positions : length (positions_gaussian st) = Z.to_nat (nb_gaussian st);
  inv_first : nb_gaussian st = 0 -> diff_ssr st = PyInt (-1)
}.

(** The arrays of the loop keep the size of the patch, and [ssr] is the sum
    of the squared residuals. *)
Record shape_inv {F P} `{Float64Arith F} (image_region_raw : list F)
    (st : fit_state F P) : Prop := ShapeInv {
  inv_residual : length (residual st) = length image_region_raw;
  inv_simulation : length (simulation st) = length image_region_raw;
  inv_ssr : ssr st = sum_squares (residual st)
}.

(** The loop started in [st] stops, in a state [st'] that every larger
    number of iterations allowed reaches as well, and the positions of [st]
    are the first positions of [st']. *)
Definition stops_from {F P} `{Float64Arith F} (gaussian : P -> F -> list F)
    (grid : list P) (image_region_raw : list F) (limit_gaussian : Z)
    (st : fit_state F P) : Prop :=
  exists fuel st',
    (forall fuel', (fuel <= fuel')%nat ->
       while_loop gaussian grid image_region_raw limit_gaussian fuel' st
       = (Ok st', []))
    /\ exists l, positions_gaussian st' = positions_gaussian st ++ l.

(** The messages of the parameter checks of [decompose_dense]. *)
Definition argument_messages : list string :=
  [alpha_message; beta_message; gamma_message; voxel_size_z_message;
   psf_z_message; rank_message].

(** A computation that does not raise one of them. *)
Definition no_argument_error {A} (m : M A) : Prop :=
  forall msg, In msg argument_messages -> fst m <> Raise (ValueError msg).

Section Arguments.

Context {F : Type} {FA : Float64Arith F}.

(** The arguments the specification calls invalid: [alpha] outside
    [[0, 1]], [beta < 0], [gamma < 0], a 3-d image without its z geometry,
    or spots whose rank is not the rank of the image. *)
Definition invalid_argument (image_ndim spots_shape1 : nat)
    (voxel_size_z psf_z : option F) (alpha beta gamma : F) : bool :=
  fltb alpha (of_int 0) || fltb (of_int 1) alpha
  || fltb beta (of_int 0)
  || fltb gamma (of_int 0)
  || ((image_ndim =? 3)%nat && (is_none voxel_size_z || is_none psf_z))
  || negb (image_ndim =? spots_shape1)%nat.

(** The message of the first check that fails, which depends on the image
    through its rank only. *)
Definition argument_error (image_ndim spots_shape1 : nat)
    (voxel_size_z psf_z : option F) (alpha beta gamma : F) : option string :=
  if fltb alpha (of_int 0) || fltb (of_int 1) alpha then Some alpha_message
  else if fltb beta (of_int 0) then Some beta_message
  else if fltb gamma (of_int 0) then Some gamma_message
  else if (image_ndim =? 3)%nat && is_none voxel_size_z
  then Some voxel_size_z_message
  else if (image_ndim =? 3)%nat && is_none psf_z then Some psf_z_message
  else if negb (image_ndim =? spots_shape1)%nat then Some rank_message
  else None.

End Arguments.

Section Intermediate.

Context {F : Type} {FA : Float64Arith F}.
Variable build_reference_spot :
  ndarray F -> int_array -> option F -> F -> option F -> F -> F -> ndarray F.
Variable get_sigma : option F -> F -> option F -> F -> list F.
Variable remove_background_gaussian : ndarray F -> list F -> ndarray F.

(** The z geometry [decompose_dense] works with: none for a 2-d image. *)
Definition z_geometry (image : ndarray F) (voxel_size_z psf_z : option F)
  : option F * option F :=
  if (ndim image =? 2)%nat then (None, None) else (voxel_size_z, psf_z).

(** The image it detects the regions in and decomposes: the image without
    its background when [gamma > 0], the image itself otherwise. *)
Definition denoised_image (image : ndarray F) (voxel_size_z : option F)
    (voxel_size_yx : F) (psf_z : option F) (psf_yx gamma : F) : ndarray F :=
  let '(voxel_size_z, psf_z) := z_geometry image voxel_size_z psf_z in
  if fltb (of_int 0) gamma
  then remove_background_gaussian image
         (map (fun sigma_ => fmul sigma_ gamma)
              (get_sigma voxel_size_z voxel_size_yx psf_z psf_yx))
  else image.

(** Its reference spot. *)
Definition reference_spot_of (image : ndarray F) (spots : int_array)
    (voxel_size_z : option F) (voxel_size_yx : F) (psf_z : option F)
    (psf_yx alpha gamma : F) : ndarray F :=
  build_reference_spot
    (denoised_image image voxel_size_z voxel_size_yx psf_z psf_yx gamma)
    spots (fst (z_geometry image voxel_size_z psf_z)) voxel_size_yx
    (snd (z_geometry image voxel_size_z psf_z)) psf_yx alpha.

End Intermediate.

(** The number of pixels of the mask of [_get_connected_region]. *)
Definition count_above {F} `{Float64Arith F} (threshold : Z)
    (image : ndarray F) : nat :=
  length (filter (fun b : bool => b)
                 (flatten (nd_map (above threshold) (nd_data image)))).

(** The sides of a box, one per axis, and the largest side of the boxes,
    0 when there is none. *)
Definition box_sides (nb_dim : nat) (box : list Z) : list Z :=
  map (fun k => nth (nb_dim + k) box 0 - nth k box 0) (seq 0 nb_dim).

Definition largest_side (nb_dim : nat) (boxes : list (list Z)) : Z :=
  fold_left Z.max (flat_map (box_sides nb_dim) boxes) 0.

(** The message of the first check of [get_dense_region] that fails. *)
Definition detector_argument_error {F} `{Float64Arith F}
    (image_ndim spots_shape1 : nat) (voxel_size_z psf_z : option F) (beta : F)
  : option string :=
  if fltb beta (of_int 0) then Some beta_message
  else if (image_ndim =? 3)%nat && is_none voxel_size_z
  then Some voxel_size_z_message
  else if (image_ndim =? 3)%nat && is_none psf_z then Some psf_z_message
  else if negb (image_ndim =? spots_shape1)%nat then Some rank_message
  else None.

(** The image Gaussians placed one after the other at [positions] add up
    to, from [simulation]: the first one is drawn with [background], the
    following ones with none. *)
Fixpoint add_gaussians {F P} `{Float64Arith F} (gaussian : P -> F -> list F)
    (simulation : list F) (background : F) (positions : list P) : list F :=
  match positions with
  | [] => simulation
  | pos :: positions =>
      add_gaussians gaussian (map2 fadd simulation (gaussian pos background))
                    (of_int 0) positions
  end.

(** The background the next Gaussian is drawn with. *)
Definition next_background {F P} `{Float64Arith F} (background : F)
    (positions : list P) : F :=
  match positions with
  | [] => background
  | _ => of_int 0
  end.

(** An invariant of the greedy loop, as long as the number of Gaussians has
    not met the limit: the simulation is the sum of the Gaussians placed,
    and the best simulation is the current one when the last Gaussian
    lowered the sum of squares, the one before it otherwise. *)
Record sum_inv {F P} `{Float64Arith F} (gaussian : P -> F -> list F)
    (image_region_raw : list F) (background0 : F) (st : fit_state F P)
  : Prop := SumInv {
  inv_sum :
    simulation st
    = add_gaussians gaussian (map (fun _ => f0) image_region_raw) background0
                    (positions_gaussian st);
  inv_background :
    background st = next_background background0 (positions_gaussian st);
  inv_best :
    match diff_ssr st with
    | PyInt n =>
        n = -1 /\ positions_gaussian st = []
        /\ best_simulation st = map (fun _ => f0) image_region_raw
    | PyFloat d =>
        positions_gaussian st <> []
        /\ best_simulation st
           = if fltb d f0 then simulation st
             else add_gaussians gaussian (map (fun _ => f0) image_region_raw)
                                background0
                                (removelast (positions_gaussian st))
    end
}.

(** A value of the range of an unsigned type, held as a float. *)
Definition in_range {F} `{Float64Arith F} (max_value_dtype : Z) (x : F)
  : Prop :=
  exists k, x = of_int k /\ 0 <= k <= max_value_dtype.

(** A computation that records no warning. *)
Definition silent {A} (m : M A) : Prop := snd m = [].

(* ================================================================== *)
(** * Properties *)

Unset Implicit Arguments.

(** ** The monad *)

Lemma bind_ret {A B} (a : A) (f : A -> M B) : bind (ret a) f = f a.
Proof. unfold bind, ret. destruct (f a); reflexivity. Qed.

Lemma bind_raise {A B} (e : exn) (f : A -> M B) : bind (raise e) f = raise e.
Proof. reflexivity. Qed.

Lemma bind_Ok {A B} (a : A) (w : list warning) (f : A -> M B) :
  bind (Ok a, w) f = (fst (f a), w ++ snd (f a)).
Proof. unfold bind. destruct (f a); reflexivity. Qed.

Lemma bind_Ok_nil {A B} (a : A) (f : A -> M B) : bind (Ok a, []) f = f a.
Proof. exact (bind_ret a f). Qed.

(** What a successful [bind] is made of. *)
Lemma bind_Ok_inv {A B} (m : M A) (f : A -> M B) (b : B) (w : list warning) :
  bind m f = (Ok b, w) ->
  exists a w1 w2, m = (Ok a, w1) /\ f a = (Ok b, w2) /\ w = w1 ++ w2.
Proof.
  destruct m as [[a | e |] w1]; simpl; try discriminate.
  destruct (f a) as [r w2] eqn:E. intros H. inversion H; subst.
  exists a, w1, w2. auto.
Qed.

(** Computations that record no warning compose. *)
Lemma silent_ret {A} (a : A) : silent (ret a).
Proof. reflexivity. Qed.

Lemma silent_raise {A} (e : exn) : silent (@raise A e).
Proof. reflexivity. Qed.

Lemma silent_bind {A B} (m : M A) (f : A -> M B) :
  silent m -> (forall a, silent (f a)) -> silent (bind m f).
Proof.
  unfold silent. destruct m as [[a | e |] w]; simpl; intros -> Hf; auto.
  specialize (Hf a). destruct (f a); simpl in *. assumption.
Qed.

Lemma silent_eq {A} (m : M A) (r : result A) (w : list warning) :
  silent m -> m = (r, w) -> w = [].
Proof. unfold silent. intros H E. rewrite E in H. exact H. Qed.

Create HintDb silent.
#[local] Hint Resolve silent_ret silent_raise : silent.

(** Going through the [bind]s, the pattern matchings and the tests of a
    computation to show that it is silent. *)
Ltac silent_step :=
  match goal with
  | |- silent (bind _ _) => apply silent_bind; [| intros ?]
  | |- silent (ret _) => apply silent_ret
  | |- silent (raise _) => apply silent_raise
  | |- silent (match ?x with _ => _ end) => destruct x
  | |- silent (if ?c then _ else _) => destruct c
  | |- silent _ => solve [auto with silent]
  end.

Ltac silent_auto := cbv zeta; repeat (silent_step; cbv zeta).

(** Computations that raise no argument error compose. *)
Lemma nae_ret {A} (a : A) : no_argument_error (ret a).
Proof. intros msg _. discriminate. Qed.

Lemma nae_raise_index {A} (msg : string) :
  no_argument_error (@raise A (IndexError msg)).
Proof. intros ? _. discriminate. Qed.

Lemma nae_raise {A} (msg : string) :
  ~ In msg argument_messages -> no_argument_error (@raise A (ValueError msg)).
Proof. intros Hn msg' Hin E. inversion E; subst. contradiction. Qed.

Lemma nae_out_of_fuel {A} (w : list warning) :
  no_argument_error (@OutOfFuel A, w).
Proof. intros ? _. discriminate. Qed.

Lemma nae_bind {A B} (m : M A) (f : A -> M B) :
  no_argument_error m -> (forall a, no_argument_error (f a)) ->
  no_argument_error (bind m f).
Proof.
  unfold no_argument_error. destruct m as [[a | e |] w]; intros Hm Hf.
  - intros msg Hin. specialize (Hf a msg Hin). simpl. destruct (f a); exact Hf.
  - intros msg Hin E. apply (Hm msg Hin). simpl in *. congruence.
  - intros; discriminate.
Qed.

Create HintDb nae.
#[local] Hint Resolve nae_ret nae_raise_index nae_out_of_fuel : nae.

(** A message that is not a message of the parameter checks. *)
Ltac other_message :=
  let H := fresh in
  intros H; simpl in H;
  repeat (destruct H as [H | H]; [discriminate H |]); exact H.

Ltac nae_step :=
  match goal with
  | |- no_argument_error (bind _ _) => apply nae_bind; [| intros ?]
  | |- no_argument_error (ret _) => apply nae_ret
  | |- no_argument_error (raise (IndexError _)) => apply nae_raise_index
  | |- no_argument_error (raise (ValueError _)) =>
      apply nae_raise; other_message
  | |- no_argument_error (OutOfFuel, _) => apply nae_out_of_fuel
  | |- no_argument_error (match ?x with _ => _ end) => destruct x
  | |- no_argument_error (if ?c then _ else _) => destruct c
  | |- no_argument_error _ => solve [auto with nae]
  end.

Ltac nae_auto := cbv zeta; repeat (nae_step; cbv zeta).

(** Taking apart a sequence of [bind]s that has returned. *)
Ltac peel_binds E :=
  repeat first
    [ apply bind_Ok_inv in E as (? & ? & ? & ? & E & ?)
    | match type of E with
      | context [match ?x with _ => _ end] => is_var x; destruct x
      end ].

(** ** Lists *)

Lemma map2_map {A B C D} (f : B -> C -> D) (g : A -> B) (h : A -> C)
    (l : list A) :
  map2 f (map g l) (map h l) = map (fun x => f (g x) (h x)) l.
Proof. induction l as [| x l IH]; simpl; [reflexivity | now rewrite IH]. Qed.

Lemma mask_select_map {A} (p : A -> bool) (l : list A) :
  mask_select (map p l) l = filter p l.
Proof.
  induction l as [| x l IH]; simpl; [reflexivity |].
  destruct (p x); now rewrite IH.
Qed.

Lemma length_map2 {A B C} (f : A -> B -> C) (l : list A) (l' : list B) :
  length (map2 f l l') = Nat.min (length l) (length l').
Proof.
  revert l'; induction l as [| a l IH]; intros [| b l']; simpl; auto.
Qed.

(** ** Spots outside the candidate regions *)

Section PartitionProofs.

Variable spots : int_array.

Lemma column_in_range (k : nat) :
  (k < shape1 spots)%nat ->
  column k spots = ret (map (fun r => nth k r 0) (rows spots)).
Proof.
  intros H. unfold column.
  destruct (Nat.ltb_spec k (shape1 spots)); [reflexivity | lia].
Qed.

(** One iteration on a well-formed box multiplies the mask by "not inside
    this box". *)
Lemma step_3d_mask (g : list Z -> bool) (m : Z) (box : list Z) :
  shape1 spots = 3%nat -> length box = 6%nat ->
  exists m',
    step_3d spots (map g (rows spots), m) box =
    ret (map (fun s => g s && negb (inside_box 3 box s)) (rows spots), m').
Proof.
  intros Hs Hb.
  destruct box as [| a [| b [| c [| d [| e [| f [| ? ?]]]]]]]; try discriminate.
  eexists. unfold step_3d.
  rewrite !column_in_range by lia. rewrite !bind_ret. cbv zeta.
  repeat first [rewrite map_map | rewrite map2_map].
  f_equal. f_equal. apply map_ext. intros s.
  unfold inside_box; simpl.
  destruct (g s), (nth 0 s 0 <? d), (nth 1 s 0 <? e), (nth 2 s 0 <? f),
    (a <=? nth 0 s 0), (b <=? nth 1 s 0), (c <=? nth 2 s 0); reflexivity.
Qed.

Lemma step_2d_mask (g : list Z -> bool) (m : Z) (box : list Z) :
  (2 <= shape1 spots)%nat -> length box = 4%nat ->
  exists m',
    step_2d spots (map g (rows spots), m) box =
    ret (map (fun s => g s && negb (inside_box 2 box s)) (rows spots), m').
Proof.
  intros Hs Hb.
  destruct box as [| a [| b [| c [| d [| ? ?]]]]]; try discriminate.
  eexists. unfold step_2d.
  rewrite !column_in_range by lia. rewrite !bind_ret. cbv zeta.
  repeat first [rewrite map_map | rewrite map2_map].
  f_equal. f_equal. apply map_ext. intros s.
  unfold inside_box; simpl.
  destruct (g s), (nth 0 s 0 <? c), (nth 1 s 0 <? d),
    (a <=? nth 0 s 0), (b <=? nth 1 s 0); reflexivity.
Qed.

(** The loop over the boxes, for any step that has the effect above. *)
Lemma for_each_mask (nb_dim : nat)
    (step : list bool * Z -> list Z -> M (list bool * Z))
    (boxes : list (list Z)) :
  (forall g m box, In box boxes ->
     exists m', step (map g (rows spots), m) box =
     ret (map (fun s => g s && negb (inside_box nb_dim box s)) (rows spots), m')) ->
  forall g m,
  exists m',
    for_each step boxes (map g (rows spots), m) =
    ret (map (fun s => g s && negb (inside_some_box nb_dim boxes s))
             (rows spots), m').
Proof.
  induction boxes as [| box boxes IH]; intros Hstep g m.
  - exists m. simpl. unfold ret. do 3 f_equal. apply map_ext. intros s.
    simpl. now rewrite andb_true_r.
  - destruct (Hstep g m box (or_introl eq_refl)) as [m1 E1].
    destruct (IH (fun g m b Hin => Hstep g m b (or_intror Hin))
                 (fun s => g s && negb (inside_box nb_dim box s)) m1)
      as [m2 E2].
    exists m2. simpl. rewrite E1, bind_ret, E2.
    unfold ret. do 3 f_equal. apply map_ext. intros s.
    rewrite negb_orb. now rewrite andb_assoc.
Qed.

End PartitionProofs.

(** C4. The spots [_filter_spot_out_candidate_regions] returns are the input
    spots that lie in no candidate box ([min <= coord < max] on every axis),
    in their order and each once: the subsequence of the rows that are
    inside no box. The rows inside some box are the rest. *)
Theorem filter_spot_out_partition
    (candidate_bbox : list (list Z)) (spots : int_array) (nb_dim : nat) :
  nb_dim = 2%nat \/ nb_dim = 3%nat ->
  shape1 spots = nb_dim ->
  Forall (fun box => length box = (2 * nb_dim)%nat) candidate_bbox ->
  exists max_region_size,
    _filter_spot_out_candidate_regions candidate_bbox spots nb_dim =
    (Ok (IntArray nb_dim
           (filter (fun spot => negb (inside_some_box nb_dim candidate_bbox spot))
                   (rows spots)),
         max_region_size), [])
    /\ (length (filter (fun spot => negb (inside_some_box nb_dim candidate_bbox spot))
                       (rows spots))
        + length (filter (inside_some_box nb_dim candidate_bbox) (rows spots))
        = length (rows spots))%nat.
Proof.
  intros Hdim Hs Hb. rewrite Forall_forall in Hb.
  assert (Hlen : forall (p : list Z -> bool) (l : list (list Z)),
             (length (filter (fun s => negb (p s)) l) + length (filter p l)
              = length l)%nat).
  { intros p l. induction l as [| x l IH]; simpl; [reflexivity |].
    destruct (p x); simpl; lia. }
  unfold _filter_spot_out_candidate_regions.
  rewrite column_in_range by lia. rewrite bind_ret.
  assert (Hinit : map (fun _ : Z => true) (map (fun r => nth 0 r 0) (rows spots))
                  = map (fun _ : list Z => true) (rows spots))
    by (now rewrite map_map).
  rewrite Hinit.
  destruct Hdim as [-> | ->]; simpl Nat.eqb; cbv iota.
  - destruct (for_each_mask spots 2 (step_2d spots) candidate_bbox) with
      (g := fun _ : list Z => true) (m := 0) as [m' E].
    { intros g m box Hin. apply step_2d_mask; [lia | now apply Hb]. }
    exists m'. rewrite E, bind_ret, Hs. simpl andb.
    rewrite mask_select_map. split; [reflexivity | apply Hlen].
  - destruct (for_each_mask spots 3 (step_3d spots) candidate_bbox) with
      (g := fun _ : list Z => true) (m := 0) as [m' E].
    { intros g m box Hin. apply step_3d_mask; [lia | now apply Hb]. }
    exists m'. rewrite E, bind_ret, Hs. simpl andb.
    rewrite mask_select_map. split; [reflexivity | apply Hlen].
Qed.

(** ** The greedy loop *)

Section LoopProofs.

Context {F : Type} {FA : Float64Arith F}.
Variable P : Type.
Variable gaussian : P -> F -> list F.
Variable grid : list P.
Variable image_region_raw : list F.
Variable limit_gaussian : Z.

Local Notation "'body'" := (loop_body gaussian grid image_region_raw).
Local Notation "'loop'" :=
  (while_loop gaussian grid image_region_raw limit_gaussian).
Local Notation "'test'" := (loop_test limit_gaussian).

(** Neither the body nor the loop records a warning. *)
Lemma loop_body_log (st : fit_state F P) : snd (body st) = [].
Proof.
  unfold loop_body, np_argmax, grid_column.
  destruct (residual st); simpl; [reflexivity |].
  destruct (nth_error grid _); reflexivity.
Qed.

Lemma while_loop_log (fuel : nat) :
  forall st, snd (loop fuel st) = [].
Proof.
  induction fuel as [| fuel IH]; intros st; simpl;
    destruct (test st); try reflexivity.
  pose proof (loop_body_log st) as Hb.
  destruct (body st) as [[st1 | e |] w1]; simpl in *; subst; try reflexivity.
  specialize (IH st1). destruct (loop fuel st1); simpl in *. now subst.
Qed.

(** The loop is left only when its condition is false. *)
Lemma while_loop_exit (fuel : nat) :
  forall st st' w, loop fuel st = (Ok st', w) -> test st' = false.
Proof.
  induction fuel as [| fuel IH]; intros st st' w; simpl;
    destruct (test st) eqn:Et; try discriminate.
  - intros H; inversion H; now subst.
  - intros H. apply bind_Ok_inv in H as (st1 & w1 & w2 & _ & H2 & _).
    eauto.
  - intros H; inversion H; now subst.
Qed.

(** What one iteration does to the counters. *)
Lemma loop_body_counts (st st1 : fit_state F P) (w : list warning) :
  body st = (Ok st1, w) ->
  nb_gaussian st1 = nb_gaussian st + 1
  /\ (exists p, positions_gaussian st1 = positions_gaussian st ++ [p])
  /\ (exists d, diff_ssr st1 = PyFloat d).
Proof.
  unfold loop_body, np_argmax, grid_column.
  destruct (residual st); simpl; [discriminate |].
  destruct (nth_error grid _) as [p |]; simpl; [| discriminate].
  intros H; inversion H; subst; simpl. eauto.
Qed.

Lemma loop_body_count_inv (st st1 : fit_state F P) (w : list warning) :
  body st = (Ok st1, w) -> count_inv st -> count_inv st1.
Proof.
  intros Hb [Hnb Hpos _].
  apply loop_body_counts in Hb as (Hn & (p & Hp) & _).
  constructor.
  - lia.
  - rewrite Hp, length_app, Hpos, Hn. simpl. lia.
  - lia.
Qed.

Lemma while_loop_count_inv (fuel : nat) :
  forall st st' w, loop fuel st = (Ok st', w) -> count_inv st -> count_inv st'.
Proof.
  induction fuel as [| fuel IH]; intros st st' w; simpl;
    destruct (test st); try discriminate.
  - intros H; inversion H; now subst.
  - intros H Hi. apply bind_Ok_inv in H as (st1 & w1 & w2 & H1 & H2 & _).
    eauto using loop_body_count_inv.
  - intros H; inversion H; now subst.
Qed.

Lemma fit_init_count_inv (background : F) :
  count_inv (fit_init P image_region_raw background).
Proof. constructor; simpl; auto; lia. Qed.

(** At the exit at least one Gaussian has been placed, and their number is
    not the limit. *)
Lemma exit_counts (st : fit_state F P) :
  count_inv st -> test st = false ->
  1 <= nb_gaussian st /\ nb_gaussian st <> limit_gaussian.
Proof.
  intros [Hnb _ Hfirst] Ht. unfold loop_test in Ht.
  apply orb_false_iff in Ht as [Hd Hl]. apply Z.eqb_neq in Hl.
  split; [| assumption].
  destruct (Z.eq_dec (nb_gaussian st) 0) as [E | E]; [| lia].
  rewrite (Hfirst E) in Hd. discriminate.
Qed.

(** What follows the loop, on a state the loop can be left in. *)
Lemma after_loop_exit (st : fit_state F P) :
  count_inv st -> test st = false ->
  exists positions,
    after_loop limit_gaussian st = (Ok positions, [])
    /\ positions <> []
    /\ hd_error positions = hd_error (positions_gaussian st).
Proof.
  intros Hi Ht. destruct (exit_counts _ Hi Ht) as [H1 Hl].
  destruct Hi as [Hnb Hpos _].
  unfold after_loop.
  destruct ((1 <? nb_gaussian st) && (nb_gaussian st <? limit_gaussian)) eqn:E.
  - apply andb_true_iff in E as [E1 _]. apply Z.ltb_lt in E1.
    destruct (positions_gaussian st) as [| p [| q l]] eqn:Ep; simpl in Hpos;
      try lia.
    exists (p :: removelast (q :: l)). unfold pop_last.
    repeat split; discriminate.
  - apply Z.eqb_neq in Hl. rewrite Hl.
    exists (positions_gaussian st). repeat split.
    destruct (positions_gaussian st); [simpl in Hpos; lia | discriminate].
Qed.

(** Whatever the inputs, [fit_region] records no warning, and when it
    returns, it has placed a number of Gaussians other than the limit and
    returns at least one position. *)
Lemma fit_region_no_warning (fuel : nat) (background : F) :
  snd (fit_region gaussian grid image_region_raw limit_gaussian fuel background)
  = []
  /\ forall best positions nb,
       fst (fit_region gaussian grid image_region_raw limit_gaussian fuel
                       background) = Ok (best, positions, nb) ->
       nb <> limit_gaussian /\ positions <> [].
Proof.
  unfold fit_region.
  pose proof (while_loop_log fuel (fit_init P image_region_raw background)) as Hw.
  destruct (loop fuel (fit_init P image_region_raw background))
    as [[st | e |] w] eqn:El; simpl in Hw; subst w;
    try (split; [reflexivity | discriminate]).
  pose proof (while_loop_exit _ _ _ _ El) as Ht.
  pose proof (while_loop_count_inv _ _ _ _ El (fit_init_count_inv background)) as Hi.
  destruct (after_loop_exit _ Hi Ht) as (positions & Ea & Hne & _).
  rewrite bind_Ok, Ea. simpl. split; [reflexivity |].
  intros best ps nb H. inversion H; subst.
  split; [apply (exit_counts _ Hi Ht) | assumption].
Qed.

End LoopProofs.

(** ** Termination of the greedy loop *)

Section Termination.

Context {F : Type} {FA : Float64Arith F}.
Variable P : Type.
Variable gaussian : P -> F -> list F.
Variable grid : list P.
Variable image_region_raw : list F.
Variable limit_gaussian : Z.

(** The patch is not empty, and the grid and the Gaussian have its size. *)
Hypothesis image_nonempty : image_region_raw <> [].
Hypothesis grid_shape : length grid = length image_region_raw.
Hypothesis gaussian_shape :
  forall p b, length (gaussian p b) = length grid.

(** The sums of squares cannot decrease for ever: [rank] numbers them in
    increasing order. The [float64] values are finitely many, so that
    their position in the order is such a [rank]. *)
Variable rank : F -> nat.
Hypothesis rank_decreases :
  forall r r' : list F,
    fltb (fsub (sum_squares r') (sum_squares r)) f0 = true ->
    (rank (sum_squares r') < rank (sum_squares r))%nat.

Local Notation "'body'" := (loop_body gaussian grid image_region_raw).
Local Notation "'loop'" :=
  (while_loop gaussian grid image_region_raw limit_gaussian).
Local Notation "'test'" := (loop_test limit_gaussian).
Local Notation "'stops'" :=
  (stops_from gaussian grid image_region_raw limit_gaussian).

Lemma argmax_from_bound (l : list F) :
  forall best_i best i,
    (best_i < i)%nat -> (argmax_from best_i best i l < i + length l)%nat.
Proof.
  induction l as [| x l IH]; intros best_i best i H; simpl; [lia |].
  destruct (fltb best x).
  - specialize (IH i x (S i)). lia.
  - specialize (IH best_i best (S i)). lia.
Qed.

(** On a state of the right shape the body raises nothing. *)
Lemma loop_body_runs (st : fit_state F P) :
  shape_inv image_region_raw st ->
  exists st1 i p,
    np_argmax (residual st) = ret i
    /\ nth_error grid i = Some p
    /\ body st = (Ok st1, [])
    /\ shape_inv image_region_raw st1
    /\ nb_gaussian st1 = nb_gaussian st + 1
    /\ positions_gaussian st1 = positions_gaussian st ++ [p]
    /\ diff_ssr st1 = PyFloat (fsub (ssr st1) (ssr st)).
Proof.
  intros [Hres Hsim Hssr].
  destruct (residual st) as [| x t] eqn:Er.
  { destruct image_region_raw; [congruence | discriminate]. }
  pose proof (argmax_from_bound t 0%nat x 1%nat ltac:(lia)) as Hi.
  set (i := argmax_from 0 x 1 t) in *.
  assert (Hlt : (i < length grid)%nat).
  { rewrite grid_shape, <- Hres. simpl. lia. }
  destruct (nth_error grid i) as [p |] eqn:Ep;
    [| apply nth_error_None in Ep; lia].
  eexists _, i, p.
  split; [reflexivity |]. split; [assumption |].
  unfold loop_body. rewrite Er. unfold np_argmax. fold i. rewrite bind_ret.
  unfold grid_column. rewrite Ep, bind_ret.
  split; [reflexivity |].
  split; [| simpl; repeat split].
  constructor; simpl.
  - rewrite !length_map2, gaussian_shape, Hsim, grid_shape. lia.
  - rewrite length_map2, gaussian_shape, Hsim, grid_shape. lia.
  - reflexivity.
Qed.

Lemma stops_now (st : fit_state F P) : test st = false -> stops st.
Proof.
  intros Ht. exists 0%nat, st. split.
  - intros [| fuel'] _; simpl; now rewrite Ht.
  - exists []. now rewrite app_nil_r.
Qed.

Lemma while_loop_step (st st1 : fit_state F P) (fuel : nat) :
  test st = true ->
  body st = (Ok st1, []) ->
  loop (S fuel) st = loop fuel st1.
Proof.
  intros Ht Hb. simpl. rewrite Ht, Hb.
  change (Ok st1, @nil warning) with (ret st1). apply bind_ret.
Qed.

Lemma stops_after_step (st st1 : fit_state F P) (p : P) :
  test st = true ->
  body st = (Ok st1, []) ->
  positions_gaussian st1 = positions_gaussian st ++ [p] ->
  stops st1 -> stops st.
Proof.
  intros Ht Hb Hp (fuel & st' & Hloop & l & Hl).
  exists (S fuel), st'. split.
  - intros [| fuel'] Hle; [lia |].
    rewrite (while_loop_step st st1 fuel' Ht Hb). apply Hloop. lia.
  - exists (p :: l). rewrite Hl, Hp, <- app_assoc. reflexivity.
Qed.

(** Past the limit the loop goes on only while the sum of squares
    decreases. *)
Lemma stops_after_cap (k : nat) :
  forall st,
    shape_inv image_region_raw st ->
    limit_gaussian < nb_gaussian st ->
    (rank (ssr st) <= k)%nat ->
    stops st.
Proof.
  induction k as [| k IH]; intros st Hs Hnb Hk;
    (destruct (test st) eqn:Et; [| now apply stops_now]);
    destruct (loop_body_runs st Hs)
      as (st1 & i & p & _ & _ & Hb & Hs1 & Hn1 & Hp1 & Hd1);
    apply (stops_after_step st st1 p Et Hb Hp1);
    (destruct (test st1) eqn:Et1; [| now apply stops_now]);
    unfold loop_test in Et1; rewrite Hd1 in Et1; simpl in Et1;
    (destruct (nb_gaussian st1 =? limit_gaussian) eqn:En;
       [apply Z.eqb_eq in En; lia |]);
    rewrite orb_false_r in Et1;
    rewrite (inv_ssr Hs), (inv_ssr Hs1) in Et1;
    apply rank_decreases in Et1;
    rewrite <- (inv_ssr Hs), <- (inv_ssr Hs1) in Et1.
  - lia.
  - apply IH; [assumption | lia | lia].
Qed.

(** Up to the limit the number of Gaussians bounds the iterations. *)
Lemma stops_before_cap (d : nat) :
  forall st,
    shape_inv image_region_raw st ->
    (Z.to_nat (limit_gaussian + 1 - nb_gaussian st) <= d)%nat ->
    stops st.
Proof.
  induction d as [| d IH]; intros st Hs Hd.
  - apply (stops_after_cap (rank (ssr st))); [assumption | lia | lia].
  - destruct (Z_lt_dec limit_gaussian (nb_gaussian st)) as [Hlt | Hge].
    + apply (stops_after_cap (rank (ssr st))); [assumption | lia | lia].
    + destruct (test st) eqn:Et; [| now apply stops_now].
      destruct (loop_body_runs st Hs)
        as (st1 & i & p & _ & _ & Hb & Hs1 & Hn1 & Hp1 & _).
      apply (stops_after_step st st1 p Et Hb Hp1).
      apply IH; [assumption | lia].
Qed.

Lemma fit_init_shape_inv (background : F) :
  shape_inv image_region_raw (fit_init P image_region_raw background).
Proof.
  constructor; simpl.
  - rewrite length_map2, length_map. lia.
  - apply length_map.
  - reflexivity.
Qed.

(** C5. On a patch that is not empty the greedy loop stops and returns at
    least one fitted position, whatever the pixels, all zeros included:
    with enough iterations allowed, [fit_region] returns a list of positions
    that is not empty and whose first element is the grid point of the
    first maximum, in scan order, of the residual before any placement. *)
Theorem fit_region_returns_positions (background : F) :
  exists fuel best positions nb i,
    (forall fuel', (fuel <= fuel')%nat ->
       fit_region gaussian grid image_region_raw limit_gaussian fuel' background
       = (Ok (best, positions, nb), []))
    /\ positions <> []
    /\ np_argmax (residual (fit_init P image_region_raw background)) = ret i
    /\ hd_error positions = nth_error grid i.
Proof.
  pose proof (fit_init_shape_inv background) as Hs0.
  set (st0 := fit_init P image_region_raw background) in *.
  assert (Et0 : test st0 = true) by reflexivity.
  destruct (loop_body_runs st0 Hs0)
    as (st1 & i & p & Hi & Hp & Hb & Hs1 & Hn1 & Hp1 & _).
  destruct (stops_before_cap _ st1 Hs1 (Nat.le_refl _))
    as (fuel & st' & Hloop & l & Hl).
  assert (Hrun : forall fuel', (S fuel <= fuel')%nat ->
                   loop fuel' st0 = (Ok st', [])).
  { intros [| fuel'] Hle; [lia |].
    rewrite (while_loop_step st0 st1 fuel' Et0 Hb). apply Hloop. lia. }
  pose proof (Hrun (S fuel) (Nat.le_refl _)) as Hrun1.
  pose proof (while_loop_exit _ _ _ _ _ _ _ _ _ Hrun1) as Ht.
  pose proof (while_loop_count_inv _ _ _ _ _ _ _ _ _ Hrun1
                (fit_init_count_inv _ _ _)) as Hc.
  destruct (after_loop_exit _ _ _ Hc Ht) as (positions & Ea & Hne & Hhd).
  exists (S fuel), (best_simulation st'), positions, (nb_gaussian st'), i.
  repeat split; try assumption.
  - intros fuel' Hle. unfold fit_region. fold st0.
    rewrite (Hrun fuel' Hle), bind_Ok, Ea. reflexivity.
  - rewrite Hhd, Hl, Hp1. unfold st0. simpl. now rewrite Hp.
Qed.

End Termination.

(** ** The limit of the number of Gaussians *)

(** At the limit the condition of the [while] holds, whatever the last
    step did to the sum of squares: the loop goes on. *)
Lemma loop_test_at_limit {F P} `{Float64Arith F} (limit_gaussian : Z)
    (st : fit_state F P) :
  nb_gaussian st = limit_gaussian -> loop_test limit_gaussian st = true.
Proof.
  intros E. unfold loop_test. rewrite E, Z.eqb_refl. apply orb_true_r.
Qed.

(** C1. The limit does not bound the placements. Whatever the region,
    [fit_region] records no warning and never returns with a number of
    placements equal to the limit; and on a [uint16] patch of two pixels of
    value 600, with a point response of amplitude 1 and the default limit of
    1000, [_gaussian_mixture_2d] returns 1201 positions and no warning. *)
Theorem limit_gaussian_not_enforced :
  (forall (F P : Type) (FA : Float64Arith F) (gaussian : P -> F -> list F)
          (grid : list P) (image_region_raw : list F) (limit_gaussian : Z)
          (fuel : nat) (background : F),
      snd (fit_region gaussian grid image_region_raw limit_gaussian fuel
                      background) = []
      /\ forall best positions nb,
           fst (fit_region gaussian grid image_region_raw limit_gaussian fuel
                           background) = Ok (best, positions, nb) ->
           nb <> limit_gaussian)
  /\ match Rational.mixture_2d 2000 Rational.bright_pair
             Rational.bright_pair_region 100 1 1 0 1000 with
     | (Ok (_, _, positions), w) => length positions = 1201%nat /\ w = []
     | _ => False
     end.
Proof.
  split.
  - intros F P FA gaussian grid image_region_raw limit_gaussian fuel background.
    destruct (fit_region_no_warning P gaussian grid image_region_raw
                limit_gaussian fuel background) as [Hw Hr].
    split; [exact Hw |].
    intros best positions nb E. exact (proj1 (Hr best positions nb E)).
  - vm_compute. split; reflexivity.
Qed.

(** ** The clip of the best simulation *)

Lemma np_iinfo_max_float (d : dtype) (v : Z) (w : list warning) :
  d = float32 \/ d = float64 -> np_iinfo_max d <> (Ok v, w).
Proof. intros [-> | ->]; discriminate. Qed.

(** C2. On an image of a floating-point type the decomposer of a region
    does not reach the clip: [np.iinfo] raises, so that neither
    [_gaussian_mixture_2d] nor [_gaussian_mixture_3d] returns. *)
Theorem gaussian_mixture_float_never_returns
    (F : Type) (FA : Float64Arith F) (FC : Float64Cast F) (erf_table : Type)
    (_initialize_grid_2d : list (list F) -> F -> list (F * F))
    (_initialize_grid_3d : list (list (list F)) -> F -> F -> list (F * F * F))
    (_gaussian_2d :
       list (F * F) -> F -> F -> F -> F -> F -> F -> erf_table -> list F)
    (_gaussian_3d :
       list (F * F * F) -> F -> F -> F -> F -> F -> F -> F -> F -> F ->
       erf_table -> list F)
    (image_dtype : dtype) :
  image_dtype = float32 \/ image_dtype = float64 ->
  (forall fuel image region voxel_size_yx sigma_yx amplitude background
          precomputed_gaussian limit_gaussian v,
      fst (_gaussian_mixture_2d _initialize_grid_2d _gaussian_2d fuel
             image_dtype image region voxel_size_yx sigma_yx amplitude
             background precomputed_gaussian limit_gaussian) <> Ok v)
  /\ (forall fuel image region voxel_size_z voxel_size_yx sigma_z sigma_yx
             amplitude background precomputed_gaussian limit_gaussian v,
      fst (_gaussian_mixture_3d _initialize_grid_3d _gaussian_3d fuel
             image_dtype image region voxel_size_z voxel_size_yx sigma_z
             sigma_yx amplitude background precomputed_gaussian limit_gaussian)
      <> Ok v).
Proof.
  intros Hd. split; intros.
  - match goal with |- fst ?m <> _ => destruct m as [r w] eqn:E end.
    simpl. intros ->. unfold _gaussian_mixture_2d in E.
    peel_binds E.
    match goal with
    | H : np_iinfo_max _ = (Ok _, _) |- _ =>
        exact (np_iinfo_max_float _ _ _ Hd H)
    end.
  - match goal with |- fst ?m <> _ => destruct m as [r w] eqn:E end.
    simpl. intros ->. unfold _gaussian_mixture_3d in E.
    peel_binds E.
    match goal with
    | H : np_iinfo_max _ = (Ok _, _) |- _ =>
        exact (np_iinfo_max_float _ _ _ Hd H)
    end.
Qed.

(** The same pixels decompose as [uint16] and raise as [float32]. *)
Example float_image_raises :
  Rational.mixture_2d 10 Rational.float_pair Rational.uneven_pair_region
                      100 1 5 0 1000
  = (Raise (ValueError "Invalid integer data type 'f'."), [])
  /\ Rational.mixture_2d 10 Rational.uneven_pair Rational.uneven_pair_region
                         100 1 5 0 1000
     = (Ok ([[5%Q; 6%Q]], [[5%Q; 5%Q]], [(0%Q, 100%Q); (0%Q, 0%Q)]), []).
Proof. split; vm_compute; reflexivity. Qed.

Lemma gaussian_mixture_float_never_returns_witness :
  (float32 = float32 \/ float32 = float64)
  /\ forall v,
       fst (_gaussian_mixture_2d (FA := Rational.Q_arith)
              (FC := Rational.Q_cast) Rational.index_grid_2d
              Rational.point_gaussian_2d 10 float32 [[5%Q; 6%Q]]
              Rational.uneven_pair_region 100%Q 1%Q 5%Q 0%Q tt 1000)
       <> Ok v.
Proof.
  split; [left; reflexivity |].
  intros v.
  apply (proj1 (gaussian_mixture_float_never_returns
                  Q Rational.Q_arith Rational.Q_cast unit
                  Rational.index_grid_2d Rational.index_grid_3d
                  Rational.point_gaussian_2d Rational.point_gaussian_3d
                  float32 (or_introl eq_refl))).
Defined.

(** ** Concrete runs *)

Lemma filter_spot_out_partition_witness :
  let boxes := [[0; 0; 2; 2]; [1; 1; 4; 4]] in
  let spots := IntArray 2 [[0; 0]; [1; 1]; [5; 5]; [3; 3]; [4; 1]] in
  (2%nat = 2%nat \/ 2%nat = 3%nat)
  /\ shape1 spots = 2%nat
  /\ Forall (fun box => length box = (2 * 2)%nat) boxes
  /\ exists max_region_size,
       _filter_spot_out_candidate_regions boxes spots 2 =
       (Ok (IntArray 2 [[5; 5]; [4; 1]], max_region_size), []).
Proof.
  intros boxes spots.
  split; [left; reflexivity |].
  split; [reflexivity |].
  split; [repeat constructor |].
  destruct (filter_spot_out_partition boxes spots 2)
    as (m & E & _);
    [left; reflexivity | reflexivity | repeat constructor |].
  exists m. exact E.
Defined.

Section IntegerRun.

#[local] Existing Instance Integer.Z_arith.

(** The integers rank their sums of squares. *)
Lemma Z_sum_squares_nonneg (r : list Z) :
  0 <= sum_squares (FA := Integer.Z_arith) r.
Proof.
  unfold sum_squares; simpl.
  assert (H : forall l acc, 0 <= acc ->
                0 <= fold_left Z.add (map (fun x => x * x) l) acc).
  { induction l as [| x l IH]; intros acc Hacc; simpl; [assumption |].
    apply IH. nia. }
  apply H. lia.
Qed.

Lemma Z_rank_decreases (r r' : list Z) :
  fltb (fsub (sum_squares r') (sum_squares r)) f0 = true ->
  (Z.to_nat (sum_squares (FA := Integer.Z_arith) r')
   < Z.to_nat (sum_squares (FA := Integer.Z_arith) r))%nat.
Proof.
  pose proof (Z_sum_squares_nonneg r). pose proof (Z_sum_squares_nonneg r').
  intros E. cbn [fltb fsub f0 Integer.Z_arith] in E.
  apply Z.ltb_lt in E. lia.
Qed.

Lemma length_point_response (n : nat) (amplitude : Z) (mu : nat)
    (background : Z) :
  length (Integer.point_response n amplitude mu background) = n.
Proof. unfold Integer.point_response. now rewrite length_map, length_seq. Qed.

(** A patch of three pixels, all zero: one position is returned, the first
    of the grid. *)
Lemma fit_region_returns_positions_witness :
  let image_region_raw := [0; 0; 0] in
  let grid := seq 0 3 in
  image_region_raw <> []
  /\ length grid = length image_region_raw
  /\ exists fuel best positions nb i,
       (forall fuel', (fuel <= fuel')%nat ->
          fit_region (FA := Integer.Z_arith) (Integer.point_response 3 1)
                     grid image_region_raw 1000 fuel' 0
          = (Ok (best, positions, nb), []))
       /\ positions <> []
       /\ np_argmax (FA := Integer.Z_arith)
            (residual (fit_init nat image_region_raw 0)) = ret i
       /\ hd_error positions = nth_error grid i.
Proof.
  intros image_region_raw grid.
  split; [discriminate |].
  split; [reflexivity |].
  apply (fit_region_returns_positions (FA := Integer.Z_arith) nat
           (Integer.point_response 3 1) grid image_region_raw 1000)
    with (rank := Z.to_nat).
  - discriminate.
  - reflexivity.
  - intros p b. apply length_point_response.
  - exact Z_rank_decreases.
Defined.

Example zero_patch_first_position :
  fit_region (FA := Integer.Z_arith) (Integer.point_response 3 1)
             (seq 0 3) [0; 0; 0] 1000 5 0
  = (Ok ([0; 0; 0], [0%nat], 1), []).
Proof. vm_compute. reflexivity. Qed.

End IntegerRun.

(** ** Warnings of the decomposer *)

Section SilentSimulation.

Context {F : Type} {FA : Float64Arith F} {FC : Float64Cast F}.
Variable erf_table : Type.
Variable _initialize_grid_2d : list (list F) -> F -> list (F * F).
Variable _initialize_grid_3d : list (list (list F)) -> F -> F -> list (F * F * F).
Variable _gaussian_2d :
  list (F * F) -> F -> F -> F -> F -> F -> F -> erf_table -> list F.
Variable _gaussian_3d :
  list (F * F * F) -> F -> F -> F -> F -> F -> F -> F -> F -> F -> erf_table ->
  list F.

Lemma silent_tuple_get (k : nat) (t : list Z) : silent (tuple_get k t).
Proof. unfold tuple_get. silent_auto. Qed.

Lemma silent_np_iinfo_max (d : dtype) : silent (np_iinfo_max d).
Proof. unfold np_iinfo_max. silent_auto. Qed.

Lemma silent_fit_region (P : Type) (gaussian : P -> F -> list F)
    (grid : list P) (image_region_raw : list F) (limit_gaussian : Z)
    (fuel : nat) (background : F) :
  silent (fit_region gaussian grid image_region_raw limit_gaussian fuel
                     background).
Proof. apply fit_region_no_warning. Qed.

#[local] Hint Resolve silent_tuple_get silent_np_iinfo_max silent_fit_region
  : silent.

Lemma silent_gaussian_mixture_2d fuel image_dtype image region voxel_size_yx
    sigma_yx amplitude background precomputed_gaussian limit_gaussian :
  silent (_gaussian_mixture_2d _initialize_grid_2d _gaussian_2d fuel
            image_dtype image region voxel_size_yx sigma_yx amplitude
            background precomputed_gaussian limit_gaussian).
Proof. unfold _gaussian_mixture_2d. silent_auto. Qed.

Lemma silent_gaussian_mixture_3d fuel image_dtype image region voxel_size_z
    voxel_size_yx sigma_z sigma_yx amplitude background precomputed_gaussian
    limit_gaussian :
  silent (_gaussian_mixture_3d _initialize_grid_3d _gaussian_3d fuel
            image_dtype image region voxel_size_z voxel_size_yx sigma_z
            sigma_yx amplitude background precomputed_gaussian limit_gaussian).
Proof. unfold _gaussian_mixture_3d. silent_auto. Qed.

Lemma silent_reconcile_2d i_region (region : region F) voxel_size_yx
    coord_gaussian :
  silent (reconcile_2d i_region region voxel_size_yx coord_gaussian).
Proof.
  unfold reconcile_2d.
  destruct (bbox region) as [| ? [| ? [| ? [| ? [| ? ?]]]]]; silent_auto.
Qed.

Lemma silent_reconcile_3d i_region (region : region F) voxel_size_z
    voxel_size_yx coord_gaussian :
  silent (reconcile_3d i_region region voxel_size_z voxel_size_yx
                       coord_gaussian).
Proof.
  unfold reconcile_3d.
  destruct (bbox region) as [| ? [| ? [| ? [| ? [| ? [| ? [| ? ?]]]]]]];
    silent_auto.
Qed.

Lemma silent_for_regions body (candidate_regions : list (region F)) :
  (forall i region, silent (body i region)) ->
  forall i_region, silent (for_regions body i_region candidate_regions).
Proof.
  intros Hb. induction candidate_regions as [| region rest IH]; intros i;
    simpl; silent_auto; auto.
Qed.

#[local] Hint Resolve silent_gaussian_mixture_2d silent_gaussian_mixture_3d
  silent_reconcile_2d silent_reconcile_3d : silent.

Lemma silent_simulate_gaussian_mixture fuel image candidate_regions
    voxel_size_z voxel_size_yx sigma_z sigma_yx amplitude background
    precomputed_gaussian :
  silent (simulate_gaussian_mixture _initialize_grid_2d _initialize_grid_3d
            _gaussian_2d _gaussian_3d fuel image candidate_regions
            voxel_size_z voxel_size_yx sigma_z sigma_yx amplitude background
            precomputed_gaussian).
Proof.
  unfold simulate_gaussian_mixture.
  destruct (fltb background (of_int 0)); [apply silent_raise |].
  destruct ((ndim image =? 3)%nat && is_none voxel_size_z);
    [apply silent_raise |].
  destruct ((ndim image =? 3)%nat && is_none sigma_z); [apply silent_raise |].
  apply silent_bind.
  - destruct (nd_data image), voxel_size_z, sigma_z;
      try apply silent_raise; apply silent_for_regions; intros; silent_auto.
  - intros [sp rw]. destruct sp; silent_auto.
Qed.

End SilentSimulation.

(** ** Rows and coordinates *)

Section RowProofs.

Context {F : Type} {FA : Float64Arith F} {FC : Float64Cast F}.

Lemma length_global_coordinates (position voxels : list F) (box : list Z) :
  length (global_coordinates position voxels box)
  = Nat.min (Nat.min (length position) (length voxels)) (length box).
Proof.
  revert voxels box. induction position as [| x position IH];
    intros [| v voxels] [| m box]; simpl; auto using Nat.min_0_r.
Qed.

(** Without the index of the region, a fitted row is the truncated
    coordinates. *)
Lemma firstn_fitted_rows (voxels : list F) (n : nat) (i : Z)
    (region : region F) (positions : list (list F)) :
  length voxels = n -> well_shaped n region positions ->
  map (firstn n) (fitted_rows voxels i region positions)
  = map (fun position =>
           map trunc (global_coordinates position voxels (bbox region)))
        positions.
Proof.
  intros Hv [Hb Hp]. unfold fitted_rows. rewrite map_map.
  apply map_ext_in. intros position Hin.
  rewrite Forall_forall in Hp. specialize (Hp position Hin).
  assert (Hl : length (map trunc (global_coordinates position voxels
                                    (bbox region))) = n).
  { rewrite length_map, length_global_coordinates. lia. }
  rewrite firstn_app, Hl, Nat.sub_diag, firstn_O, app_nil_r.
  rewrite <- Hl at 1. apply firstn_all.
Qed.

Lemma firstn_all_fitted_rows (voxels : list F) (n : nat)
    (Q : region F -> list (list F) -> Prop) :
  length voxels = n ->
  forall regions fits i,
    Forall2 (fun region positions =>
               Q region positions /\ well_shaped n region positions)
            regions fits ->
    map (firstn n) (all_fitted_rows voxels i regions fits)
    = fitted_coordinates voxels regions fits.
Proof.
  intros Hv regions fits i H. revert i.
  induction H as [| region positions regions fits [_ Hw] _ IH]; intros i;
    simpl; [reflexivity |].
  rewrite map_app, IH, (firstn_fitted_rows voxels n i region positions Hv Hw).
  reflexivity.
Qed.

Lemma nth_error_all_summaries (voxels : list F) :
  forall regions fits i k region positions,
    nth_error regions k = Some region ->
    nth_error fits k = Some positions ->
    nth_error (all_summaries voxels i regions fits) k
    = Some (region_summary voxels (i + Z.of_nat k) region positions).
Proof.
  induction regions as [| r regions IH]; intros [| ps fits] i [| k] region
    positions Hr Hf; simpl in *; try discriminate.
  - inversion Hr; inversion Hf; subst. now rewrite Z.add_0_r.
  - rewrite (IH fits (i + 1) k region positions Hr Hf). do 2 f_equal. lia.
Qed.

Lemma length_all_summaries (voxels : list F) :
  forall regions fits i,
    length regions = length fits ->
    length (all_summaries voxels i regions fits) = length regions.
Proof.
  induction regions as [| r regions IH]; intros [| ps fits] i H; simpl in *;
    try discriminate; auto.
Qed.

(** The conversion the code applies is the one the specification words:
    on every axis, the quotient by the voxel size plus the minimum of the
    box. *)
Lemma global_coordinates_claimed (position : list F) :
  forall (voxels : list F) (box : list Z) (n : nat),
    length position = n -> length voxels = n -> (n <= length box)%nat ->
    map trunc (global_coordinates position voxels box)
    = claimed_spot n position voxels box.
Proof.
  induction position as [| x position IH]; intros voxels box n Hp Hv Hb;
    subst n.
  - reflexivity.
  - destruct voxels as [| v voxels]; [discriminate Hv |].
    destruct box as [| m box]; [simpl in Hb; lia |].
    simpl in Hv, Hb. injection Hv as Hv.
    unfold claimed_spot. simpl length. cbn [seq map global_coordinates nth].
    f_equal.
    rewrite <- seq_shift, map_map. cbn [nth].
    apply (IH voxels box (length position)); [reflexivity | exact Hv | lia].
Qed.

Lemma fitted_coordinates_claimed (voxels : list F) (n : nat)
    (Q : region F -> list (list F) -> Prop) :
  length voxels = n ->
  forall regions fits,
    Forall2 (fun region positions =>
               Q region positions /\ well_shaped n region positions)
            regions fits ->
    fitted_coordinates voxels regions fits
    = claimed_spots n voxels regions fits.
Proof.
  intros Hv regions fits H.
  induction H as [| region positions regions fits (_ & Hb & Hp) _ IH];
    simpl; [reflexivity |].
  rewrite IH. f_equal. apply map_ext_in. intros position Hin.
  rewrite Forall_forall in Hp.
  apply global_coordinates_claimed; [now apply Hp | exact Hv | lia].
Qed.

End RowProofs.

(** ** What [simulate_gaussian_mixture] returns *)

Section SimulationProofs.

Context {F : Type} {FA : Float64Arith F} {FC : Float64Cast F}.
Variable erf_table : Type.
Variable _initialize_grid_2d : list (list F) -> F -> list (F * F).
Variable _initialize_grid_3d : list (list (list F)) -> F -> F -> list (F * F * F).
Variable _gaussian_2d :
  list (F * F) -> F -> F -> F -> F -> F -> F -> erf_table -> list F.
Variable _gaussian_3d :
  list (F * F * F) -> F -> F -> F -> F -> F -> F -> F -> F -> F -> erf_table ->
  list F.

(** The loop over the regions, for a body that fits and reconciles. *)
Lemma for_regions_spec
    (body : Z -> region F -> M (list (list Z) * list (pynum F)))
    (fit : region F -> M (list (list F))) (voxels : list F) (n : nat) :
  (forall i region s row w,
     body i region = (Ok (s, row), w) ->
     exists positions,
       fit region = (Ok positions, [])
       /\ positions <> []
       /\ well_shaped n region positions
       /\ s = fitted_rows voxels i region positions
       /\ map to_int64 row = region_summary voxels i region positions) ->
  forall candidate_regions i sp rw w,
    for_regions body i candidate_regions = (Ok (sp, rw), w) ->
    exists fits,
      Forall2 (fun region positions =>
                 fit region = (Ok positions, []) /\ positions <> []
                 /\ well_shaped n region positions)
              candidate_regions fits
      /\ concat sp = all_fitted_rows voxels i candidate_regions fits
      /\ map (map to_int64) rw = all_summaries voxels i candidate_regions fits
      /\ length sp = length candidate_regions.
Proof.
  intros Hbody.
  induction candidate_regions as [| region rest IH]; intros i sp rw w H.
  - inversion H; subst. exists []. repeat split. constructor.
  - simpl in H. peel_binds H.
    match goal with
    | Hb : body _ _ = (Ok _, _) |- _ =>
        destruct (Hbody _ _ _ _ _ Hb)
          as (positions & Hfit & Hne & Hws & -> & Hrow)
    end.
    match goal with
    | Hr : for_regions _ _ _ = (Ok _, _) |- _ =>
        destruct (IH _ _ _ _ Hr) as (fits & Hall & Hsp & Hrw & Hlen)
    end.
    inversion H; subst.
    exists (positions :: fits). simpl.
    repeat split; auto; congruence.
Qed.

Lemma body_2d_spec fuel image_dtype px voxel_size_yx sigma_yx amplitude
    background precomputed_gaussian i (region : region F) s row w :
  (coord <- _gaussian_mixture_2d _initialize_grid_2d _gaussian_2d fuel
              image_dtype px region voxel_size_yx sigma_yx amplitude
              background precomputed_gaussian 1000 ;;
   (let '(_, _, coord_gaussian) := coord in
    reconcile_2d i region voxel_size_yx coord_gaussian))
  = (Ok (s, row), w) ->
  exists positions,
    (coord <- _gaussian_mixture_2d _initialize_grid_2d _gaussian_2d fuel
                image_dtype px region voxel_size_yx sigma_yx amplitude
                background precomputed_gaussian 1000 ;;
     (let '(_, _, coord_gaussian) := coord in
      ret (map (fun '(y, x) => [y; x]) coord_gaussian)))
    = (Ok positions, [])
    /\ positions <> []
    /\ well_shaped 2 region positions
    /\ s = fitted_rows [voxel_size_yx; voxel_size_yx] i region positions
    /\ map to_int64 row
       = region_summary [voxel_size_yx; voxel_size_yx] i region positions.
Proof.
  intros H. apply bind_Ok_inv in H as ([[patch best] coord] & w1 & w2 & Hm & Hr & _).
  pose proof (silent_eq _ _ _ (silent_gaussian_mixture_2d _ _ _ _ _ _ _ _ _ _
                                 _ _ _) Hm) as ->.
  exists (map (fun '(y, x) => [y; x]) coord).
  rewrite Hm, bind_Ok. simpl.
  unfold reconcile_2d in Hr.
  destruct (bbox region) as [| m0 [| m1 [| ? [| ? [| ? ?]]]]] eqn:Eb;
    try discriminate.
  destruct coord as [| [cy cx] coord]; simpl in Hr; [discriminate |].
  inversion Hr; subst; clear Hr.
  unfold fitted_rows, region_summary, well_shaped. rewrite Eb. simpl.
  rewrite !length_map.
  repeat split; try discriminate.
  - constructor; [reflexivity |].
    apply Forall_forall. intros p Hp. apply in_map_iff in Hp as ([? ?] & <- & _).
    reflexivity.
  - f_equal. rewrite !map_map. apply map_ext. intros [? ?]. reflexivity.
Qed.

Lemma body_3d_spec fuel image_dtype px voxel_size_z voxel_size_yx sigma_z
    sigma_yx amplitude background precomputed_gaussian i (region : region F)
    s row w :
  (coord <- _gaussian_mixture_3d _initialize_grid_3d _gaussian_3d fuel
              image_dtype px region voxel_size_z voxel_size_yx sigma_z
              sigma_yx amplitude background precomputed_gaussian 1000 ;;
   (let '(_, _, coord_gaussian) := coord in
    reconcile_3d i region voxel_size_z voxel_size_yx coord_gaussian))
  = (Ok (s, row), w) ->
  exists positions,
    (coord <- _gaussian_mixture_3d _initialize_grid_3d _gaussian_3d fuel
                image_dtype px region voxel_size_z voxel_size_yx sigma_z
                sigma_yx amplitude background precomputed_gaussian 1000 ;;
     (let '(_, _, coord_gaussian) := coord in
      ret (map (fun '(z, y, x) => [z; y; x]) coord_gaussian)))
    = (Ok positions, [])
    /\ positions <> []
    /\ well_shaped 3 region positions
    /\ s = fitted_rows [voxel_size_z; voxel_size_yx; voxel_size_yx] i region
                       positions
    /\ map to_int64 row
       = region_summary [voxel_size_z; voxel_size_yx; voxel_size_yx] i region
                        positions.
Proof.
  intros H. apply bind_Ok_inv in H as ([[patch best] coord] & w1 & w2 & Hm & Hr & _).
  pose proof (silent_eq _ _ _ (silent_gaussian_mixture_3d _ _ _ _ _ _ _ _ _ _
                                 _ _ _ _ _) Hm) as ->.
  exists (map (fun '(z, y, x) => [z; y; x]) coord).
  rewrite Hm, bind_Ok. simpl.
  unfold reconcile_3d in Hr.
  destruct (bbox region) as [| m0 [| m1 [| m2 [| ? [| ? [| ? [| ? ?]]]]]]] eqn:Eb;
    try discriminate.
  destruct coord as [| [[cz cy] cx] coord]; simpl in Hr; [discriminate |].
  inversion Hr; subst; clear Hr.
  unfold fitted_rows, region_summary, well_shaped. rewrite Eb. simpl.
  rewrite !length_map.
  repeat split; try discriminate.
  - constructor; [reflexivity |].
    apply Forall_forall. intros p Hp.
    apply in_map_iff in Hp as ([[? ?] ?] & <- & _). reflexivity.
  - f_equal. rewrite !map_map. apply map_ext. intros [[? ?] ?]. reflexivity.
Qed.

(** The two arrays [simulate_gaussian_mixture] returns, from the fitted
    positions of the regions. *)
Lemma simulate_gaussian_mixture_spec fuel image candidate_regions voxel_size_z
    voxel_size_yx sigma_z sigma_yx amplitude background precomputed_gaussian
    spots_in_regions regions w :
  simulate_gaussian_mixture _initialize_grid_2d _initialize_grid_3d
    _gaussian_2d _gaussian_3d fuel image candidate_regions voxel_size_z
    voxel_size_yx sigma_z sigma_yx amplitude background precomputed_gaussian
  = (Ok (spots_in_regions, regions), w) ->
  let voxels := voxel_sizes image voxel_size_z voxel_size_yx in
  exists fits,
    Forall2 (fun region positions =>
               fitted_positions _initialize_grid_2d _initialize_grid_3d
                 _gaussian_2d _gaussian_3d fuel image region voxel_size_z
                 voxel_size_yx sigma_z sigma_yx amplitude background
                 precomputed_gaussian = (Ok positions, [])
               /\ positions <> []
               /\ well_shaped (ndim image) region positions)
            candidate_regions fits
    /\ candidate_regions <> []
    /\ spots_in_regions
       = IntArray (ndim image + 1)
                  (all_fitted_rows voxels 0 candidate_regions fits)
    /\ regions
       = IntArray (ndim image + 4)
                  (all_summaries voxels 0 candidate_regions fits)
    /\ w = []
    /\ length voxels = ndim image.
Proof.
  intros H voxels.
  pose proof (silent_eq _ _ _ (silent_simulate_gaussian_mixture _ _ _ _ _ _ _
                                 _ _ _ _ _ _ _ _) H) as ->.
  unfold simulate_gaussian_mixture in H.
  destruct (fltb background (of_int 0)); [discriminate |].
  destruct ((ndim image =? 3)%nat && is_none voxel_size_z); [discriminate |].
  destruct ((ndim image =? 3)%nat && is_none sigma_z); [discriminate |].
  apply bind_Ok_inv in H as ([sp rw] & w1 & w2 & Hfor & Hret & _).
  destruct sp as [| s0 sp]; [discriminate |].
  inversion Hret; subst; clear Hret.
  unfold fitted_positions, voxel_sizes, ndim in *. subst voxels.
  destruct (nd_data image) as [px | px]; simpl nd_ndim.
  - eapply for_regions_spec in Hfor as (fits & Hall & Hsp & Hrw & Hlen);
      [| intros; eapply body_2d_spec; eassumption].
    change (concat (s0 :: sp)) with (s0 ++ concat sp) in Hsp.
    exists fits. rewrite Hsp, Hrw.
    repeat split; auto.
    destruct candidate_regions; [discriminate | discriminate].
  - destruct voxel_size_z as [vz |]; [| discriminate].
    destruct sigma_z as [sz |]; [| discriminate].
    eapply for_regions_spec in Hfor as (fits & Hall & Hsp & Hrw & Hlen);
      [| intros; eapply body_3d_spec; eassumption].
    change (concat (s0 :: sp)) with (s0 ++ concat sp) in Hsp.
    exists fits. rewrite Hsp, Hrw.
    repeat split; auto.
    destruct candidate_regions; [discriminate | discriminate].
Qed.

(** C3, as the code has it. The row of a region in the array of regions is
    a row of integers: the global coordinates of the first fitted position
    of the region, truncated; the number of fitted positions; the area of
    the region; its mean intensity, truncated; its index. *)
Theorem region_summary_record fuel image candidate_regions voxel_size_z
    voxel_size_yx sigma_z sigma_yx amplitude background precomputed_gaussian
    spots_in_regions regions w :
  simulate_gaussian_mixture _initialize_grid_2d _initialize_grid_3d
    _gaussian_2d _gaussian_3d fuel image candidate_regions voxel_size_z
    voxel_size_yx sigma_z sigma_yx amplitude background precomputed_gaussian
  = (Ok (spots_in_regions, regions), w) ->
  let voxels := voxel_sizes image voxel_size_z voxel_size_yx in
  exists fits,
    Forall2 (fun region positions =>
               fitted_positions _initialize_grid_2d _initialize_grid_3d
                 _gaussian_2d _gaussian_3d fuel image region voxel_size_z
                 voxel_size_yx sigma_z sigma_yx amplitude background
                 precomputed_gaussian = (Ok positions, [])
               /\ positions <> [])
            candidate_regions fits
    /\ length (rows regions) = length candidate_regions
    /\ forall i region positions,
         nth_error candidate_regions i = Some region ->
         nth_error fits i = Some positions ->
         nth_error (rows regions) i
         = Some (map trunc (global_coordinates (hd [] positions) voxels
                                               (bbox region))
                 ++ [Z.of_nat (length positions); area region;
                     trunc (mean_intensity region); Z.of_nat i]).
Proof.
  intros H voxels.
  destruct (simulate_gaussian_mixture_spec _ _ _ _ _ _ _ _ _ _ _ _ _ H)
    as (fits & Hall & _ & _ & -> & _ & _).
  exists fits. split; [| split].
  - eapply Forall2_impl; [| exact Hall]. intros ? ? (? & ? & _). tauto.
  - simpl. apply length_all_summaries. eapply Forall2_length; eassumption.
  - intros i region positions Hr Hf. simpl rows.
    rewrite (nth_error_all_summaries _ _ _ 0 i region positions Hr Hf).
    reflexivity.
Qed.

End SimulationProofs.

(** ** Errors of the decomposer *)

Section NoArgumentError.

Context {F : Type} {FA : Float64Arith F} {FC : Float64Cast F}.
Variable erf_table : Type.
Variable _initialize_grid_2d : list (list F) -> F -> list (F * F).
Variable _initialize_grid_3d : list (list (list F)) -> F -> F -> list (F * F * F).
Variable _gaussian_2d :
  list (F * F) -> F -> F -> F -> F -> F -> F -> erf_table -> list F.
Variable _gaussian_3d :
  list (F * F * F) -> F -> F -> F -> F -> F -> F -> F -> F -> F -> erf_table ->
  list F.

Lemma nae_tuple_get (k : nat) (t : list Z) : no_argument_error (tuple_get k t).
Proof. unfold tuple_get. nae_auto. Qed.

Lemma nae_np_iinfo_max (d : dtype) : no_argument_error (np_iinfo_max d).
Proof. unfold np_iinfo_max. nae_auto. Qed.

Lemma nae_loop_body (P : Type) (gaussian : P -> F -> list F) (grid : list P)
    (image_region_raw : list F) (st : fit_state F P) :
  no_argument_error (loop_body gaussian grid image_region_raw st).
Proof. unfold loop_body, np_argmax, grid_column. nae_auto. Qed.

Lemma nae_while_loop (P : Type) (gaussian : P -> F -> list F) (grid : list P)
    (image_region_raw : list F) (limit_gaussian : Z) (fuel : nat) :
  forall st,
    no_argument_error
      (while_loop gaussian grid image_region_raw limit_gaussian fuel st).
Proof.
  induction fuel as [| fuel IH]; intros st; simpl;
    destruct (loop_test limit_gaussian st); auto with nae.
  apply nae_bind; [apply nae_loop_body | assumption].
Qed.

Lemma nae_fit_region (P : Type) (gaussian : P -> F -> list F) (grid : list P)
    (image_region_raw : list F) (limit_gaussian : Z) (fuel : nat)
    (background : F) :
  no_argument_error
    (fit_region gaussian grid image_region_raw limit_gaussian fuel background).
Proof.
  unfold fit_region. apply nae_bind; [apply nae_while_loop |].
  intros st. unfold after_loop, pop_last, warn. nae_auto.
  intros msg _. discriminate.
Qed.

#[local] Hint Resolve nae_tuple_get nae_np_iinfo_max nae_fit_region : nae.

Lemma nae_gaussian_mixture_2d fuel image_dtype image region voxel_size_yx
    sigma_yx amplitude background precomputed_gaussian limit_gaussian :
  no_argument_error
    (_gaussian_mixture_2d _initialize_grid_2d _gaussian_2d fuel image_dtype
       image region voxel_size_yx sigma_yx amplitude background
       precomputed_gaussian limit_gaussian).
Proof. unfold _gaussian_mixture_2d. nae_auto. Qed.

Lemma nae_gaussian_mixture_3d fuel image_dtype image region voxel_size_z
    voxel_size_yx sigma_z sigma_yx amplitude background precomputed_gaussian
    limit_gaussian :
  no_argument_error
    (_gaussian_mixture_3d _initialize_grid_3d _gaussian_3d fuel image_dtype
       image region voxel_size_z voxel_size_yx sigma_z sigma_yx amplitude
       background precomputed_gaussian limit_gaussian).
Proof. unfold _gaussian_mixture_3d. nae_auto. Qed.

Lemma nae_reconcile_2d i_region (region : region F) voxel_size_yx
    coord_gaussian :
  no_argument_error (reconcile_2d i_region region voxel_size_yx coord_gaussian).
Proof.
  unfold reconcile_2d.
  destruct (bbox region) as [| ? [| ? [| ? [| ? [| ? ?]]]]]; nae_auto.
Qed.

Lemma nae_reconcile_3d i_region (region : region F) voxel_size_z
    voxel_size_yx coord_gaussian :
  no_argument_error
    (reconcile_3d i_region region voxel_size_z voxel_size_yx coord_gaussian).
Proof.
  unfold reconcile_3d.
  destruct (bbox region) as [| ? [| ? [| ? [| ? [| ? [| ? [| ? ?]]]]]]];
    nae_auto.
Qed.

Lemma nae_for_regions body (candidate_regions : list (region F)) :
  (forall i region, no_argument_error (body i region)) ->
  forall i_region,
    no_argument_error (for_regions body i_region candidate_regions).
Proof.
  intros Hb. induction candidate_regions as [| region rest IH]; intros i;
    simpl; nae_auto; auto.
Qed.

#[local] Hint Resolve nae_gaussian_mixture_2d nae_gaussian_mixture_3d
  nae_reconcile_2d nae_reconcile_3d : nae.

(** With its z geometry when the image is 3-d, the simulation raises no
    argument error. *)
Lemma nae_simulate_gaussian_mixture fuel image candidate_regions
    voxel_size_z voxel_size_yx sigma_z sigma_yx amplitude background
    precomputed_gaussian :
  (ndim image = 3%nat -> voxel_size_z <> None) ->
  no_argument_error
    (simulate_gaussian_mixture _initialize_grid_2d _initialize_grid_3d
       _gaussian_2d _gaussian_3d fuel image candidate_regions voxel_size_z
       voxel_size_yx sigma_z sigma_yx amplitude background
       precomputed_gaussian).
Proof.
  intros Hz. unfold simulate_gaussian_mixture.
  destruct (fltb background (of_int 0)); [nae_auto |].
  destruct ((ndim image =? 3)%nat && is_none voxel_size_z) eqn:E1.
  { apply andb_true_iff in E1 as [E1 E2]. apply Nat.eqb_eq in E1.
    destruct voxel_size_z; [discriminate | now contradiction (Hz E1)]. }
  destruct ((ndim image =? 3)%nat && is_none sigma_z) eqn:E2; [nae_auto |].
  apply nae_bind.
  - unfold ndim in *.
    destruct (nd_data image), voxel_size_z, sigma_z; simpl in *;
      try discriminate;
      apply nae_for_regions; intros; nae_auto.
  - intros [sp rw]. destruct sp; nae_auto.
Qed.

End NoArgumentError.

(** ** Dense regions: warnings, errors and the shape of the spots *)

Section DenseRegionProofs.

Context {F : Type} {FA : Float64Arith F} {FC : Float64Cast F}.
Variable build_reference_spot :
  ndarray F -> int_array -> option F -> F -> option F -> F -> F -> ndarray F.
Variable label : nd bool -> nd Z.
Variable regionprops : nd Z -> ndarray F -> list (region F).

Lemma silent_column (k : nat) (a : int_array) : silent (column k a).
Proof. unfold column. silent_auto. Qed.

Lemma nae_column (k : nat) (a : int_array) : no_argument_error (column k a).
Proof. unfold column. nae_auto. Qed.

#[local] Hint Resolve silent_column : silent.
#[local] Hint Resolve nae_column : nae.

Lemma silent_for_each {S B} (body : S -> B -> M S) (l : list B) :
  (forall st b, silent (body st b)) -> forall st, silent (for_each body l st).
Proof.
  intros Hb. induction l as [| b l IH]; intros st; simpl; silent_auto; auto.
Qed.

Lemma nae_for_each {S B} (body : S -> B -> M S) (l : list B) :
  (forall st b, no_argument_error (body st b)) ->
  forall st, no_argument_error (for_each body l st).
Proof.
  intros Hb. induction l as [| b l IH]; intros st; simpl; nae_auto; auto.
Qed.

Lemma silent_step_3d spots st box : silent (step_3d spots st box).
Proof. unfold step_3d. destruct st. silent_auto. Qed.

Lemma silent_step_2d spots st box : silent (step_2d spots st box).
Proof. unfold step_2d. destruct st. silent_auto. Qed.

Lemma nae_step_3d spots st box : no_argument_error (step_3d spots st box).
Proof. unfold step_3d. destruct st. nae_auto. Qed.

Lemma nae_step_2d spots st box : no_argument_error (step_2d spots st box).
Proof. unfold step_2d. destruct st. nae_auto. Qed.

Lemma silent_filter_spot_out candidate_bbox spots nb_dim :
  silent (_filter_spot_out_candidate_regions candidate_bbox spots nb_dim).
Proof.
  unfold _filter_spot_out_candidate_regions.
  apply silent_bind; [apply silent_column | intros s0].
  apply silent_bind; [| intros [? ?]; apply silent_ret].
  destruct (nb_dim =? 3)%nat; apply silent_for_each; intros;
    [apply silent_step_3d | apply silent_step_2d].
Qed.

Lemma nae_filter_spot_out candidate_bbox spots nb_dim :
  no_argument_error
    (_filter_spot_out_candidate_regions candidate_bbox spots nb_dim).
Proof.
  unfold _filter_spot_out_candidate_regions.
  apply nae_bind; [apply nae_column | intros s0].
  apply nae_bind; [| intros [? ?]; apply nae_ret].
  destruct (nb_dim =? 3)%nat; apply nae_for_each; intros;
    [apply nae_step_3d | apply nae_step_2d].
Qed.

Lemma filter_spot_out_shape candidate_bbox spots nb_dim out m w :
  _filter_spot_out_candidate_regions candidate_bbox spots nb_dim
  = (Ok (out, m), w) ->
  shape1 out = shape1 spots.
Proof.
  unfold _filter_spot_out_candidate_regions. intros H.
  peel_binds H. inversion H; subst. reflexivity.
Qed.

#[local] Hint Resolve silent_filter_spot_out : silent.
#[local] Hint Resolve nae_filter_spot_out : nae.

Lemma silent_get_dense_region image spots voxel_size_z voxel_size_yx psf_z
    psf_yx beta :
  silent (get_dense_region build_reference_spot label regionprops image
            spots voxel_size_z voxel_size_yx psf_z psf_yx beta).
Proof.
  unfold get_dense_region, _filter_connected_region, np_max. silent_auto.
Qed.

Lemma get_dense_region_shape image spots voxel_size_z voxel_size_yx psf_z
    psf_yx beta regions out size_ w :
  get_dense_region build_reference_spot label regionprops image spots
    voxel_size_z voxel_size_yx psf_z psf_yx beta
  = (Ok (regions, out, size_), w) ->
  shape1 out = shape1 spots.
Proof.
  unfold get_dense_region, _filter_connected_region. intros H.
  repeat match type of H with
         | (if ?c then _ else _) = _ => destruct c; [discriminate |]
         end.
  destruct (if (ndim image =? 2)%nat then _ else _) as [vz pz].
  apply bind_Ok_inv in H as (max_ & w1 & w2 & _ & H & _).
  destruct (length _ =? 0)%nat.
  - inversion H; subst. reflexivity.
  - apply bind_Ok_inv in H as ([out' m] & w3 & w4 & Hf & H & _).
    inversion H; subst. eapply filter_spot_out_shape; eassumption.
Qed.

(** Called with arguments that pass the checks of [decompose_dense],
    [get_dense_region] raises no argument error. *)
Lemma nae_get_dense_region image spots voxel_size_z voxel_size_yx psf_z
    psf_yx beta :
  fltb beta (of_int 0) = false ->
  (ndim image =? 3)%nat && is_none voxel_size_z = false ->
  (ndim image =? 3)%nat && is_none psf_z = false ->
  negb (ndim image =? shape1 spots)%nat = false ->
  no_argument_error
    (get_dense_region build_reference_spot label regionprops image spots
       voxel_size_z voxel_size_yx psf_z psf_yx beta).
Proof.
  intros H1 H2 H3 H4. unfold get_dense_region.
  rewrite H1, H2, H3, H4.
  unfold _filter_connected_region, np_max. nae_auto.
Qed.

End DenseRegionProofs.

(** ** The main function *)

Section DecomposeProofs.

Context {F : Type} {FA : Float64Arith F} {FC : Float64Cast F}.
Variable build_reference_spot :
  ndarray F -> int_array -> option F -> F -> option F -> F -> F -> ndarray F.
Variable label : nd bool -> nd Z.
Variable regionprops : nd Z -> ndarray F -> list (region F).
Variable erf_table : Type.
Variable _initialize_grid_2d : list (list F) -> F -> list (F * F).
Variable _initialize_grid_3d : list (list (list F)) -> F -> F -> list (F * F * F).
Variable _gaussian_2d :
  list (F * F) -> F -> F -> F -> F -> F -> F -> erf_table -> list F.
Variable _gaussian_3d :
  list (F * F * F) -> F -> F -> F -> F -> F -> F -> F -> F -> F -> erf_table ->
  list F.
Variable get_sigma : option F -> F -> option F -> F -> list F.
Variable remove_background_gaussian : ndarray F -> list F -> ndarray F.
Variable modelize_spot : ndarray F -> option F -> F -> option F -> F -> list F.
Variable precompute_erf : option F -> F -> option F -> F -> Z -> erf_table.

Local Notation "'decompose'" :=
  (decompose_dense build_reference_spot label regionprops _initialize_grid_2d
     _initialize_grid_3d _gaussian_2d _gaussian_3d get_sigma
     remove_background_gaussian modelize_spot precompute_erf).
Local Notation "'detect'" :=
  (get_dense_region build_reference_spot label regionprops).
Local Notation "'simulate'" :=
  (simulate_gaussian_mixture _initialize_grid_2d _initialize_grid_3d
     _gaussian_2d _gaussian_3d).

(** The checks, one after the other. *)
Lemma decompose_dense_raises fuel image spots voxel_size_z voxel_size_yx
    psf_z psf_yx alpha beta gamma msg :
  argument_error (ndim image) (shape1 spots) voxel_size_z psf_z alpha beta
                 gamma = Some msg ->
  decompose fuel image spots voxel_size_z voxel_size_yx psf_z psf_yx alpha
            beta gamma = (Raise (ValueError msg), []).
Proof.
  unfold argument_error, decompose_dense.
  repeat match goal with
         | |- context [if ?c then Some _ else _] => destruct c
         end;
    intros E; inversion E; reflexivity.
Qed.

Lemma argument_error_message image_ndim spots_shape1
    (voxel_size_z psf_z : option F) alpha beta gamma msg :
  argument_error image_ndim spots_shape1 voxel_size_z psf_z alpha beta gamma
  = Some msg ->
  In msg argument_messages.
Proof.
  unfold argument_error, argument_messages.
  repeat match goal with
         | |- context [if ?c then Some _ else _] => destruct c
         end;
    intros E; inversion E; simpl; tauto.
Qed.

Lemma argument_error_invalid image_ndim spots_shape1
    (voxel_size_z psf_z : option F) alpha beta gamma :
  invalid_argument image_ndim spots_shape1 voxel_size_z psf_z alpha beta gamma
  = true
  <-> argument_error image_ndim spots_shape1 voxel_size_z psf_z alpha beta
                     gamma <> None.
Proof.
  unfold invalid_argument, argument_error.
  destruct (fltb alpha (of_int 0)), (fltb (of_int 1) alpha),
    (fltb beta (of_int 0)), (fltb gamma (of_int 0)), (image_ndim =? 3)%nat,
    (is_none voxel_size_z), (is_none psf_z),
    (image_ndim =? spots_shape1)%nat; simpl;
    split; intros H; try reflexivity; try discriminate; try congruence.
Qed.

(** The arguments pass every check. *)
Lemma argument_error_none image_ndim spots_shape1
    (voxel_size_z psf_z : option F) alpha beta gamma :
  argument_error image_ndim spots_shape1 voxel_size_z psf_z alpha beta gamma
  = None ->
  fltb alpha (of_int 0) || fltb (of_int 1) alpha = false
  /\ fltb beta (of_int 0) = false
  /\ fltb gamma (of_int 0) = false
  /\ (image_ndim =? 3)%nat && is_none voxel_size_z = false
  /\ (image_ndim =? 3)%nat && is_none psf_z = false
  /\ negb (image_ndim =? spots_shape1)%nat = false.
Proof.
  unfold argument_error.
  repeat match goal with
         | |- context [if ?c then Some _ else _] => destruct c
         end;
    intros E; try discriminate E; repeat split; reflexivity.
Qed.

Local Notation "'denoised'" :=
  (denoised_image get_sigma remove_background_gaussian).
Local Notation "'reference'" :=
  (reference_spot_of build_reference_spot get_sigma remove_background_gaussian).

(** A failure of a step is the failure of what follows. *)
Lemma run_fails {A B} (m : M A) (f : A -> M B) (r : result B)
    (w : list warning) (P Q : Prop) :
  bind m f = (r, w) ->
  snd m = [] -> (forall a, fst m <> Ok a) -> no_argument_error m ->
  (w = [] /\ (forall x, r <> Ok x) /\ no_argument_error (r, w)) \/ P \/ Q.
Proof.
  destruct m as [[a | e |] w1]; simpl; intros H -> Hf Hn.
  - now contradiction (Hf a).
  - inversion H; subst. left. repeat split; try discriminate.
    intros msg Hin E. apply (Hn msg Hin). simpl in *. congruence.
  - inversion H; subst. left. repeat split; discriminate.
Qed.

(** The parameter checks passed, what a run of [decompose_dense] can be: a
    failure without a warning; an early return of the input spots; or the
    merge of the spots outside the regions with the spots fitted inside. *)
Lemma decompose_dense_run
    (denoised_ndim :
       forall image sigma,
         ndim (remove_background_gaussian image sigma) = ndim image)
    fuel image spots voxel_size_z voxel_size_yx psf_z psf_yx alpha beta gamma
    r w :
  argument_error (ndim image) (shape1 spots) voxel_size_z psf_z alpha beta
                 gamma = None ->
  decompose fuel image spots voxel_size_z voxel_size_yx psf_z psf_yx alpha
            beta gamma = (r, w) ->
  let vz := fst (z_geometry image voxel_size_z psf_z) in
  let pz := snd (z_geometry image voxel_size_z psf_z) in
  let image_denoised :=
    denoised image voxel_size_z voxel_size_yx psf_z psf_yx gamma in
  (w = [] /\ (forall x, r <> Ok x) /\ no_argument_error (r, w))
  \/ (w = [] /\ exists reference_spot,
        r = Ok (spots, no_dense_regions (ndim image), reference_spot))
  \/ (exists regions out size_ sigma_z sigma_yx amplitude background table
             spots_in dense_regions,
        detect image_denoised spots vz voxel_size_yx pz psf_yx beta
        = (Ok (regions, out, size_), [])
        /\ simulate fuel image_denoised regions vz voxel_size_yx sigma_z
             sigma_yx amplitude background table
           = (Ok (spots_in, dense_regions), [])
        /\ r = Ok (IntArray (ndim image)
                     (rows out ++ map (firstn (ndim image)) (rows spots_in)),
                   dense_regions,
                   reference image spots voxel_size_z voxel_size_yx psf_z
                             psf_yx alpha gamma)
        /\ w = if (length (rows out) + length (rows spots_in)
                   <? length (rows spots))%nat
               then [UserWarning less_spots_message] else []).
Proof.
  intros Herr H.
  destruct (argument_error_none _ _ _ _ _ _ _ Herr)
    as (C1 & C2 & C3 & C4 & C5 & C6).
  unfold decompose_dense in H. rewrite C1, C2, C3, C4, C5, C6 in H.
  unfold reference_spot_of, denoised_image, z_geometry.
  assert (C4' : (ndim image =? 3)%nat
                && is_none (fst (if (ndim image =? 2)%nat
                                 then (None, None)
                                 else (voxel_size_z, psf_z))) = false).
  { destruct (ndim image =? 2)%nat eqn:E2; [| exact C4].
    apply Nat.eqb_eq in E2. now rewrite E2. }
  assert (C5' : (ndim image =? 3)%nat
                && is_none (snd (if (ndim image =? 2)%nat
                                 then (None, None)
                                 else (voxel_size_z, psf_z))) = false).
  { destruct (ndim image =? 2)%nat eqn:E2; [| exact C5].
    apply Nat.eqb_eq in E2. now rewrite E2. }
  destruct (if (ndim image =? 2)%nat then (None, None)
            else (voxel_size_z, psf_z)) as [vz pz].
  simpl fst in *; simpl snd in *. cbv zeta.
  set (den := if fltb (of_int 0) gamma then _ else image) in *.
  assert (Hden : ndim den = ndim image).
  { unfold den. destruct (fltb (of_int 0) gamma); [apply denoised_ndim | reflexivity]. }
  set (ref := build_reference_spot den spots vz voxel_size_yx pz psf_yx alpha) in *.
  destruct (size spots =? 0)%nat.
  { inversion H; subst. right; left. split; [reflexivity | eauto]. }
  destruct (feqb _ _).
  { inversion H; subst. right; left. split; [reflexivity | eauto]. }
  (* the fitted parameters *)
  match type of H with
  | bind ?m _ = _ =>
      assert (Hp : silent m) by silent_auto;
      assert (Hn : no_argument_error m) by nae_auto;
      destruct m as [[[[[sigma_z sigma_yx] amplitude] background] | e |] wp]
  end;
    unfold silent in Hp; simpl in Hp; subst wp;
    [| now apply (run_fails _ _ _ _ _ _ H) ..].
  rewrite bind_Ok_nil in H. cbv beta iota in H.
  (* the dense regions *)
  assert (Hn' : no_argument_error
                  (detect den spots vz voxel_size_yx pz psf_yx beta)).
  { apply nae_get_dense_region; rewrite ?Hden; assumption. }
  destruct (detect den spots vz voxel_size_yx pz psf_yx beta)
    as [[[[regions out] size_] | e |] w1] eqn:Eg;
    pose proof (silent_eq _ _ _ (silent_get_dense_region _ _ _ _ _ _ _ _ _ _)
                  Eg) as ->;
    [| now apply (run_fails _ _ _ _ _ _ H) ..].
  rewrite bind_Ok_nil in H. cbv beta iota in H.
  destruct (length regions =? 0)%nat.
  { inversion H; subst. right; left. split; [reflexivity | eauto]. }
  (* the simulation *)
  match type of H with
  | bind ?m _ = _ =>
      assert (Hn'' : no_argument_error m);
      [ apply nae_simulate_gaussian_mixture; rewrite Hden; intros E3;
        rewrite E3 in C4'; destruct vz; [discriminate | discriminate C4']
      | destruct m as [[[spots_in dense_regions] | e |] w2] eqn:Es ]
  end;
    pose proof (silent_eq _ _ _ (silent_simulate_gaussian_mixture _ _ _ _ _ _
                                   _ _ _ _ _ _ _ _ _) Es) as ->;
    [| now apply (run_fails _ _ _ _ _ _ H) ..].
  rewrite bind_Ok_nil in H. cbv beta iota in H.
  (* the merge *)
  pose proof (get_dense_region_shape _ _ _ _ _ _ _ _ _ _ _ _ _ _ Eg) as Hout.
  apply negb_false_iff, Nat.eqb_eq in C6.
  destruct (simulate_gaussian_mixture_spec _ _ _ _ _ _ _ _ _ _ _ _ _ _ _ _ _
              _ Es) as (fits & _ & _ & Hin & _ & _ & _).
  assert (Hshape : negb (shape1 out =? Nat.min (ndim image) (shape1 spots_in))%nat
                   = false).
  { rewrite Hin, Hout, Hden, <- C6. simpl shape1.
    apply negb_false_iff, Nat.eqb_eq. lia. }
  rewrite Hshape in H.
  right; right.
  exists regions, out, size_, sigma_z, sigma_yx, amplitude, background.
  eexists. exists spots_in, dense_regions.
  split; [reflexivity |]. split; [exact Es |].
  rewrite Hout, <- C6 in H.
  destruct (_ <? _)%nat; unfold bind, warn, ret in H; inversion H; subst;
    split; reflexivity.
Qed.

(** C7. [decompose_dense] raises an argument error exactly when [alpha] is
    outside [[0, 1]], [beta] or [gamma] is negative, a 3-d image comes
    without [voxel_size_z] or [psf_z], or the spots have not the rank of
    the image. The error is the one of the first check that fails, which
    depends on the image through its rank only: it is raised whatever the
    pixels and the collaborators, with no warning. A 3-d image with
    [voxel_size_z = None] is such a case. *)
Theorem decompose_dense_invalid_argument
    (denoised_ndim :
       forall image sigma,
         ndim (remove_background_gaussian image sigma) = ndim image)
    fuel image spots voxel_size_z voxel_size_yx psf_z psf_yx alpha beta gamma :
  let error :=
    argument_error (ndim image) (shape1 spots) voxel_size_z psf_z alpha beta
                   gamma in
  (invalid_argument (ndim image) (shape1 spots) voxel_size_z psf_z alpha beta
                    gamma = true <-> error <> None)
  /\ (forall msg,
        error = Some msg ->
        In msg argument_messages
        /\ decompose fuel image spots voxel_size_z voxel_size_yx psf_z psf_yx
                     alpha beta gamma = (Raise (ValueError msg), []))
  /\ (error = None ->
      no_argument_error
        (decompose fuel image spots voxel_size_z voxel_size_yx psf_z psf_yx
                   alpha beta gamma))
  /\ (ndim image = 3%nat -> voxel_size_z = None -> error <> None).
Proof.
  intros error. split; [apply argument_error_invalid |].
  split; [| split].
  - intros msg E. split.
    + eapply argument_error_message; eassumption.
    + now apply decompose_dense_raises.
  - intros E.
    destruct (decompose fuel image spots voxel_size_z voxel_size_yx psf_z
                        psf_yx alpha beta gamma) as [r w] eqn:H.
    destruct (decompose_dense_run denoised_ndim _ _ _ _ _ _ _ _ _ _ _ _ E H)
      as [(_ & _ & Hn) | [(_ & ref & ->) | (? & ? & ? & ? & ? & ? & ? & ? & ?
                                            & ? & _ & _ & -> & _)]];
      [exact Hn | intros ? _; discriminate | intros ? _; discriminate].
  - intros E3 Ez. unfold error, argument_error. rewrite E3, Ez. simpl.
    repeat match goal with
           | |- context [if ?c then Some _ else _] => destruct c
           end; discriminate.
Qed.

(** C8. [decompose_dense] records its warning exactly when it returns
    fewer spots than it was given; the warning does not stop it, the
    merged spots are returned; and it records no other warning. *)
Theorem decompose_dense_warning
    (denoised_ndim :
       forall image sigma,
         ndim (remove_background_gaussian image sigma) = ndim image)
    fuel image spots voxel_size_z voxel_size_yx psf_z psf_yx alpha beta gamma
    r w :
  decompose fuel image spots voxel_size_z voxel_size_yx psf_z psf_yx alpha
            beta gamma = (r, w) ->
  (In (UserWarning less_spots_message) w <->
   exists spots' dense_regions reference_spot,
     r = Ok (spots', dense_regions, reference_spot)
     /\ (length (rows spots') < length (rows spots))%nat)
  /\ (w = [] \/ w = [UserWarning less_spots_message]).
Proof.
  intros H.
  destruct (argument_error (ndim image) (shape1 spots) voxel_size_z psf_z
                           alpha beta gamma) as [msg |] eqn:E.
  - rewrite (decompose_dense_raises _ _ _ _ _ _ _ _ _ _ _ E) in H.
    inversion H; subst. split; [| now left].
    split; [intros [] | intros (? & ? & ? & ? & _); discriminate].
  - destruct (decompose_dense_run denoised_ndim _ _ _ _ _ _ _ _ _ _ _ _ E H)
      as [(-> & Hr & _) | [(-> & ref & ->) | (regions & out & ? & ? & ? & ? & ?
                                              & ? & spots_in & ? & _ & _ & ->
                                              & ->)]].
    + split; [| now left].
      split; [intros [] | intros (? & ? & ? & -> & _); exact (Hr _ eq_refl)].
    + split; [| now left].
      split; [intros [] | intros (? & ? & ? & Hr & Hl)].
      inversion Hr; subst. lia.
    + destruct (_ <? _)%nat eqn:Ec.
      * apply Nat.ltb_lt in Ec. split; [| now right].
        split; [intros _ | intros _; now left].
        do 3 eexists. split; [reflexivity |].
        simpl. rewrite length_app, length_map. exact Ec.
      * apply Nat.ltb_ge in Ec. split; [| now left].
        split; [intros [] | intros (? & ? & ? & Hr & Hl)].
        inversion Hr; subst. simpl in Hl.
        rewrite length_app, length_map in Hl. lia.
Qed.

(** C10. The spots [decompose_dense] returns are the spots it was given,
    or the spots outside the regions followed by the fitted positions of
    the regions, region after region. Each fitted position has one
    coordinate per axis of the image, and is returned as integers: along
    each axis the physical coordinate divided by the voxel size of the
    axis, plus the minimum of the box of the region along the axis,
    truncated. The fraction of a pixel is not returned. *)
Theorem decompose_dense_fitted_coordinates
    (denoised_ndim :
       forall image sigma,
         ndim (remove_background_gaussian image sigma) = ndim image)
    fuel image spots voxel_size_z voxel_size_yx psf_z psf_yx alpha beta gamma
    spots' dense_regions reference_spot w :
  decompose fuel image spots voxel_size_z voxel_size_yx psf_z psf_yx alpha
            beta gamma = (Ok (spots', dense_regions, reference_spot), w) ->
  let vz := fst (z_geometry image voxel_size_z psf_z) in
  let pz := snd (z_geometry image voxel_size_z psf_z) in
  let image_denoised :=
    denoised image voxel_size_z voxel_size_yx psf_z psf_yx gamma in
  let n := ndim image in
  let voxels :=
    match vz with
    | Some voxel_size_z =>
        if (n =? 3)%nat then [voxel_size_z; voxel_size_yx; voxel_size_yx]
        else [voxel_size_yx; voxel_size_yx]
    | None => [voxel_size_yx; voxel_size_yx]
    end in
  spots' = spots
  \/ exists regions out size_ sigma_z sigma_yx amplitude background table fits,
       detect image_denoised spots vz voxel_size_yx pz psf_yx beta
       = (Ok (regions, out, size_), [])
       /\ Forall2 (fun region positions =>
                     fitted_positions _initialize_grid_2d _initialize_grid_3d
                       _gaussian_2d _gaussian_3d fuel image_denoised region vz
                       voxel_size_yx sigma_z sigma_yx amplitude background
                       table = (Ok positions, [])
                     /\ length (bbox region) = (2 * n)%nat
                     /\ Forall (fun position => length position = n)
                               positions)
                  regions fits
       /\ length voxels = n
       /\ rows spots' = rows out ++ claimed_spots n voxels regions fits.
Proof.
  intros H vz pz image_denoised n voxels.
  destruct (argument_error (ndim image) (shape1 spots) voxel_size_z psf_z
                           alpha beta gamma) as [msg |] eqn:E.
  { rewrite (decompose_dense_raises _ _ _ _ _ _ _ _ _ _ _ E) in H.
    discriminate. }
  destruct (argument_error_none _ _ _ _ _ _ _ E) as (_ & _ & _ & C4 & _ & _).
  destruct (decompose_dense_run denoised_ndim _ _ _ _ _ _ _ _ _ _ _ _ E H)
    as [(_ & Hr & _) | [(_ & ref & Hr) | (regions & out & size_ & sigma_z
                                          & sigma_yx & amplitude & background
                                          & table & spots_in & dense & Hd & Hs
                                          & Hr & _)]].
  - now contradiction (Hr (spots', dense_regions, reference_spot)).
  - inversion Hr; subst. now left.
  - right. inversion Hr; subst; clear Hr.
    destruct (simulate_gaussian_mixture_spec _ _ _ _ _ _ _ _ _ _ _ _ _ _ _ _ _
                _ Hs) as (fits & Hall & _ & -> & _ & _ & Hv).
    assert (Hden : ndim image_denoised = ndim image).
    { unfold image_denoised, denoised_image.
      destruct (z_geometry image voxel_size_z psf_z).
      destruct (fltb (of_int 0) gamma); [apply denoised_ndim | reflexivity]. }
    fold image_denoised vz in Hall, Hv.
    assert (Hvox : voxel_sizes image_denoised vz voxel_size_yx = voxels).
    { unfold voxels, voxel_sizes, n. rewrite <- Hden. unfold ndim.
      destruct (nd_data image_denoised), vz; reflexivity. }
    rewrite Hden in Hall, Hv. fold n in Hall, Hv.
    exists regions, out, size_, sigma_z, sigma_yx, amplitude, background,
      table, fits.
    split; [exact Hd |]. split.
    { eapply Forall2_impl; [| exact Hall].
      intros ? ? (Hf & _ & Hb & Hp). auto. }
    split; [now rewrite <- Hvox |].
    simpl rows. f_equal. rewrite <- Hvox.
    rewrite <- (fitted_coordinates_claimed _ n
                  (fun region positions =>
                     fitted_positions _initialize_grid_2d _initialize_grid_3d
                       _gaussian_2d _gaussian_3d fuel image_denoised region vz
                       voxel_size_yx sigma_z sigma_yx amplitude background
                       table = (Ok positions, []) /\ positions <> [])
                  Hv regions fits).
    + apply firstn_all_fitted_rows with
        (Q := fun region positions =>
                fitted_positions _initialize_grid_2d _initialize_grid_3d
                  _gaussian_2d _gaussian_3d fuel image_denoised region vz
                  voxel_size_yx sigma_z sigma_yx amplitude background table
                = (Ok positions, []) /\ positions <> []).
      * exact Hv.
      * eapply Forall2_impl; [| exact Hall]. intros ? ? (? & ? & ?). tauto.
    + eapply Forall2_impl; [| exact Hall]. intros ? ? (? & ? & ?). tauto.
Qed.

(** C6. With arguments that pass the checks, [decompose_dense] returns the
    spots it was given, no region and a reference spot, without a warning,
    in three cases: the spot array is empty, and the reference spot is then
    a patch of zeros of side 5 along each axis; the reference spot sums to
    zero; the detector returns no region. In the last case the parameters
    fitted on the reference spot are as many as the rank of the image
    requires. *)
Theorem decompose_dense_short_circuits
    fuel image spots voxel_size_z voxel_size_yx psf_z psf_yx alpha beta gamma :
  argument_error (ndim image) (shape1 spots) voxel_size_z psf_z alpha beta
                 gamma = None ->
  let vz := fst (z_geometry image voxel_size_z psf_z) in
  let pz := snd (z_geometry image voxel_size_z psf_z) in
  let image_denoised :=
    denoised image voxel_size_z voxel_size_yx psf_z psf_yx gamma in
  let reference_spot :=
    reference image spots voxel_size_z voxel_size_yx psf_z psf_yx alpha gamma in
  let sums_to_zero :=
    feqb (np_sum (flatten (nd_data reference_spot))) (of_int 0) in
  (size spots = 0%nat ->
   decompose fuel image spots voxel_size_z voxel_size_yx psf_z psf_yx alpha
             beta gamma
   = (Ok (spots, IntArray (ndim image + 4) [], zeros_5 image), [])
   /\ nd_data (zeros_5 image)
      = match nd_data image with
        | Arr2 _ => Arr2 (repeat (repeat f0 5) 5)
        | Arr3 _ => Arr3 (repeat (repeat (repeat f0 5) 5) 5)
        end)
  /\ (size spots <> 0%nat -> sums_to_zero = true ->
      decompose fuel image spots voxel_size_z voxel_size_yx psf_z psf_yx alpha
                beta gamma
      = (Ok (spots, IntArray (ndim image + 4) [], reference_spot), []))
  /\ (size spots <> 0%nat -> sums_to_zero = false ->
      length (modelize_spot reference_spot vz voxel_size_yx pz psf_yx)
      = (if (ndim image =? 3)%nat then 4 else 3)%nat ->
      forall out size_ w,
        detect image_denoised spots vz voxel_size_yx pz psf_yx beta
        = (Ok ([], out, size_), w) ->
        decompose fuel image spots voxel_size_z voxel_size_yx psf_z psf_yx
                  alpha beta gamma
        = (Ok (spots, IntArray (ndim image + 4) [], reference_spot), [])).
Proof.
  intros Herr.
  destruct (argument_error_none _ _ _ _ _ _ _ Herr)
    as (C1 & C2 & C3 & C4 & C5 & C6).
  unfold decompose_dense. rewrite C1, C2, C3, C4, C5, C6.
  unfold reference_spot_of, denoised_image, z_geometry, no_dense_regions.
  destruct (if (ndim image =? 2)%nat then (None, None)
            else (voxel_size_z, psf_z)) as [vz pz].
  simpl fst; simpl snd. cbv zeta.
  set (den := if fltb (of_int 0) gamma then _ else image).
  set (ref := build_reference_spot den spots vz voxel_size_yx pz psf_yx alpha).
  split; [| split].
  - intros Hs. apply Nat.eqb_eq in Hs. rewrite Hs.
    split; [reflexivity |]. unfold zeros_5. simpl.
    destruct (nd_data image); reflexivity.
  - intros Hs Hz. apply Nat.eqb_neq in Hs. rewrite Hs, Hz. reflexivity.
  - intros Hs Hz Hm out size_ w Hd. apply Nat.eqb_neq in Hs. rewrite Hs, Hz.
    pose proof (silent_eq _ _ _ (silent_get_dense_region _ _ _ _ _ _ _ _ _ _)
                  Hd) as ->.
    destruct (ndim image =? 3)%nat;
      [ destruct (modelize_spot ref vz voxel_size_yx pz psf_yx)
          as [| ? [| ? [| ? [| ? [| ? ?]]]]]; try discriminate Hm
      | destruct (modelize_spot ref vz voxel_size_yx pz psf_yx)
          as [| ? [| ? [| ? [| ? ?]]]]; try discriminate Hm ];
      unfold ret at 1; rewrite bind_Ok_nil; cbv beta iota;
      rewrite Hd, bind_Ok_nil; reflexivity.
Qed.

End DecomposeProofs.

(** ** The threshold of the dense regions *)

Section ThresholdProofs.

Context {F : Type} {FA : Float64Arith F} {FC : Float64Cast F}.

(** The order of the [float64] values that the statement relies on: the
    product by a value that is not negative, the truncation and the
    conversion of an integer are monotone. *)
Hypothesis fmul_monotone :
  forall m a b,
    fleb (of_int 0) m = true -> fleb a b = true ->
    fleb (fmul m a) (fmul m b) = true.
Hypothesis trunc_monotone :
  forall a b, fleb a b = true -> trunc a <= trunc b.
Hypothesis above_monotone :
  forall t1 t2 pixel,
    t1 <= t2 -> above t2 pixel = true -> above t1 pixel = true.

Lemma flatten_nd_map {A B} (f : A -> B) (a : nd A) :
  flatten (nd_map f a) = map f (flatten a).
Proof.
  destruct a as [px | px]; simpl.
  - now rewrite concat_map.
  - rewrite concat_map, !map_map. f_equal. apply map_ext.
    intros plane. now rewrite concat_map.
Qed.

Lemma count_filter_monotone {A} (p q : A -> bool) (l : list A) :
  (forall x, p x = true -> q x = true) ->
  (length (filter (fun b : bool => b) (map p l))
   <= length (filter (fun b : bool => b) (map q l)))%nat.
Proof.
  intros H. induction l as [| x l IH]; simpl; [lia |].
  destruct (p x) eqn:Ep.
  - rewrite (H x Ep). simpl. lia.
  - destruct (q x); simpl; lia.
Qed.

(** C9, for a reference spot whose maximum is not negative. A larger
    [beta] gives a threshold that is not smaller, so that the pixels above
    the threshold of [beta2] are above the threshold of [beta1], and are
    not more numerous. *)
Theorem dense_threshold_monotone (max_ beta1 beta2 : F) (image : ndarray F) :
  fleb (of_int 0) max_ = true ->
  fleb beta1 beta2 = true ->
  dense_threshold max_ beta1 <= dense_threshold max_ beta2
  /\ (forall pixel,
        above (dense_threshold max_ beta2) pixel = true ->
        above (dense_threshold max_ beta1) pixel = true)
  /\ (count_above (dense_threshold max_ beta2) image
      <= count_above (dense_threshold max_ beta1) image)%nat.
Proof.
  intros Hm Hb.
  assert (Ht : dense_threshold max_ beta1 <= dense_threshold max_ beta2).
  { unfold dense_threshold. apply trunc_monotone. now apply fmul_monotone. }
  split; [exact Ht |]. split.
  - intros pixel. now apply above_monotone.
  - unfold count_above. rewrite !flatten_nd_map.
    apply count_filter_monotone. intros pixel. now apply above_monotone.
Qed.

End ThresholdProofs.

(** ** The rational numbers have the order the threshold relies on *)

Section RationalOrder.

#[local] Existing Instance Rational.Q_arith.
#[local] Existing Instance Rational.Q_cast.

Lemma qltb_lt (a b : Q) : Rational.qltb a b = true <-> (a < b)%Q.
Proof.
  unfold Rational.qltb. rewrite Qlt_alt.
  destruct (a ?= b)%Q; split; intros H; congruence.
Qed.

Lemma Q_fleb_le (a b : Q) : fleb a b = true <-> (a <= b)%Q.
Proof.
  unfold fleb; simpl. rewrite negb_true_iff.
  split.
  - intros H. apply Qnot_lt_le. intros Hlt. apply qltb_lt in Hlt. congruence.
  - intros H. destruct (Rational.qltb b a) eqn:E; [| reflexivity].
    apply qltb_lt in E. now apply Qle_not_lt in H.
Qed.

Lemma Q_fmul_monotone (m a b : Q) :
  fleb (of_int 0) m = true -> fleb a b = true ->
  fleb (fmul m a) (fmul m b) = true.
Proof.
  rewrite !Q_fleb_le. cbn [fmul of_int Rational.Q_arith]. intros Hm Hab.
  rewrite !Qred_correct, !(Qmult_comm m).
  now apply Qmult_le_compat_r.
Qed.

Lemma Q_trunc_monotone (a b : Q) : fleb a b = true -> trunc a <= trunc b.
Proof.
  rewrite Q_fleb_le. destruct a as [na da], b as [nb db].
  unfold Qle; simpl. intros H.
  rewrite <- (Z.quot_mul_cancel_r na (Zpos da) (Zpos db)) by discriminate.
  rewrite <- (Z.quot_mul_cancel_r nb (Zpos db) (Zpos da)) by discriminate.
  rewrite (Z.mul_comm (Zpos db) (Zpos da)).
  apply Z.quot_le_mono; lia.
Qed.

Lemma Q_above_monotone (t1 t2 : Z) (pixel : Q) :
  t1 <= t2 -> above t2 pixel = true -> above t1 pixel = true.
Proof.
  unfold above; simpl. rewrite !qltb_lt. intros Ht H.
  eapply Qle_lt_trans; [| exact H]. now rewrite <- Zle_Qle.
Qed.

Lemma dense_threshold_monotone_witness :
  let max_ := 4%Q in
  let beta1 := 1%Q in
  let beta2 := 2%Q in
  fleb (of_int 0) max_ = true
  /\ fleb beta1 beta2 = true
  /\ dense_threshold max_ beta1 <= dense_threshold max_ beta2
  /\ (forall pixel,
        above (dense_threshold max_ beta2) pixel = true ->
        above (dense_threshold max_ beta1) pixel = true)
  /\ (count_above (dense_threshold max_ beta2) Rational.uneven_pair
      <= count_above (dense_threshold max_ beta1) Rational.uneven_pair)%nat.
Proof.
  intros max_ beta1 beta2.
  split; [reflexivity |]. split; [reflexivity |].
  apply (dense_threshold_monotone Q_fmul_monotone Q_trunc_monotone
           Q_above_monotone max_ beta1 beta2 Rational.uneven_pair);
    reflexivity.
Defined.

(** C9 as it is stated, on a [float64] image with three pixels of value
    [-7] and a reference spot of maximum [-5]: the threshold is [-5] for
    [beta = 1] and [-10] for [beta = 2], no pixel is above the first and
    three are above the second. *)
Lemma dense_threshold_negative_maximum :
  let image := NdArray float64 (Arr2 [[-7; -7]; [-7; -20]])%Q in
  let max_ := (-5)%Q in
  fleb (of_int 0) 1%Q = true
  /\ fleb 1%Q 2%Q = true
  /\ dense_threshold max_ 1%Q = -5
  /\ dense_threshold max_ 2%Q = -10
  /\ above (dense_threshold max_ 2%Q) (-7)%Q = true
  /\ above (dense_threshold max_ 1%Q) (-7)%Q = false
  /\ count_above (dense_threshold max_ 1%Q) image = 0%nat
  /\ count_above (dense_threshold max_ 2%Q) image = 3%nat.
Proof. intros image max_. repeat split. Qed.

End RationalOrder.

(** ** Runs of the simulation and of the main function *)

Section RationalRuns.

#[local] Existing Instance Rational.Q_arith.
#[local] Existing Instance Rational.Q_cast.

Import Rational.

(** C3 as it is stated, on the two pixels 5 and 6: the two positions
    fitted are [(0, 100)] and [(0, 0)], the row described is
    [[0; 1; 2; 2; 5.5; 0]] and the row returned is [[0; 1; 2; 2; 5; 0]],
    the mean intensity 5.5 of the region being truncated. *)
Lemma region_summary_is_not_the_claimed_record :
  simulate 10 uneven_pair [uneven_pair_region] None 100 None 1 5 0
  = (Ok (IntArray 3 [[0; 1; 0]; [0; 0; 0]],
         IntArray 6 [[0; 1; 2; 2; 5; 0]]), [])
  /\ fitted_positions index_grid_2d index_grid_3d point_gaussian_2d
       point_gaussian_3d 10 uneven_pair uneven_pair_region None 100%Q None
       1%Q 5%Q 0%Q tt
     = (Ok [[0; 100]; [0; 0]], [])%Q
  /\ claimed_summary [100; 100]%Q 0 uneven_pair_region [[0; 100]; [0; 0]]%Q
     = [0; 1; 2; 2; 11 # 2; 0]%Q
  /\ map inject_Z [0; 1; 2; 2; 5; 0]
     <> claimed_summary [100; 100]%Q 0 uneven_pair_region
                        [[0; 100]; [0; 0]]%Q.
Proof.
  split; [vm_compute; reflexivity |].
  split; [vm_compute; reflexivity |].
  split; [vm_compute; reflexivity |].
  vm_compute. intros H. discriminate H.
Qed.

Lemma region_summary_record_witness :
  simulate 10 uneven_pair [uneven_pair_region] None 100 None 1 5 0
  = (Ok (IntArray 3 [[0; 1; 0]; [0; 0; 0]],
         IntArray 6 [[0; 1; 2; 2; 5; 0]]), [])
  /\ exists fits,
       Forall2 (fun region positions =>
                  fitted_positions index_grid_2d index_grid_3d
                    point_gaussian_2d point_gaussian_3d 10 uneven_pair region
                    None 100%Q None 1%Q 5%Q 0%Q tt = (Ok positions, [])
                  /\ positions <> [])
               [uneven_pair_region] fits
       /\ length [[0; 1; 2; 2; 5; 0]] = length [uneven_pair_region]
       /\ forall i region positions,
            nth_error [uneven_pair_region] i = Some region ->
            nth_error fits i = Some positions ->
            nth_error [[0; 1; 2; 2; 5; 0]] i
            = Some (map trunc
                      (global_coordinates (hd [] positions) [100; 100]%Q
                                          (bbox region))
                    ++ [Z.of_nat (length positions); area region;
                        trunc (mean_intensity region); Z.of_nat i]).
Proof.
  split; [vm_compute; reflexivity |].
  apply (region_summary_record unit index_grid_2d index_grid_3d
           point_gaussian_2d point_gaussian_3d 10 uneven_pair
           [uneven_pair_region] None 100%Q None 1%Q 5%Q 0%Q tt
           (IntArray 3 [[0; 1; 0]; [0; 0; 0]])
           (IntArray 6 [[0; 1; 2; 2; 5; 0]]) []).
  vm_compute. reflexivity.
Defined.

Lemma keep_background_ndim (image : ndarray Q) (sigma : list Q) :
  ndim (keep_background image sigma) = ndim image.
Proof. reflexivity. Qed.

(** A 3-d image without [voxel_size_z]. *)
Lemma decompose_dense_invalid_argument_witness :
  let image := NdArray uint16 (Arr3 [[[5; 6]]])%Q in
  (forall image sigma, ndim (keep_background image sigma) = ndim image)
  /\ invalid_argument (ndim image) 2 None (Some 300%Q) (1 # 2)%Q 1%Q 5%Q = true
  /\ decompose 10 image three_spots None 100 (Some 300%Q) 200 (1 # 2) 1 5
     = (Raise (ValueError voxel_size_z_message), []).
Proof.
  intros image.
  split; [exact keep_background_ndim |].
  split; [reflexivity |].
  apply (decompose_dense_invalid_argument flat_reference_spot label_above
           region_of_pair unit index_grid_2d index_grid_3d point_gaussian_2d
           point_gaussian_3d sigma_of keep_background fitted_parameters
           no_table keep_background_ndim 10 image three_spots None 100%Q
           (Some 300%Q) 200%Q (1 # 2)%Q 1%Q 5%Q).
  reflexivity.
Defined.

(** Three spots on the two pixels, of which two positions are fitted. *)
Lemma decompose_dense_warning_witness :
  (forall image sigma, ndim (keep_background image sigma) = ndim image)
  /\ decompose 10 uneven_pair three_spots None 100 None 200 (1 # 2) 1 0
     = (Ok (IntArray 2 [[0; 1]; [0; 0]], IntArray 6 [[0; 1; 2; 2; 5; 0]],
            NdArray uint16 (Arr2 (repeat (repeat 4%Q 5) 5))),
        [UserWarning less_spots_message])
  /\ (In (UserWarning less_spots_message) [UserWarning less_spots_message] <->
      exists spots' dense_regions reference_spot,
        Ok (IntArray 2 [[0; 1]; [0; 0]], IntArray 6 [[0; 1; 2; 2; 5; 0]],
            NdArray uint16 (Arr2 (repeat (repeat 4%Q 5) 5)))
        = Ok (spots', dense_regions, reference_spot)
        /\ (length (rows spots') < length (rows three_spots))%nat).
Proof.
  split; [exact keep_background_ndim |].
  split; [vm_compute; reflexivity |].
  apply (decompose_dense_warning flat_reference_spot label_above
           region_of_pair unit index_grid_2d index_grid_3d point_gaussian_2d
           point_gaussian_3d sigma_of keep_background fitted_parameters
           no_table keep_background_ndim 10 uneven_pair three_spots None
           100%Q None 200%Q (1 # 2)%Q 1%Q 0%Q).
  vm_compute. reflexivity.
Defined.

(** A region whose box starts at [(1, 1)], on a grid of pixel centres, and
    a spot outside it: the positions [(50, 150)] and [(50, 50)] fitted in
    the region are returned as [(1, 2)] and [(1, 1)], after the spot
    outside; the quotients [1/2] and [3/2] by the voxel size 100 get the
    minimum 1 of the box and lose their fraction. On a grid shifted by minus
    one half, in a box at the origin, the coordinate [-1/2] is returned as
    0: the truncation is toward zero. *)
Lemma decompose_dense_fitted_coordinates_witness :
  let run :=
    decompose_dense flat_reference_spot label_above region_of_corner
      (shifted_grid_2d (1 # 2)) index_grid_3d point_gaussian_2d
      point_gaussian_3d sigma_of keep_background fitted_parameters no_table
      10 corner_pair corner_spots None 100%Q None 200%Q (1 # 2)%Q 1%Q 0%Q in
  let spots' := IntArray 2 [[0; 0]; [1; 2]; [1; 1]] in
  let dense_regions := IntArray 6 [[1; 2; 2; 2; 5; 0]] in
  let reference_spot := NdArray uint16 (Arr2 (repeat (repeat 4%Q 5) 5)) in
  (forall image sigma, ndim (keep_background image sigma) = ndim image)
  /\ run = (Ok (spots', dense_regions, reference_spot), [])
  /\ fitted_positions (shifted_grid_2d (1 # 2)) index_grid_3d
       point_gaussian_2d point_gaussian_3d 10 corner_pair corner_pair_region
       None 100%Q None 1%Q 5%Q 0%Q tt
     = (Ok [[50; 150]; [50; 50]]%Q, [])
  /\ claimed_spots 2 [100; 100]%Q [corner_pair_region]
                   [[[50; 150]; [50; 50]]%Q]
     = [[1; 2]; [1; 1]]
  /\ (let vz := fst (z_geometry corner_pair None None) in
      let pz := snd (z_geometry corner_pair None None) in
      let image_denoised :=
        denoised_image sigma_of keep_background corner_pair None 100%Q None
                       200%Q 0%Q in
      let n := ndim corner_pair in
      let voxels :=
        match vz with
        | Some voxel_size_z =>
            if (n =? 3)%nat then [voxel_size_z; 100%Q; 100%Q]
            else [100%Q; 100%Q]
        | None => [100%Q; 100%Q]
        end in
      spots' = corner_spots
      \/ exists regions out size_ sigma_z sigma_yx amplitude background table
                fits,
           get_dense_region flat_reference_spot label_above region_of_corner
             image_denoised corner_spots vz 100%Q pz 200%Q 1%Q
           = (Ok (regions, out, size_), [])
           /\ Forall2 (fun region positions =>
                         fitted_positions (shifted_grid_2d (1 # 2))
                           index_grid_3d point_gaussian_2d point_gaussian_3d
                           10 image_denoised region vz 100%Q sigma_z sigma_yx
                           amplitude background table = (Ok positions, [])
                         /\ length (bbox region) = (2 * n)%nat
                         /\ Forall (fun position => length position = n)
                                   positions)
                      regions fits
           /\ length voxels = n
           /\ rows spots' = rows out ++ claimed_spots n voxels regions fits)
  /\ decompose_dense flat_reference_spot label_above region_of_pair
       (shifted_grid_2d (- 1 # 2)) index_grid_3d point_gaussian_2d
       point_gaussian_3d sigma_of keep_background fitted_parameters no_table
       10 uneven_pair three_spots None 100%Q None 200%Q (1 # 2)%Q 1%Q 0%Q
     = (Ok (IntArray 2 [[0; 0]; [0; 0]], IntArray 6 [[0; 0; 2; 2; 5; 0]],
            reference_spot),
        [UserWarning less_spots_message]).
Proof.
  intros run spots' dense_regions reference_spot.
  assert (E : run = (Ok (spots', dense_regions, reference_spot), []))
    by (vm_compute; reflexivity).
  split; [exact keep_background_ndim |]. split; [exact E |].
  split; [vm_compute; reflexivity |]. split; [vm_compute; reflexivity |].
  split; [| vm_compute; reflexivity].
  exact (decompose_dense_fitted_coordinates flat_reference_spot label_above
           region_of_corner unit (shifted_grid_2d (1 # 2)) index_grid_3d
           point_gaussian_2d point_gaussian_3d sigma_of keep_background
           fitted_parameters no_table keep_background_ndim 10%nat corner_pair
           corner_spots None 100%Q None 200%Q (1 # 2)%Q 1%Q 0%Q spots'
           dense_regions reference_spot [] E).
Defined.

(** An empty array of spots of two columns on a 2-d image. *)
Lemma decompose_dense_short_circuits_witness :
  let spots := IntArray 2 [] in
  argument_error (ndim uneven_pair) (shape1 spots) None None (1 # 2)%Q 1%Q 5%Q
  = None
  /\ size spots = 0%nat
  /\ decompose_dense flat_reference_spot label_above region_of_pair
       index_grid_2d index_grid_3d point_gaussian_2d point_gaussian_3d
       sigma_of keep_background fitted_parameters no_table 10 uneven_pair
       spots None 100%Q None 200%Q (1 # 2)%Q 1%Q 5%Q
     = (Ok (spots, IntArray (ndim uneven_pair + 4) [], zeros_5 uneven_pair),
        [])
  /\ flatten (nd_data (zeros_5 uneven_pair)) = repeat 0%Q 25.
Proof.
  intros spots.
  split; [reflexivity |]. split; [reflexivity |].
  pose proof (decompose_dense_short_circuits flat_reference_spot label_above
                region_of_pair unit index_grid_2d index_grid_3d
                point_gaussian_2d point_gaussian_3d sigma_of keep_background
                fitted_parameters no_table 10 uneven_pair spots None 100%Q
                None 200%Q (1 # 2)%Q 1%Q 5%Q eq_refl) as W.
  cbv zeta in W. destruct W as [W _].
  split; [exact (proj1 (W eq_refl)) | reflexivity].
Defined.

End RationalRuns.

(* ================================================================== *)
(** * Further properties of the detector *)

Section DetectorProperties.

Lemma fold_max_ge_init (l : list Z) :
  forall m, m <= fold_left Z.max l m.
Proof.
  induction l as [| x l IH]; intros m; simpl; [lia |].
  specialize (IH (Z.max m x)). lia.
Qed.

Lemma fold_max_ge_in (l : list Z) :
  forall m x, In x l -> x <= fold_left Z.max l m.
Proof.
  induction l as [| y l IH]; intros m x Hin; simpl; [contradiction |].
  destruct Hin as [-> | Hin].
  - pose proof (fold_max_ge_init l (Z.max m x)). lia.
  - now apply IH.
Qed.

Lemma fold_max_attained (l : list Z) :
  forall m, fold_left Z.max l m = m \/ In (fold_left Z.max l m) l.
Proof.
  induction l as [| x l IH]; intros m; simpl; [now left |].
  destruct (IH (Z.max m x)) as [E | Hin]; [| now right; right].
  rewrite E. destruct (Z.max_spec m x) as [[_ ->] | [_ ->]]; auto.
Qed.

Lemma in_box_sides (nb_dim : nat) (box : list Z) (x : Z) :
  In x (box_sides nb_dim box) <->
  exists k, (k < nb_dim)%nat /\ x = nth (nb_dim + k) box 0 - nth k box 0.
Proof.
  unfold box_sides. rewrite in_map_iff. split.
  - intros (k & <- & Hk). apply in_seq in Hk. exists k. split; [lia | reflexivity].
  - intros (k & Hk & ->). exists k. split; [reflexivity | apply in_seq; lia].
Qed.

Variable spots : int_array.

Lemma step_3d_result (g : list Z -> bool) (m : Z) (box : list Z) :
  shape1 spots = 3%nat -> length box = 6%nat ->
  step_3d spots (map g (rows spots), m) box =
  ret (map (fun s => g s && negb (inside_box 3 box s)) (rows spots),
       fold_left Z.max (box_sides 3 box) m).
Proof.
  intros Hs Hb.
  destruct box as [| a [| b [| c [| d [| e [| f [| ? ?]]]]]]]; try discriminate.
  unfold step_3d.
  rewrite !column_in_range by lia. rewrite !bind_ret. cbv zeta.
  repeat first [rewrite map_map | rewrite map2_map].
  unfold ret. do 3 f_equal. apply map_ext. intros s.
  unfold inside_box; simpl.
  destruct (g s), (nth 0 s 0 <? d), (nth 1 s 0 <? e), (nth 2 s 0 <? f),
    (a <=? nth 0 s 0), (b <=? nth 1 s 0), (c <=? nth 2 s 0); reflexivity.
Qed.

Lemma step_2d_result (g : list Z -> bool) (m : Z) (box : list Z) :
  (2 <= shape1 spots)%nat -> length box = 4%nat ->
  step_2d spots (map g (rows spots), m) box =
  ret (map (fun s => g s && negb (inside_box 2 box s)) (rows spots),
       fold_left Z.max (box_sides 2 box) m).
Proof.
  intros Hs Hb.
  destruct box as [| a [| b [| c [| d [| ? ?]]]]]; try discriminate.
  unfold step_2d.
  rewrite !column_in_range by lia. rewrite !bind_ret. cbv zeta.
  repeat first [rewrite map_map | rewrite map2_map].
  unfold ret. do 3 f_equal. apply map_ext. intros s.
  unfold inside_box; simpl.
  destruct (g s), (nth 0 s 0 <? c), (nth 1 s 0 <? d),
    (a <=? nth 0 s 0), (b <=? nth 1 s 0); reflexivity.
Qed.

Lemma for_each_result (nb_dim : nat)
    (step : list bool * Z -> list Z -> M (list bool * Z))
    (boxes : list (list Z)) :
  (forall g m box, In box boxes ->
     step (map g (rows spots), m) box =
     ret (map (fun s => g s && negb (inside_box nb_dim box s)) (rows spots),
          fold_left Z.max (box_sides nb_dim box) m)) ->
  forall g m,
    for_each step boxes (map g (rows spots), m) =
    ret (map (fun s => g s && negb (inside_some_box nb_dim boxes s))
             (rows spots),
         fold_left Z.max (flat_map (box_sides nb_dim) boxes) m).
Proof.
  induction boxes as [| box boxes IH]; intros Hstep g m.
  - simpl. unfold ret. do 3 f_equal. apply map_ext. intros s.
    simpl. now rewrite andb_true_r.
  - simpl. rewrite (Hstep g m box (or_introl eq_refl)), bind_ret.
    rewrite IH by (intros; apply Hstep; now right).
    rewrite fold_left_app. unfold ret. do 3 f_equal. apply map_ext. intros s.
    rewrite negb_orb. now rewrite andb_assoc.
Qed.

(** The whole result on boxes and spots of the rank [nb_dim]. *)
Lemma filter_spot_out_result (candidate_bbox : list (list Z)) (nb_dim : nat) :
  nb_dim = 2%nat \/ nb_dim = 3%nat ->
  shape1 spots = nb_dim ->
  Forall (fun box => length box = (2 * nb_dim)%nat) candidate_bbox ->
  _filter_spot_out_candidate_regions candidate_bbox spots nb_dim =
  (Ok (IntArray nb_dim
         (filter (fun spot => negb (inside_some_box nb_dim candidate_bbox spot))
                 (rows spots)),
       largest_side nb_dim candidate_bbox), []).
Proof.
  intros Hdim Hs Hb. rewrite Forall_forall in Hb.
  unfold _filter_spot_out_candidate_regions, largest_side.
  rewrite column_in_range by lia. rewrite bind_ret, map_map.
  destruct Hdim as [-> | ->]; simpl Nat.eqb; cbv iota.
  - rewrite (for_each_result 2 (step_2d spots) candidate_bbox)
      by (intros; apply step_2d_result; [lia | now apply Hb]).
    rewrite bind_ret, Hs. simpl andb. now rewrite mask_select_map.
  - rewrite (for_each_result 3 (step_3d spots) candidate_bbox)
      by (intros; apply step_3d_result; [lia | now apply Hb]).
    rewrite bind_ret, Hs. simpl andb. now rewrite mask_select_map.
Qed.

(** X1. The size [_filter_spot_out_candidate_regions] returns is the
    largest side of the candidate boxes, over the boxes and the axes, and 0
    when no side is positive: it is not negative, no side exceeds it, and
    it is 0 or the side of a box. *)
Theorem filter_spot_out_max_region_size
    (candidate_bbox : list (list Z)) (nb_dim : nat) :
  nb_dim = 2%nat \/ nb_dim = 3%nat ->
  shape1 spots = nb_dim ->
  Forall (fun box => length box = (2 * nb_dim)%nat) candidate_bbox ->
  exists out max_region_size,
    _filter_spot_out_candidate_regions candidate_bbox spots nb_dim
    = (Ok (out, max_region_size), [])
    /\ 0 <= max_region_size
    /\ (forall box k,
          In box candidate_bbox -> (k < nb_dim)%nat ->
          nth (nb_dim + k) box 0 - nth k box 0 <= max_region_size)
    /\ (max_region_size = 0
        \/ exists box k,
             In box candidate_bbox /\ (k < nb_dim)%nat
             /\ max_region_size = nth (nb_dim + k) box 0 - nth k box 0).
Proof.
  intros Hdim Hs Hb.
  eexists _, _. split; [now apply filter_spot_out_result |].
  unfold largest_side. split; [apply fold_max_ge_init |]. split.
  - intros box k Hin Hk. apply fold_max_ge_in.
    apply in_flat_map. exists box. split; [assumption |].
    apply in_box_sides. eauto.
  - destruct (fold_max_attained (flat_map (box_sides nb_dim) candidate_bbox) 0)
      as [E | Hin]; [now left | right].
    apply in_flat_map in Hin as (box & Hin & Hside).
    apply in_box_sides in Hside as (k & Hk & E). eauto.
Qed.

Lemma step_3d_malformed (st : list bool * Z) (box : list Z) :
  length box <> 6%nat ->
  step_3d spots st box = raise (ValueError "wrong number of values to unpack").
Proof.
  intros H. destruct st as [mask m].
  destruct box as [| a [| b [| c [| d [| e [| f [| ? ?]]]]]]];
    try reflexivity. now contradiction H.
Qed.

Lemma step_2d_malformed (st : list bool * Z) (box : list Z) :
  length box <> 4%nat ->
  step_2d spots st box = raise (ValueError "wrong number of values to unpack").
Proof.
  intros H. destruct st as [mask m].
  destruct box as [| a [| b [| c [| d [| ? ?]]]]];
    try reflexivity. now contradiction H.
Qed.

Lemma for_each_malformed (nb_dim : nat)
    (step : list bool * Z -> list Z -> M (list bool * Z))
    (boxes : list (list Z)) :
  (forall g m box, length box = (2 * nb_dim)%nat ->
     exists g' m', step (map g (rows spots), m) box
                   = ret (map g' (rows spots), m')) ->
  (forall st box, length box <> (2 * nb_dim)%nat ->
     step st box = raise (ValueError "wrong number of values to unpack")) ->
  Exists (fun box => length box <> (2 * nb_dim)%nat) boxes ->
  forall g m,
    for_each step boxes (map g (rows spots), m)
    = raise (ValueError "wrong number of values to unpack").
Proof.
  intros Hok Hbad Hex. induction boxes as [| box boxes IH]; intros g m.
  - inversion Hex.
  - simpl. destruct (Nat.eq_dec (length box) (2 * nb_dim)) as [E | E].
    + destruct (Hok g m box E) as (g' & m' & ->). rewrite bind_ret.
      apply IH. inversion Hex; subst; [contradiction | assumption].
    + rewrite (Hbad _ box E). reflexivity.
Qed.

(** X2. [_filter_spot_out_candidate_regions] raises [IndexError] on an
    array of spots without a column, and [ValueError] as soon as one box
    has not two bounds per axis, whatever the other boxes. *)
Theorem filter_spot_out_errors
    (candidate_bbox : list (list Z)) (nb_dim : nat) :
  (shape1 spots = 0%nat ->
   _filter_spot_out_candidate_regions candidate_bbox spots nb_dim
   = (Raise (IndexError "index is out of bounds for axis 1"), []))
  /\ (nb_dim = 2%nat \/ nb_dim = 3%nat ->
      shape1 spots = nb_dim ->
      Exists (fun box => length box <> (2 * nb_dim)%nat) candidate_bbox ->
      _filter_spot_out_candidate_regions candidate_bbox spots nb_dim
      = (Raise (ValueError "wrong number of values to unpack"), [])).
Proof.
  split.
  - intros Hs. unfold _filter_spot_out_candidate_regions, column.
    rewrite Hs. reflexivity.
  - intros Hdim Hs Hex. unfold _filter_spot_out_candidate_regions.
    rewrite column_in_range by lia. rewrite bind_ret, map_map.
    destruct Hdim as [-> | ->]; simpl Nat.eqb; cbv iota.
    + rewrite (for_each_malformed 2 (step_2d spots) candidate_bbox);
        [reflexivity | | apply step_2d_malformed | assumption].
      intros g m box Hb. eexists _, _. apply step_2d_result; [lia | exact Hb].
    + rewrite (for_each_malformed 3 (step_3d spots) candidate_bbox);
        [reflexivity | | apply step_3d_malformed | assumption].
      intros g m box Hb. eexists _, _. apply step_3d_result; [lia | exact Hb].
Qed.

End DetectorProperties.

Section DetectorComposition.

Context {F : Type} {FA : Float64Arith F} {FC : Float64Cast F}.
Variable build_reference_spot :
  ndarray F -> int_array -> option F -> F -> option F -> F -> F -> ndarray F.
Variable label : nd bool -> nd Z.
Variable regionprops : nd Z -> ndarray F -> list (region F).

Lemma mask_select_map_map {A B} (p : A -> bool) (f : A -> B) (l : list A) :
  mask_select (map p l) (map f l) = map f (filter p l).
Proof.
  induction l as [| x l IH]; simpl; [reflexivity |].
  destruct (p x); simpl; now rewrite IH.
Qed.

Lemma filter_all {A} (p : A -> bool) (l : list A) :
  (forall x, p x = true) -> filter p l = l.
Proof.
  intros H. induction l as [| x l IH]; simpl; [reflexivity |].
  now rewrite H, IH.
Qed.

Lemma ndim_2_or_3 (image : ndarray F) :
  ndim image = 2%nat \/ ndim image = 3%nat.
Proof. unfold ndim. destruct (nd_data image); auto. Qed.

(** The regions of area 2 at least are kept, and the spots are parted by
    their boxes. *)
Lemma filter_connected_region_result (image : ndarray F) (cc : nd Z)
    (spots : int_array) :
  shape1 spots = ndim image ->
  Forall (fun r => length (bbox r) = (2 * ndim image)%nat)
         (regionprops cc image) ->
  let kept := filter (fun r => 2 <=? area r) (regionprops cc image) in
  _filter_connected_region regionprops image cc spots
  = (Ok (kept,
         IntArray (shape1 spots)
           (filter (fun spot =>
                      negb (inside_some_box (ndim image)
                                            (map (@bbox F) kept) spot))
                   (rows spots)),
         largest_side (ndim image) (map (@bbox F) kept)), []).
Proof.
  intros Hs Hb kept. unfold _filter_connected_region. cbv zeta.
  rewrite !map_map, mask_select_map, mask_select_map_map. fold kept.
  destruct (regionprops cc image) as [| r regions] eqn:Er.
  - simpl. unfold ret. do 3 f_equal.
    rewrite filter_all by reflexivity. now destruct spots.
  - simpl length. simpl Nat.eqb. cbv iota.
    rewrite (filter_spot_out_result spots (map (@bbox F) kept) (ndim image)).
    + now rewrite bind_Ok_nil, Hs.
    + apply ndim_2_or_3.
    + exact Hs.
    + apply Forall_map. unfold kept.
      apply Forall_forall. intros x Hx. apply filter_In in Hx as [Hx _].
      rewrite Forall_forall in Hb. now apply Hb.
Qed.

(** X3. With arguments that pass its checks and a reference spot that is
    not empty, [get_dense_region] returns the connected regions of the
    pixels above [int(max * beta)] whose area is 2 at least, the spots that
    lie in the box of none of them, in their order, and the largest side of
    their boxes. With no region of that size it returns every spot and the
    size 0. *)
Theorem get_dense_region_returns (image : ndarray F) (spots : int_array)
    (voxel_size_z : option F) (voxel_size_yx : F) (psf_z : option F)
    (psf_yx beta : F) :
  detector_argument_error (ndim image) (shape1 spots) voxel_size_z psf_z beta
  = None ->
  (forall cc, Forall (fun r => length (bbox r) = (2 * ndim image)%nat)
                     (regionprops cc image)) ->
  let median_spot :=
    build_reference_spot image spots
      (fst (z_geometry image voxel_size_z psf_z)) voxel_size_yx
      (snd (z_geometry image voxel_size_z psf_z)) psf_yx
      (fdiv (of_int 1) (of_int 2)) in
  flatten (nd_data median_spot) <> [] ->
  exists max_,
    np_max median_spot = ret max_
    /\ let cc :=
         label (nd_map (above (dense_threshold max_ beta)) (nd_data image)) in
       let kept := filter (fun r => 2 <=? area r) (regionprops cc image) in
       get_dense_region build_reference_spot label regionprops image spots
         voxel_size_z voxel_size_yx psf_z psf_yx beta
       = (Ok (kept,
              IntArray (shape1 spots)
                (filter (fun spot =>
                           negb (inside_some_box (ndim image)
                                                 (map (@bbox F) kept) spot))
                        (rows spots)),
              largest_side (ndim image) (map (@bbox F) kept)), [])
       /\ (kept = [] ->
           get_dense_region build_reference_spot label regionprops image spots
             voxel_size_z voxel_size_yx psf_z psf_yx beta
           = (Ok ([], spots, 0), [])).
Proof.
  intros Herr Hb median_spot Hne.
  unfold detector_argument_error in Herr.
  destruct (fltb beta (of_int 0)) eqn:C1; [discriminate |].
  destruct ((ndim image =? 3)%nat && is_none voxel_size_z) eqn:C2;
    [discriminate |].
  destruct ((ndim image =? 3)%nat && is_none psf_z) eqn:C3; [discriminate |].
  destruct (negb (ndim image =? shape1 spots)%nat) eqn:C4; [discriminate |].
  assert (Hs : shape1 spots = ndim image).
  { apply negb_false_iff, Nat.eqb_eq in C4. congruence. }
  unfold get_dense_region. rewrite C1, C2, C3, C4.
  unfold median_spot, z_geometry in *.
  destruct (if (ndim image =? 2)%nat then (None, None)
            else (voxel_size_z, psf_z)) as [vz pz].
  simpl fst in *; simpl snd in *. cbv zeta.
  unfold np_max in *.
  destruct (flatten (nd_data (build_reference_spot image spots vz
                                voxel_size_yx pz psf_yx
                                (fdiv (of_int 1) (of_int 2)))))
    as [| x t]; [now contradiction Hne |].
  eexists. split; [reflexivity |].
  rewrite bind_ret. unfold _get_connected_region. cbv zeta.
  rewrite (filter_connected_region_result image _ spots Hs (Hb _)).
  split; [reflexivity |].
  intros ->. simpl. rewrite filter_all by reflexivity. now destruct spots.
Qed.

(** X4. [get_dense_region] raises the error of its first check that fails
    ([beta < 0], a 3-d image without [voxel_size_z] or [psf_z], spots of
    another rank than the image), whatever the pixels and before any
    collaborator is called, and with arguments that pass the checks it
    raises none of these errors. *)
Theorem get_dense_region_invalid_argument (image : ndarray F)
    (spots : int_array) (voxel_size_z : option F) (voxel_size_yx : F)
    (psf_z : option F) (psf_yx beta : F) :
  let error :=
    detector_argument_error (ndim image) (shape1 spots) voxel_size_z psf_z
                            beta in
  (error <> None <->
   fltb beta (of_int 0)
   || ((ndim image =? 3)%nat && (is_none voxel_size_z || is_none psf_z))
   || negb (ndim image =? shape1 spots)%nat = true)
  /\ (forall msg,
        error = Some msg ->
        get_dense_region build_reference_spot label regionprops image spots
          voxel_size_z voxel_size_yx psf_z psf_yx beta
        = (Raise (ValueError msg), []))
  /\ (error = None ->
      no_argument_error
        (get_dense_region build_reference_spot label regionprops image spots
           voxel_size_z voxel_size_yx psf_z psf_yx beta)).
Proof.
  intros error. unfold error, detector_argument_error.
  split; [| split].
  - destruct (fltb beta (of_int 0)), (ndim image =? 3)%nat,
      (is_none voxel_size_z), (is_none psf_z),
      (ndim image =? shape1 spots)%nat; simpl;
      split; intros H; try reflexivity; try discriminate; congruence.
  - intros msg. unfold get_dense_region.
    repeat match goal with
           | |- context [if ?c then Some _ else _] => destruct c
           end;
      intros E; inversion E; reflexivity.
  - intros E. apply nae_get_dense_region;
      repeat match type of E with
             | context [if ?c then Some _ else _] =>
                 destruct c; [discriminate E |]
             end; reflexivity.
Qed.

End DetectorComposition.

(* ================================================================== *)
(** * Further properties of the greedy loop *)

Section LoopProperties.

Context {F : Type} {FA : Float64Arith F}.
Variable P : Type.
Variable gaussian : P -> F -> list F.
Variable grid : list P.
Variable image_region_raw : list F.
Variable limit_gaussian : Z.

Local Notation "'body'" := (loop_body gaussian grid image_region_raw).
Local Notation "'loop'" :=
  (while_loop gaussian grid image_region_raw limit_gaussian).

Lemma loop_body_position (st st1 : fit_state F P) (w : list warning) :
  body st = (Ok st1, w) ->
  exists p, In p grid
            /\ positions_gaussian st1 = positions_gaussian st ++ [p].
Proof.
  unfold loop_body, np_argmax, grid_column.
  destruct (residual st); simpl; [discriminate |].
  destruct (nth_error grid _) as [p |] eqn:Ep; simpl; [| discriminate].
  intros H; inversion H; subst; simpl.
  exists p. split; [eapply nth_error_In; eassumption | reflexivity].
Qed.

Lemma while_loop_positions (fuel : nat) :
  forall st st' w,
    loop fuel st = (Ok st', w) ->
    Forall (fun p => In p grid) (positions_gaussian st) ->
    Forall (fun p => In p grid) (positions_gaussian st').
Proof.
  induction fuel as [| fuel IH]; intros st st' w; simpl;
    destruct (loop_test limit_gaussian st); try discriminate.
  - intros H; inversion H; now subst.
  - intros H Hf. apply bind_Ok_inv in H as (st1 & w1 & w2 & H1 & H2 & _).
    apply (IH _ _ _ H2).
    apply loop_body_position in H1 as (p & Hin & ->).
    apply Forall_app. split; [assumption | now constructor].
  - intros H; inversion H; now subst.
Qed.

Lemma Forall_removelast {A} (Q : A -> Prop) (l : list A) :
  Forall Q l -> Forall Q (removelast l).
Proof.
  induction l as [| x [| y l] IH]; intros H; simpl; auto.
  inversion H; subst. constructor; auto.
Qed.

Lemma length_removelast {A} (l : list A) :
  l <> [] -> S (length (removelast l)) = length l.
Proof.
  induction l as [| x [| y l] IH]; intros H; simpl; auto; [congruence |].
  f_equal. apply IH. discriminate.
Qed.

Lemma after_loop_positions (st : fit_state F P) (ps : list P)
    (w : list warning) :
  after_loop limit_gaussian st = (Ok ps, w) ->
  ((1 <? nb_gaussian st) && (nb_gaussian st <? limit_gaussian) = true
   /\ positions_gaussian st <> []
   /\ ps = removelast (positions_gaussian st))
  \/ ((1 <? nb_gaussian st) && (nb_gaussian st <? limit_gaussian) = false
      /\ ps = positions_gaussian st).
Proof.
  unfold after_loop, pop_last.
  destruct ((1 <? nb_gaussian st) && (nb_gaussian st <? limit_gaussian)).
  - destruct (positions_gaussian st) as [| p l]; [discriminate |].
    intros H. left. split; [reflexivity |]. split; [discriminate |].
    unfold ret in H. congruence.
  - intros H. right. split; [reflexivity |].
    destruct (nb_gaussian st =? limit_gaussian); inversion H; reflexivity.
Qed.

(** X5. Every position [fit_region] returns is a point of the grid. At
    least one Gaussian has been placed, and the positions are as many as
    the Gaussians placed, less the last one when more than one and fewer
    than the limit were placed. *)
Theorem fit_region_positions_on_grid (fuel : nat) (background : F)
    (best : list F) (positions : list P) (nb : Z) (w : list warning) :
  fit_region gaussian grid image_region_raw limit_gaussian fuel background
  = (Ok (best, positions, nb), w) ->
  Forall (fun p => In p grid) positions
  /\ 1 <= nb
  /\ Z.of_nat (length positions)
     = (if (1 <? nb) && (nb <? limit_gaussian) then nb - 1 else nb).
Proof.
  unfold fit_region. intros H.
  apply bind_Ok_inv in H as (st & w1 & w2 & Hl & H & _).
  apply bind_Ok_inv in H as (ps & w3 & w4 & Ha & H & _).
  inversion H; subst; clear H.
  pose proof (while_loop_exit _ _ _ _ _ _ _ _ _ Hl) as Ht.
  pose proof (while_loop_count_inv _ _ _ _ _ _ _ _ _ Hl
                (fit_init_count_inv _ _ _)) as Hc.
  pose proof (while_loop_positions _ _ _ _ Hl (Forall_nil _)) as Hg.
  destruct (exit_counts _ _ _ Hc Ht) as [H1 Hne].
  destruct Hc as [Hnb Hpos _].
  split; [| split; [assumption |]];
    destruct (after_loop_positions _ _ _ Ha) as [(Hb & Hp & ->) | (Hb & ->)];
    try assumption; try rewrite Hb.
  - now apply Forall_removelast.
  - pose proof (length_removelast _ Hp). lia.
  - lia.
Qed.

End LoopProperties.

(** ** The first maximum *)

Section ArgmaxProperties.

Context {F : Type} {FA : Float64Arith F}.

(** [<] is a strict order in which two values that are not comparable
    compare alike with every value, as on the [float64] values that are
    numbers. *)
Hypothesis fltb_irreflexive : forall a, fltb a a = false.
Hypothesis fltb_transitive :
  forall a b c, fltb a b = true -> fltb b c = true -> fltb a c = true.
Hypothesis fltb_cotransitive :
  forall a b c, fltb a b = true -> fltb a c = true \/ fltb c b = true.

Variable d : F.

Lemma argmax_from_spec (t : list F) :
  forall pre best_i best,
    (best_i < length pre)%nat ->
    nth best_i pre d = best ->
    (forall j, (j < length pre)%nat -> fltb best (nth j pre d) = false) ->
    (forall j, (j < best_i)%nat -> fltb (nth j pre d) best = true) ->
    let r := argmax_from best_i best (length pre) t in
    (r < length (pre ++ t))%nat
    /\ (forall j, (j < length (pre ++ t))%nat ->
          fltb (nth r (pre ++ t) d) (nth j (pre ++ t) d) = false)
    /\ (forall j, (j < r)%nat ->
          fltb (nth j (pre ++ t) d) (nth r (pre ++ t) d) = true).
Proof.
  induction t as [| x t IH]; intros pre best_i best Hi Hb Hmax Hfirst; simpl.
  - rewrite app_nil_r. subst best. auto.
  - replace (pre ++ x :: t) with ((pre ++ [x]) ++ t)
      by (now rewrite <- app_assoc).
    replace (S (length pre)) with (length (pre ++ [x]))
      by (rewrite length_app; simpl; lia).
    assert (Hlast : nth (length pre) (pre ++ [x]) d = x).
    { rewrite app_nth2 by lia. now rewrite Nat.sub_diag. }
    destruct (fltb best x) eqn:Ex.
    + apply IH.
      * rewrite length_app; simpl; lia.
      * exact Hlast.
      * intros j Hj. rewrite length_app in Hj; simpl in Hj.
        destruct (Nat.eq_dec j (length pre)) as [-> | Hne].
        -- rewrite Hlast. apply fltb_irreflexive.
        -- rewrite app_nth1 by lia.
           destruct (fltb x (nth j pre d)) eqn:E; [| reflexivity].
           rewrite <- (Hmax j ltac:(lia)). symmetry.
           eapply fltb_transitive; eassumption.
      * intros j Hj. rewrite app_nth1 by lia.
        destruct (fltb_cotransitive best x (nth j pre d) Ex) as [E | E];
          [| exact E].
        rewrite (Hmax j Hj) in E. discriminate.
    + apply IH.
      * rewrite length_app; simpl; lia.
      * now rewrite app_nth1 by lia.
      * intros j Hj. rewrite length_app in Hj; simpl in Hj.
        destruct (Nat.eq_dec j (length pre)) as [-> | Hne].
        -- now rewrite Hlast.
        -- rewrite app_nth1 by lia. apply Hmax. lia.
      * intros j Hj. rewrite app_nth1 by lia. now apply Hfirst.
Qed.

(** X6. On an array that is not empty [np_argmax] returns the index of
    the first maximum: no element is greater than the element at this
    index, and every element before it is smaller. *)
Theorem np_argmax_first_maximum (l : list F) :
  l <> [] ->
  exists i,
    np_argmax l = ret i
    /\ (i < length l)%nat
    /\ (forall j, (j < length l)%nat -> fltb (nth i l d) (nth j l d) = false)
    /\ (forall j, (j < i)%nat -> fltb (nth j l d) (nth i l d) = true).
Proof.
  destruct l as [| x t]; [congruence | intros _].
  eexists. split; [reflexivity |].
  apply (argmax_from_spec t [x] 0%nat x).
  - simpl; lia.
  - reflexivity.
  - intros [| j] Hj; simpl in *; [apply fltb_irreflexive | lia].
  - intros j Hj. lia.
Qed.

End ArgmaxProperties.

(* ================================================================== *)
(** * Further properties of the simulation *)

Section SimulationProperties.

Context {F : Type} {FA : Float64Arith F} {FC : Float64Cast F}.
Variable erf_table : Type.
Variable _initialize_grid_2d : list (list F) -> F -> list (F * F).
Variable _initialize_grid_3d : list (list (list F)) -> F -> F -> list (F * F * F).
Variable _gaussian_2d :
  list (F * F) -> F -> F -> F -> F -> F -> F -> erf_table -> list F.
Variable _gaussian_3d :
  list (F * F * F) -> F -> F -> F -> F -> F -> F -> F -> F -> F -> erf_table ->
  list F.

Local Notation "'simulate'" :=
  (simulate_gaussian_mixture _initialize_grid_2d _initialize_grid_3d
     _gaussian_2d _gaussian_3d).

(** X7. [simulate_gaussian_mixture] raises [ValueError] for a negative
    background, for a 3-d image without [voxel_size_z] or [sigma_z], and
    also, whatever its other arguments, for an empty array of regions: it
    never returns then. *)
Theorem simulate_gaussian_mixture_rejects fuel image candidate_regions
    voxel_size_z voxel_size_yx sigma_z sigma_yx amplitude background
    precomputed_gaussian :
  (fltb background (of_int 0) = true ->
   simulate fuel image candidate_regions voxel_size_z voxel_size_yx sigma_z
            sigma_yx amplitude background precomputed_gaussian
   = (Raise (ValueError "Background value can't be negative: {0}"), []))
  /\ (ndim image = 3%nat -> voxel_size_z = None \/ sigma_z = None ->
      exists msg,
        simulate fuel image candidate_regions voxel_size_z voxel_size_yx
                 sigma_z sigma_yx amplitude background precomputed_gaussian
        = (Raise (ValueError msg), []))
  /\ (candidate_regions = [] ->
      exists msg,
        simulate fuel image candidate_regions voxel_size_z voxel_size_yx
                 sigma_z sigma_yx amplitude background precomputed_gaussian
        = (Raise (ValueError msg), [])).
Proof.
  unfold simulate_gaussian_mixture. split; [| split].
  - intros ->. reflexivity.
  - intros E3 Hz. rewrite E3. simpl Nat.eqb. simpl andb.
    destruct (fltb background (of_int 0)); [eexists; reflexivity |].
    destruct voxel_size_z; simpl; [| eexists; reflexivity].
    destruct Hz as [Hz | ->]; [discriminate | eexists; reflexivity].
  - intros ->.
    destruct (fltb background (of_int 0)); [eexists; reflexivity |].
    destruct ((ndim image =? 3)%nat && is_none voxel_size_z);
      [eexists; reflexivity |].
    destruct ((ndim image =? 3)%nat && is_none sigma_z);
      [eexists; reflexivity |].
    destruct (nd_data image), voxel_size_z, sigma_z; simpl;
      eexists; reflexivity.
Qed.

Lemma fitted_rows_shape (voxels : list F) (n : nat) (i : Z)
    (region : region F) (positions : list (list F)) :
  length voxels = n -> well_shaped n region positions ->
  Forall (fun row => length row = (n + 1)%nat /\ nth n row 0 = i)
         (fitted_rows voxels i region positions).
Proof.
  intros Hv [Hb Hp]. unfold fitted_rows. apply Forall_map.
  eapply Forall_impl; [| exact Hp]. intros position Hl. cbv beta in Hl.
  assert (Hg : length (map trunc (global_coordinates position voxels
                                    (bbox region))) = n).
  { rewrite length_map, length_global_coordinates, Hl, Hv, Hb. lia. }
  split.
  - rewrite length_app, Hg. reflexivity.
  - rewrite app_nth2 by lia. rewrite Hg, Nat.sub_diag. reflexivity.
Qed.

Lemma region_summary_shape (voxels : list F) (n : nat) (i : Z)
    (region : region F) (positions : list (list F)) :
  length voxels = n -> positions <> [] -> well_shaped n region positions ->
  length (region_summary voxels i region positions) = (n + 4)%nat
  /\ nth n (region_summary voxels i region positions) 0
     = Z.of_nat (length positions)
  /\ nth (n + 3) (region_summary voxels i region positions) 0 = i.
Proof.
  intros Hv Hne [Hb Hp]. unfold region_summary.
  destruct positions as [| position positions]; [congruence |].
  pose proof (Forall_inv Hp) as Hl. cbv beta in Hl. simpl hd.
  set (c := map trunc (global_coordinates position voxels (bbox region))).
  assert (Hg : length c = length position).
  { unfold c. rewrite length_map, length_global_coordinates, Hl, Hv, Hb.
    lia. }
  rewrite Hl in Hg. repeat split.
  - rewrite length_app, Hg. reflexivity.
  - rewrite app_nth2 by lia. rewrite Hg, Nat.sub_diag. reflexivity.
  - rewrite app_nth2 by lia. rewrite Hg.
    replace (n + 3 - n)%nat with 3%nat by lia. reflexivity.
Qed.

(** The rows of all regions, numbered from [i0]. *)
Lemma all_rows_shape (voxels : list F) (n : nat)
    (Q : region F -> list (list F) -> Prop) :
  length voxels = n ->
  forall regions fits,
    Forall2 (fun region positions =>
               Q region positions /\ positions <> []
               /\ well_shaped n region positions)
            regions fits ->
    forall i0,
      Forall (fun row =>
                length row = (n + 1)%nat
                /\ i0 <= nth n row 0 < i0 + Z.of_nat (length regions))
             (all_fitted_rows voxels i0 regions fits)
      /\ Forall (fun row => length row = (n + 4)%nat /\ 1 <= nth n row 0)
                (all_summaries voxels i0 regions fits)
      /\ Z.of_nat (length (all_fitted_rows voxels i0 regions fits))
         = fold_right Z.add 0
             (map (fun row => nth n row 0)
                  (all_summaries voxels i0 regions fits))
      /\ length (all_summaries voxels i0 regions fits) = length regions.
Proof.
  intros Hv regions fits H.
  induction H as [| region positions regions fits (_ & Hne & Hw) _ IH];
    intros i0; simpl.
  - repeat split; constructor.
  - destruct (IH (i0 + 1)) as (IH1 & IH2 & IH3 & IH4).
    destruct (region_summary_shape voxels n i0 region positions Hv Hne Hw)
      as (S1 & S2 & S3).
    repeat split.
    + apply Forall_app. split.
      * eapply Forall_impl;
          [| exact (fitted_rows_shape voxels n i0 region positions Hv Hw)].
        intros row [Hl Hi]. split; [assumption | lia].
      * eapply Forall_impl; [| exact IH1].
        intros row [Hl Hi]. split; [assumption | lia].
    + constructor; [| assumption]. split; [assumption |].
      rewrite S2. destruct positions; [congruence | simpl length; lia].
    + rewrite length_app, Nat2Z.inj_add, IH3, S2.
      unfold fitted_rows. now rewrite length_map.
    + now rewrite IH4.
Qed.

(** X8. The two arrays [simulate_gaussian_mixture] returns agree. The
    fitted spots have one column per axis and the index of their region,
    which is the index of a row of the array of regions; the regions have
    four columns more than axes, and at least one row; every region counts
    at least one spot, and the counts add up to the number of fitted
    spots; and the last column of a region is its index. *)
Theorem simulate_output_consistent fuel image candidate_regions voxel_size_z
    voxel_size_yx sigma_z sigma_yx amplitude background precomputed_gaussian
    spots_in_regions regions w :
  simulate fuel image candidate_regions voxel_size_z voxel_size_yx sigma_z
           sigma_yx amplitude background precomputed_gaussian
  = (Ok (spots_in_regions, regions), w) ->
  let n := ndim image in
  shape1 spots_in_regions = (n + 1)%nat
  /\ shape1 regions = (n + 4)%nat
  /\ length (rows regions) = length candidate_regions
  /\ rows regions <> []
  /\ Forall (fun row =>
               length row = (n + 1)%nat
               /\ 0 <= nth n row 0 < Z.of_nat (length (rows regions)))
            (rows spots_in_regions)
  /\ Forall (fun row => length row = (n + 4)%nat /\ 1 <= nth n row 0)
            (rows regions)
  /\ Z.of_nat (length (rows spots_in_regions))
     = fold_right Z.add 0 (map (fun row => nth n row 0) (rows regions))
  /\ (forall i row,
        nth_error (rows regions) i = Some row ->
        nth (n + 3) row 0 = Z.of_nat i).
Proof.
  intros H n.
  destruct (simulate_gaussian_mixture_spec _ _ _ _ _ _ _ _ _ _ _ _ _ _ _ _ _
              _ H) as (fits & Hall & Hne & -> & -> & _ & Hv).
  destruct (all_rows_shape _ n _ Hv _ _ Hall 0) as (R1 & R2 & R3 & R4).
  simpl shape1; simpl rows.
  split; [reflexivity |]. split; [reflexivity |].
  split; [exact R4 |]. split.
  { intros E. apply (f_equal (@length _)) in E. rewrite R4 in E.
    destruct candidate_regions; [congruence | discriminate]. }
  split.
  { eapply Forall_impl; [| exact R1]. intros row [Hl Hi].
    split; [assumption |]. rewrite R4. lia. }
  split; [exact R2 |]. split; [exact R3 |].
  intros i row Hrow.
  assert (Hi : (i < length candidate_regions)%nat).
  { rewrite <- R4. apply nth_error_Some. congruence. }
  destruct (nth_error candidate_regions i) as [region |] eqn:Er;
    [| apply nth_error_None in Er; lia].
  destruct (nth_error fits i) as [positions |] eqn:Ef.
  2:{ apply nth_error_None in Ef.
      apply Forall2_length in Hall. lia. }
  rewrite (nth_error_all_summaries _ _ _ 0 i region positions Er Ef) in Hrow.
  injection Hrow as <-.
  assert (Hrp : positions <> [] /\ well_shaped n region positions).
  { clear - Hall Er Ef. revert i Er Ef.
    induction Hall as [| r ps rs fs (_ & H1 & H2) _ IH]; intros [| i] Er Ef;
      simpl in *; try discriminate.
    - inversion Er; inversion Ef; subst. auto.
    - eauto. }
  destruct Hrp as [Hp Hw].
  destruct (region_summary_shape _ n (0 + Z.of_nat i) region positions Hv Hp
              Hw) as (_ & _ & S3).
  rewrite Z.add_0_l in S3. exact S3.
Qed.

End SimulationProperties.

(* ================================================================== *)
(** * The image the greedy loop returns *)

Section BestSimulation.

Context {F : Type} {FA : Float64Arith F}.
Variable P : Type.
Variable gaussian : P -> F -> list F.
Variable grid : list P.
Variable image_region_raw : list F.
Variable limit_gaussian : Z.

Local Notation "'body'" := (loop_body gaussian grid image_region_raw).
Local Notation "'loop'" :=
  (while_loop gaussian grid image_region_raw limit_gaussian).
Local Notation "'zeros'" := (map (fun _ : F => f0) image_region_raw).

Lemma add_gaussians_app (positions : list P) :
  forall simulation background p,
    add_gaussians gaussian simulation background (positions ++ [p])
    = map2 fadd (add_gaussians gaussian simulation background positions)
           (gaussian p (next_background background positions)).
Proof.
  induction positions as [| q positions IH]; intros simulation background p;
    simpl; [reflexivity |].
  rewrite IH. now destruct positions.
Qed.

Lemma fit_init_sum_inv (background : F) :
  sum_inv gaussian image_region_raw background
          (fit_init P image_region_raw background).
Proof. constructor; simpl; auto. Qed.

(** One iteration that started because the sum of squares was decreasing
    keeps the invariant. *)
Lemma loop_body_sum_inv (background0 : F) (st st1 : fit_state F P)
    (w : list warning) :
  body st = (Ok st1, w) -> lt0 (diff_ssr st) = true ->
  sum_inv gaussian image_region_raw background0 st ->
  sum_inv gaussian image_region_raw background0 st1.
Proof.
  unfold loop_body, np_argmax, grid_column.
  destruct (residual st); simpl; [discriminate |].
  destruct (nth_error grid _) as [p |]; simpl; [| discriminate].
  intros H Hd [Hsum Hbg Hbest]; inversion H; subst; clear H.
  assert (Hnew : map2 fadd (simulation st) (gaussian p (background st))
                 = add_gaussians gaussian zeros background0
                                 (positions_gaussian st ++ [p])).
  { now rewrite add_gaussians_app, <- Hsum, <- Hbg. }
  constructor; simpl.
  - exact Hnew.
  - now destruct (positions_gaussian st).
  - split; [now destruct (positions_gaussian st) |].
    rewrite removelast_last.
    destruct (fltb _ f0); [reflexivity |].
    destruct (diff_ssr st) as [n | d]; simpl in Hd.
    + destruct Hbest as (_ & -> & ->). reflexivity.
    + destruct Hbest as (_ & ->). now rewrite Hd.
Qed.

Lemma while_loop_nb (fuel : nat) :
  forall st st' w, loop fuel st = (Ok st', w) ->
                   nb_gaussian st <= nb_gaussian st'.
Proof.
  induction fuel as [| fuel IH]; intros st st' w; simpl;
    destruct (loop_test limit_gaussian st); try discriminate.
  - intros H; inversion H; subst. lia.
  - intros H. apply bind_Ok_inv in H as (st1 & w1 & w2 & H1 & H2 & _).
    apply loop_body_counts in H1 as (Hn & _). apply IH in H2. lia.
  - intros H; inversion H; subst. lia.
Qed.

Lemma while_loop_sum_inv (background0 : F) (fuel : nat) :
  forall st st' w,
    loop fuel st = (Ok st', w) -> nb_gaussian st' < limit_gaussian ->
    sum_inv gaussian image_region_raw background0 st ->
    sum_inv gaussian image_region_raw background0 st'.
Proof.
  induction fuel as [| fuel IH]; intros st st' w; simpl;
    destruct (loop_test limit_gaussian st) eqn:Et; try discriminate.
  - intros H; inversion H; now subst.
  - intros H Hlt Hi.
    apply bind_Ok_inv in H as (st1 & w1 & w2 & H1 & H2 & _).
    apply (IH _ _ _ H2 Hlt).
    apply (loop_body_sum_inv _ _ _ _ H1); [| assumption].
    pose proof (while_loop_nb _ _ _ _ H2) as Hle.
    apply loop_body_counts in H1 as (Hn & _).
    unfold loop_test in Et. apply orb_true_iff in Et as [Et | Et];
      [assumption | apply Z.eqb_eq in Et; lia].
  - intros H; inversion H; now subst.
Qed.

(** X9. When [fit_region] has placed fewer Gaussians than the limit, the
    image it returns is the sum of the Gaussians at the positions it
    returns, the first one drawn with the background of the call and the
    others with none. The exception is a first Gaussian that does not
    lower the sum of squares: its position is returned, and the image is
    the image of zeros. *)
Theorem fit_region_best_simulation (fuel : nat) (background : F)
    (best : list F) (positions : list P) (nb : Z) (w : list warning) :
  fit_region gaussian grid image_region_raw limit_gaussian fuel background
  = (Ok (best, positions, nb), w) ->
  nb < limit_gaussian ->
  best = add_gaussians gaussian zeros background
                       (if 1 <? nb then positions else [])
  /\ (nb = 1 -> exists p, positions = [p]).
Proof.
  unfold fit_region. intros H Hlt.
  apply bind_Ok_inv in H as (st & w1 & w2 & Hl & H & _).
  apply bind_Ok_inv in H as (ps & w3 & w4 & Ha & H & _).
  inversion H; subst; clear H.
  pose proof (while_loop_exit _ _ _ _ _ _ _ _ _ Hl) as Ht.
  pose proof (while_loop_count_inv _ _ _ _ _ _ _ _ _ Hl
                (fit_init_count_inv _ _ _)) as Hc.
  pose proof (while_loop_sum_inv background _ _ _ _ Hl Hlt
                (fit_init_sum_inv background)) as [_ _ Hbest].
  destruct (exit_counts _ _ _ Hc Ht) as [H1 _].
  destruct Hc as [_ Hpos _].
  unfold loop_test in Ht. apply orb_false_iff in Ht as [Hd _].
  destruct (diff_ssr st) as [n | d]; simpl in Hd.
  { destruct Hbest as (-> & _). discriminate. }
  rewrite Hd in Hbest. destruct Hbest as (Hne & ->).
  destruct (after_loop_positions _ _ _ _ _ Ha) as [(Hb & _ & ->) | (Hb & ->)].
  - apply andb_true_iff in Hb as [Hb _]. rewrite Hb.
    split; [reflexivity |]. apply Z.ltb_lt in Hb. lia.
  - assert (E1 : nb_gaussian st = 1).
    { apply andb_false_iff in Hb as [Hb | Hb];
        [apply Z.ltb_ge in Hb | apply Z.ltb_ge in Hb]; lia. }
    rewrite E1 in *. simpl Z.ltb. cbv iota.
    destruct (positions_gaussian st) as [| p [| q l]]; simpl in Hpos;
      try discriminate; try lia.
    split; [reflexivity | eauto].
Qed.

End BestSimulation.

(* ================================================================== *)
(** * The simulated patch *)

Section PatchProperties.

Context {F : Type} {FA : Float64Arith F} {FC : Float64Cast F}.

(** Two laws of an arithmetic without NaN: an integer is its own
    truncation, and truncation keeps the order. *)
Hypothesis trunc_of_int : forall n, trunc (of_int n) = n.
Hypothesis trunc_monotone :
  forall a b, fltb b a = false -> trunc a <= trunc b.

Variable erf_table : Type.
Variable _initialize_grid_2d : list (list F) -> F -> list (F * F).
Variable _initialize_grid_3d : list (list (list F)) -> F -> F -> list (F * F * F).
Variable _gaussian_2d :
  list (F * F) -> F -> F -> F -> F -> F -> F -> erf_table -> list F.
Variable _gaussian_3d :
  list (F * F * F) -> F -> F -> F -> F -> F -> F -> F -> F -> F -> erf_table ->
  list F.

Lemma clip_in_range (d : dtype) (max_value_dtype : Z) (w : list warning)
    (x : F) :
  np_iinfo_max d = (Ok max_value_dtype, w) ->
  in_range max_value_dtype (astype d (np_clip max_value_dtype x)).
Proof.
  intros Hd.
  assert (Hmax : 0 <= max_value_dtype
                 /\ astype d (np_clip max_value_dtype x)
                    = of_int (trunc (np_clip max_value_dtype x))).
  { destruct d; inversion Hd; subst; simpl; split; (lia || reflexivity). }
  destruct Hmax as [Hmax ->].
  exists (trunc (np_clip max_value_dtype x)). split; [reflexivity |].
  unfold np_clip.
  destruct (fltb x (of_int 0)) eqn:E0; [rewrite trunc_of_int; lia |].
  destruct (fltb (of_int max_value_dtype) x) eqn:E1;
    [rewrite trunc_of_int; lia |].
  pose proof (trunc_monotone _ _ E0) as H0.
  pose proof (trunc_monotone _ _ E1) as H1.
  rewrite trunc_of_int in H0, H1. lia.
Qed.

Lemma length_chunks {A} (w h : nat) (flat : list A) :
  length (chunks w h flat) = h.
Proof.
  revert flat. induction h as [| h IH]; intros flat; simpl; auto.
Qed.

(** X10. When [_gaussian_mixture_2d] returns, the image is of an unsigned
    integer type, the first patch is the part of the image the box
    delimits, the simulated patch has as many rows, and every pixel of it
    is an integer between 0 and the largest value of the type. *)
Theorem gaussian_mixture_2d_patch fuel image_dtype image region voxel_size_yx
    sigma_yx amplitude background precomputed_gaussian limit_gaussian
    image_region simulated positions w :
  _gaussian_mixture_2d _initialize_grid_2d _gaussian_2d fuel image_dtype image
    region voxel_size_yx sigma_yx amplitude background precomputed_gaussian
    limit_gaussian
  = (Ok (image_region, simulated, positions), w) ->
  let box := bbox region in
  exists max_value_dtype,
    np_iinfo_max image_dtype = ret max_value_dtype
    /\ (4 <= length box)%nat
    /\ image_region
       = map (py_slice (nth 1 box 0) (nth 3 box 0))
             (py_slice (nth 0 box 0) (nth 2 box 0) image)
    /\ length simulated = length image_region
    /\ Forall (Forall (in_range max_value_dtype)) simulated.
Proof.
  intros H. cbv zeta. unfold _gaussian_mixture_2d, tuple_get in H.
  destruct (bbox region) as [| b0 [| b1 [| b2 [| b3 box']]]];
    try discriminate H.
  cbn [nth_error] in H. rewrite !bind_ret in H. cbv zeta in H.
  apply bind_Ok_inv in H as ([[best ps] nb] & w1 & w2 & _ & H & _).
  destruct (np_iinfo_max image_dtype) as [[m | e |] wm] eqn:Em;
    try discriminate H.
  assert (wm = []) by (destruct image_dtype; inversion Em; reflexivity).
  subst wm. rewrite bind_Ok_nil in H. inversion H; subst; clear H.
  exists m. split; [reflexivity |]. split; [simpl; lia |].
  split; [reflexivity |]. split.
  - unfold reshape_like_2d.
    now rewrite !length_map, length_chunks, ?length_map.
  - rewrite map_map. apply Forall_map, Forall_forall. intros row _.
    rewrite map_map. apply Forall_map, Forall_forall. intros x _.
    exact (clip_in_range _ _ _ _ Em).
Qed.

(** X11. The same for [_gaussian_mixture_3d]: the first patch is the part
    of the image the box delimits along the three axes, the simulated
    patch has as many planes, and every pixel of it is an integer between
    0 and the largest value of the type. *)
Theorem gaussian_mixture_3d_patch fuel image_dtype image region voxel_size_z
    voxel_size_yx sigma_z sigma_yx amplitude background precomputed_gaussian
    limit_gaussian image_region simulated positions w :
  _gaussian_mixture_3d _initialize_grid_3d _gaussian_3d fuel image_dtype image
    region voxel_size_z voxel_size_yx sigma_z sigma_yx amplitude background
    precomputed_gaussian limit_gaussian
  = (Ok (image_region, simulated, positions), w) ->
  let box := bbox region in
  exists max_value_dtype,
    np_iinfo_max image_dtype = ret max_value_dtype
    /\ (6 <= length box)%nat
    /\ image_region
       = map (fun plane =>
                map (py_slice (nth 2 box 0) (nth 5 box 0))
                    (py_slice (nth 1 box 0) (nth 4 box 0) plane))
             (py_slice (nth 0 box 0) (nth 3 box 0) image)
    /\ length simulated = length image_region
    /\ Forall (Forall (Forall (in_range max_value_dtype))) simulated.
Proof.
  intros H. cbv zeta. unfold _gaussian_mixture_3d, tuple_get in H.
  destruct (bbox region) as [| b0 [| b1 [| b2 [| b3 [| b4 [| b5 box']]]]]];
    try discriminate H.
  cbn [nth_error] in H. rewrite !bind_ret in H. cbv zeta in H.
  apply bind_Ok_inv in H as ([[best ps] nb] & w1 & w2 & _ & H & _).
  destruct (np_iinfo_max image_dtype) as [[m | e |] wm] eqn:Em;
    try discriminate H.
  assert (wm = []) by (destruct image_dtype; inversion Em; reflexivity).
  subst wm. rewrite bind_Ok_nil in H. inversion H; subst; clear H.
  exists m. split; [reflexivity |]. split; [simpl; lia |].
  split; [reflexivity |]. split.
  - unfold reshape_like_3d.
    now rewrite !length_map, length_chunks, ?length_map.
  - rewrite map_map. apply Forall_map, Forall_forall. intros plane _.
    rewrite map_map. apply Forall_map, Forall_forall. intros row _.
    rewrite map_map. apply Forall_map, Forall_forall. intros x _.
    exact (clip_in_range _ _ _ _ Em).
Qed.

End PatchProperties.

(* ================================================================== *)
(** * The number of spots [decompose_dense] returns *)

Section DecomposeProperties.

Context {F : Type} {FA : Float64Arith F} {FC : Float64Cast F}.
Variable build_reference_spot :
  ndarray F -> int_array -> option F -> F -> option F -> F -> F -> ndarray F.
Variable label : nd bool -> nd Z.
Variable regionprops : nd Z -> ndarray F -> list (region F).
Variable erf_table : Type.
Variable _initialize_grid_2d : list (list F) -> F -> list (F * F).
Variable _initialize_grid_3d : list (list (list F)) -> F -> F -> list (F * F * F).
Variable _gaussian_2d :
  list (F * F) -> F -> F -> F -> F -> F -> F -> erf_table -> list F.
Variable _gaussian_3d :
  list (F * F * F) -> F -> F -> F -> F -> F -> F -> F -> F -> F -> erf_table ->
  list F.
Variable get_sigma : option F -> F -> option F -> F -> list F.
Variable remove_background_gaussian : ndarray F -> list F -> ndarray F.
Variable modelize_spot : ndarray F -> option F -> F -> option F -> F -> list F.
Variable precompute_erf : option F -> F -> option F -> F -> Z -> erf_table.

Local Notation "'decompose'" :=
  (decompose_dense build_reference_spot label regionprops _initialize_grid_2d
     _initialize_grid_3d _gaussian_2d _gaussian_3d get_sigma
     remove_background_gaussian modelize_spot precompute_erf).

Lemma length_mask_select {A} (mask : list bool) :
  forall l : list A, (length (mask_select mask l) <= length l)%nat.
Proof.
  induction mask as [| b mask IH]; intros [| a l]; simpl; try lia.
  specialize (IH l). destruct b; simpl; lia.
Qed.

(** The spots kept outside the regions are no more than the spots. *)
Lemma filter_spot_out_length candidate_bbox spots nb_dim out m w :
  _filter_spot_out_candidate_regions candidate_bbox spots nb_dim
  = (Ok (out, m), w) ->
  (length (rows out) <= length (rows spots))%nat.
Proof.
  unfold _filter_spot_out_candidate_regions. intros H.
  peel_binds H. inversion H; subst. apply length_mask_select.
Qed.

Lemma get_dense_region_length image spots voxel_size_z voxel_size_yx psf_z
    psf_yx beta regions out size_ w :
  get_dense_region build_reference_spot label regionprops image spots
    voxel_size_z voxel_size_yx psf_z psf_yx beta
  = (Ok (regions, out, size_), w) ->
  (length (rows out) <= length (rows spots))%nat.
Proof.
  unfold get_dense_region, _filter_connected_region. intros H.
  repeat match type of H with
         | (if ?c then _ else _) = _ => destruct c; [discriminate |]
         end.
  destruct (if (ndim image =? 2)%nat then _ else _) as [vz pz].
  apply bind_Ok_inv in H as (max_ & w1 & w2 & _ & H & _).
  destruct (length _ =? 0)%nat.
  - inversion H; subst. lia.
  - apply bind_Ok_inv in H as ([out' m] & w3 & w4 & Hf & H & _).
    inversion H; subst. eapply filter_spot_out_length; eassumption.
Qed.

(** X12. What [decompose_dense] returns is well formed, and its spots are
    counted by its regions. The spots have the rank of the image and the
    regions four columns more; every region counts at least one spot; with
    no region the spots are the spots given; and the number of spots
    returned is at least the sum of the counts of the regions, and exceeds
    it by the number of spots given at most. *)
Theorem decompose_dense_spot_count
    (denoised_ndim :
       forall image sigma,
         ndim (remove_background_gaussian image sigma) = ndim image)
    fuel image spots voxel_size_z voxel_size_yx psf_z psf_yx alpha beta gamma
    spots' dense_regions reference_spot w :
  decompose fuel image spots voxel_size_z voxel_size_yx psf_z psf_yx alpha
            beta gamma = (Ok (spots', dense_regions, reference_spot), w) ->
  let n := ndim image in
  let fitted :=
    fold_right Z.add 0 (map (fun row => nth n row 0) (rows dense_regions)) in
  shape1 spots' = n
  /\ shape1 dense_regions = (n + 4)%nat
  /\ Forall (fun row => length row = (n + 4)%nat /\ 1 <= nth n row 0)
            (rows dense_regions)
  /\ (rows dense_regions = [] -> spots' = spots)
  /\ fitted <= Z.of_nat (length (rows spots'))
     <= Z.of_nat (length (rows spots)) + fitted.
Proof.
  intros H n fitted.
  destruct (argument_error (ndim image) (shape1 spots) voxel_size_z psf_z
                           alpha beta gamma) as [msg |] eqn:E.
  { rewrite (decompose_dense_raises _ _ _ _ _ _ _ _ _ _ _ _ _ _ _ _ _ _ _ _
               _ _ _ E) in H.
    discriminate. }
  destruct (argument_error_none _ _ _ _ _ _ _ E) as (_ & _ & _ & _ & _ & C6).
  apply negb_false_iff, Nat.eqb_eq in C6.
  destruct (decompose_dense_run _ _ _ _ _ _ _ _ _ _ _ _ denoised_ndim _ _ _ _
              _ _ _ _ _ _ _ _ E H)
    as [(_ & Hr & _) | [(_ & ref & Hr) | (regions & out & size_ & sigma_z
                                          & sigma_yx & amplitude & background
                                          & table & spots_in & dense & Hd & Hs
                                          & Hr & _)]].
  - now contradiction (Hr (spots', dense_regions, reference_spot)).
  - inversion Hr; subst. unfold fitted. simpl.
    repeat split; auto; lia.
  - inversion Hr; subst; clear Hr.
    assert (Hden : ndim (denoised_image get_sigma remove_background_gaussian
                           image voxel_size_z voxel_size_yx psf_z psf_yx gamma)
                   = ndim image).
    { unfold denoised_image.
      destruct (z_geometry image voxel_size_z psf_z).
      destruct (fltb (of_int 0) gamma); [apply denoised_ndim | reflexivity]. }
    destruct (simulate_gaussian_mixture_spec _ _ _ _ _ _ _ _ _ _ _ _ _ _ _ _ _
                _ Hs) as (fits & Hall & Hne & -> & -> & _ & Hv).
    rewrite Hden in Hall, Hv.
    destruct (all_rows_shape _ n _ Hv _ _ Hall 0) as (_ & R2 & R3 & R4).
    pose proof (get_dense_region_length _ _ _ _ _ _ _ _ _ _ _ Hd) as Hout.
    unfold fitted. simpl shape1; simpl rows. rewrite Hden.
    split; [reflexivity |]. split; [reflexivity |]. split; [exact R2 |].
    split.
    + intros E0. apply (f_equal (@length _)) in E0. rewrite R4 in E0.
      destruct regions; [congruence | discriminate].
    + fold n. rewrite <- R3, length_app, length_map. lia.
Qed.

End DecomposeProperties.

(* ================================================================== *)
(** * Runs of the detector, the loop and the simulation *)

Section IntegerOrder.

#[local] Existing Instance Integer.Z_arith.

Lemma Z_fltb_irreflexive (a : Z) : fltb a a = false.
Proof. apply Z.ltb_irrefl. Qed.

Lemma Z_fltb_transitive (a b c : Z) :
  fltb a b = true -> fltb b c = true -> fltb a c = true.
Proof. simpl. rewrite !Z.ltb_lt. lia. Qed.

Lemma Z_fltb_cotransitive (a b c : Z) :
  fltb a b = true -> fltb a c = true \/ fltb c b = true.
Proof. simpl. rewrite !Z.ltb_lt. lia. Qed.

(** The maximum 3 is at the indices 1 and 3, the first is returned. *)
Lemma np_argmax_first_maximum_witness :
  let l := [1; 3; 2; 3] in
  l <> []
  /\ np_argmax l = ret 1%nat
  /\ exists i,
       np_argmax l = ret i
       /\ (i < length l)%nat
       /\ (forall j, (j < length l)%nat -> fltb (nth i l 0) (nth j l 0) = false)
       /\ (forall j, (j < i)%nat -> fltb (nth j l 0) (nth i l 0) = true).
Proof.
  intros l. split; [discriminate |]. split; [reflexivity |].
  apply (np_argmax_first_maximum (FA := Integer.Z_arith) Z_fltb_irreflexive
           Z_fltb_transitive Z_fltb_cotransitive 0 l).
  discriminate.
Defined.

(** A patch of three pixels [3; 0; 0] and a point response of amplitude
    1: four Gaussians are placed on the first pixel, the last one is
    dropped. *)
Lemma fit_region_positions_on_grid_witness :
  let grid := seq 0 3 in
  fit_region (Integer.point_response 3 1) grid [3; 0; 0] 1000 10 0
  = (Ok ([3; 0; 0], [0%nat; 0%nat; 0%nat], 4), [])
  /\ Forall (fun p => In p grid) [0%nat; 0%nat; 0%nat]
  /\ 1 <= 4
  /\ Z.of_nat (length [0%nat; 0%nat; 0%nat])
     = (if (1 <? 4) && (4 <? 1000) then 4 - 1 else 4).
Proof.
  intros grid.
  assert (E : fit_region (Integer.point_response 3 1) grid [3; 0; 0] 1000 10 0
              = (Ok ([3; 0; 0], [0%nat; 0%nat; 0%nat], 4), []))
    by (vm_compute; reflexivity).
  split; [exact E |].
  exact (fit_region_positions_on_grid (FA := Integer.Z_arith) nat
           (Integer.point_response 3 1) grid [3; 0; 0] 1000 10%nat 0
           [3; 0; 0] [0%nat; 0%nat; 0%nat] 4 [] E).
Defined.

(** On the pixels [2; 0; 1] the image returned is the sum of the three
    point responses at the positions returned. *)
Lemma fit_region_best_simulation_witness :
  let grid := seq 0 3 in
  fit_region (Integer.point_response 3 1) grid [2; 0; 1] 1000 10 0
  = (Ok ([2; 0; 1], [0%nat; 0%nat; 2%nat], 4), [])
  /\ 4 < 1000
  /\ [2; 0; 1]
     = add_gaussians (Integer.point_response 3 1) [0; 0; 0] 0
                     [0%nat; 0%nat; 2%nat].
Proof.
  intros grid.
  assert (E : fit_region (Integer.point_response 3 1) grid [2; 0; 1] 1000 10 0
              = (Ok ([2; 0; 1], [0%nat; 0%nat; 2%nat], 4), []))
    by (vm_compute; reflexivity).
  split; [exact E |]. split; [lia |].
  exact (proj1 (fit_region_best_simulation (FA := Integer.Z_arith) nat
                  (Integer.point_response 3 1) grid [2; 0; 1] 1000 10%nat 0
                  [2; 0; 1] [0%nat; 0%nat; 2%nat] 4 [] E eq_refl)).
Defined.

End IntegerOrder.

Section DetectorRuns.

#[local] Existing Instance Rational.Q_arith.
#[local] Existing Instance Rational.Q_cast.

Import Rational.

(** Two boxes of sides 2, 2 and 3, 4, and three spots of which one is
    outside both. *)
Lemma filter_spot_out_max_region_size_witness :
  let boxes := [[0; 0; 2; 2]; [1; 1; 4; 5]] in
  let spots := IntArray 2 [[0; 0]; [3; 3]; [5; 5]] in
  (2%nat = 2%nat \/ 2%nat = 3%nat)
  /\ shape1 spots = 2%nat
  /\ Forall (fun box => length box = (2 * 2)%nat) boxes
  /\ _filter_spot_out_candidate_regions boxes spots 2
     = (Ok (IntArray 2 [[5; 5]], 4), [])
  /\ exists out max_region_size,
       _filter_spot_out_candidate_regions boxes spots 2
       = (Ok (out, max_region_size), [])
       /\ 0 <= max_region_size
       /\ (forall box k,
             In box boxes -> (k < 2)%nat ->
             nth (2 + k) box 0 - nth k box 0 <= max_region_size)
       /\ (max_region_size = 0
           \/ exists box k,
                In box boxes /\ (k < 2)%nat
                /\ max_region_size = nth (2 + k) box 0 - nth k box 0).
Proof.
  intros boxes spots.
  split; [left; reflexivity |]. split; [reflexivity |].
  split; [repeat constructor |]. split; [reflexivity |].
  apply (filter_spot_out_max_region_size spots boxes 2);
    [left; reflexivity | reflexivity | repeat constructor].
Defined.

(** A box of three bounds among the boxes of a 2-d image. *)
Lemma filter_spot_out_errors_witness :
  let boxes := [[0; 0; 2; 2]; [1; 2; 3]] in
  let spots := IntArray 2 [[0; 0]; [3; 3]] in
  (2%nat = 2%nat \/ 2%nat = 3%nat)
  /\ shape1 spots = 2%nat
  /\ Exists (fun box => length box <> (2 * 2)%nat) boxes
  /\ _filter_spot_out_candidate_regions boxes spots 2
     = (Raise (ValueError "wrong number of values to unpack"), []).
Proof.
  intros boxes spots.
  assert (Hex : Exists (fun box => length box <> (2 * 2)%nat) boxes)
    by (right; left; discriminate).
  split; [left; reflexivity |]. split; [reflexivity |].
  split; [exact Hex |].
  exact (proj2 (filter_spot_out_errors spots boxes 2)
               (or_introl eq_refl) eq_refl Hex).
Defined.

Lemma region_of_pair_boxes (cc : nd Z) :
  Forall (fun r : region Q => length (bbox r) = (2 * ndim uneven_pair)%nat)
         (region_of_pair cc uneven_pair).
Proof.
  unfold region_of_pair. destruct (existsb _ _); repeat constructor.
Qed.

(** The two pixels 5 and 6 are above the threshold 4 and make one region,
    in the box of which the three spots lie. *)
Lemma get_dense_region_returns_witness :
  detector_argument_error (ndim uneven_pair) (shape1 three_spots) None None
                          1%Q = None
  /\ (forall cc,
        Forall (fun r : region Q =>
                  length (bbox r) = (2 * ndim uneven_pair)%nat)
               (region_of_pair cc uneven_pair))
  /\ get_dense_region flat_reference_spot label_above region_of_pair
       uneven_pair three_spots None 100%Q None 200%Q 1%Q
     = (Ok ([uneven_pair_region], IntArray 2 [], 2), [])
  /\ exists max_, np_max (flat_reference_spot uneven_pair three_spots None
                            100%Q None 200%Q (1 # 2)%Q) = ret max_.
Proof.
  assert (E : detector_argument_error (ndim uneven_pair) (shape1 three_spots)
                None None 1%Q = None) by reflexivity.
  split; [exact E |]. split; [exact region_of_pair_boxes |].
  split; [vm_compute; reflexivity |].
  destruct (get_dense_region_returns flat_reference_spot label_above
              region_of_pair uneven_pair three_spots None 100%Q None 200%Q
              1%Q E region_of_pair_boxes)
    as (max_ & Emax & _); [discriminate |].
  exists max_. exact Emax.
Defined.

(** A 3-d image without [voxel_size_z]. *)
Lemma get_dense_region_invalid_argument_witness :
  let image := NdArray uint16 (Arr3 [[[5; 6]]])%Q in
  detector_argument_error (ndim image) 3 None (Some 300%Q) 1%Q
  = Some voxel_size_z_message
  /\ get_dense_region flat_reference_spot label_above region_of_pair image
       (IntArray 3 [[0; 0; 0]]) None 100%Q (Some 300%Q) 200%Q 1%Q
     = (Raise (ValueError voxel_size_z_message), []).
Proof.
  intros image.
  assert (E : detector_argument_error (ndim image) 3 None (Some 300%Q) 1%Q
              = Some voxel_size_z_message) by reflexivity.
  split; [exact E |].
  exact (proj1 (proj2 (get_dense_region_invalid_argument flat_reference_spot
                         label_above region_of_pair image
                         (IntArray 3 [[0; 0; 0]]) None 100%Q (Some 300%Q)
                         200%Q 1%Q))
               voxel_size_z_message E).
Defined.

(** No region to simulate. *)
Lemma simulate_gaussian_mixture_rejects_witness :
  exists msg,
    simulate 10 uneven_pair [] None 100 None 1 5 0
    = (Raise (ValueError msg), []).
Proof.
  exact (proj2 (proj2 (simulate_gaussian_mixture_rejects unit index_grid_2d
                         index_grid_3d point_gaussian_2d point_gaussian_3d
                         10%nat uneven_pair [] None 100%Q None 1%Q 5%Q 0%Q
                         tt))
               eq_refl).
Defined.

(** The region of the pixels 5 and 6: two spots are fitted, and the
    region counts two. *)
Lemma simulate_output_consistent_witness :
  simulate_gaussian_mixture index_grid_2d index_grid_3d point_gaussian_2d
    point_gaussian_3d 10 uneven_pair [uneven_pair_region] None 100%Q None
    1%Q 5%Q 0%Q tt
  = (Ok (IntArray 3 [[0; 1; 0]; [0; 0; 0]], IntArray 6 [[0; 1; 2; 2; 5; 0]]),
     [])
  /\ Z.of_nat (length [[0; 1; 0]; [0; 0; 0]])
     = fold_right Z.add 0
         (map (fun row => nth 2 row 0) [[0; 1; 2; 2; 5; 0]]).
Proof.
  assert (E : simulate_gaussian_mixture index_grid_2d index_grid_3d
                point_gaussian_2d point_gaussian_3d 10 uneven_pair
                [uneven_pair_region] None 100%Q None 1%Q 5%Q 0%Q tt
              = (Ok (IntArray 3 [[0; 1; 0]; [0; 0; 0]],
                     IntArray 6 [[0; 1; 2; 2; 5; 0]]), []))
    by (vm_compute; reflexivity).
  split; [exact E |].
  pose proof (simulate_output_consistent unit index_grid_2d index_grid_3d
                point_gaussian_2d point_gaussian_3d 10%nat uneven_pair
                [uneven_pair_region] None 100%Q None 1%Q 5%Q 0%Q tt
                (IntArray 3 [[0; 1; 0]; [0; 0; 0]])
                (IntArray 6 [[0; 1; 2; 2; 5; 0]]) [] E) as W.
  cbv zeta in W.
  exact (proj1 (proj2 (proj2 (proj2 (proj2 (proj2 (proj2 W))))))).
Defined.

Lemma Q_trunc_of_int (n : Z) : trunc (of_int n) = n.
Proof. simpl. apply Z.quot_1_r. Qed.

Lemma Q_trunc_order (a b : Q) : fltb b a = false -> trunc a <= trunc b.
Proof.
  intros H. apply Q_trunc_monotone. unfold fleb. now rewrite H.
Qed.

(** A [uint8] patch of pixels 250 and 6 and a point response of amplitude
    300: the simulation 300 of the first pixel is clipped to 255. *)
Lemma gaussian_mixture_2d_patch_witness :
  _gaussian_mixture_2d index_grid_2d point_gaussian_2d 10 uint8
    [[250; 6]]%Q uneven_pair_region 100%Q 1%Q 300%Q 0%Q tt 1000
  = (Ok ([[250; 6]]%Q, [[255; 0]]%Q, [(0%Q, 0%Q)]), [])
  /\ exists max_value_dtype,
       np_iinfo_max uint8 = ret max_value_dtype
       /\ Forall (Forall (in_range max_value_dtype)) [[255; 0]]%Q.
Proof.
  assert (E : _gaussian_mixture_2d index_grid_2d point_gaussian_2d 10 uint8
                [[250; 6]]%Q uneven_pair_region 100%Q 1%Q 300%Q 0%Q tt 1000
              = (Ok ([[250; 6]]%Q, [[255; 0]]%Q, [(0%Q, 0%Q)]), []))
    by (vm_compute; reflexivity).
  split; [exact E |].
  destruct (gaussian_mixture_2d_patch Q_trunc_of_int Q_trunc_order unit
              index_grid_2d point_gaussian_2d 10%nat uint8 [[250; 6]]%Q
              uneven_pair_region 100%Q 1%Q 300%Q 0%Q tt 1000 [[250; 6]]%Q
              [[255; 0]]%Q [(0%Q, 0%Q)] [] E)
    as (m & Em & _ & _ & _ & Hr).
  exists m. split; assumption.
Defined.

(** The same patch as one plane of a 3-d image. *)
Lemma gaussian_mixture_3d_patch_witness :
  let region := Region [0; 0; 0; 1; 1; 2] 2 128%Q in
  _gaussian_mixture_3d index_grid_3d point_gaussian_3d 10 uint8
    [[[250; 6]]]%Q region 300%Q 100%Q 1%Q 1%Q 300%Q 0%Q tt 1000
  = (Ok ([[[250; 6]]]%Q, [[[255; 0]]]%Q, [(0%Q, 0%Q, 0%Q)]), [])
  /\ exists max_value_dtype,
       np_iinfo_max uint8 = ret max_value_dtype
       /\ Forall (Forall (Forall (in_range max_value_dtype))) [[[255; 0]]]%Q.
Proof.
  intros region.
  assert (E : _gaussian_mixture_3d index_grid_3d point_gaussian_3d 10 uint8
                [[[250; 6]]]%Q region 300%Q 100%Q 1%Q 1%Q 300%Q 0%Q tt 1000
              = (Ok ([[[250; 6]]]%Q, [[[255; 0]]]%Q, [(0%Q, 0%Q, 0%Q)]), []))
    by (vm_compute; reflexivity).
  split; [exact E |].
  destruct (gaussian_mixture_3d_patch Q_trunc_of_int Q_trunc_order unit
              index_grid_3d point_gaussian_3d 10%nat uint8 [[[250; 6]]]%Q
              region 300%Q 100%Q 1%Q 1%Q 300%Q 0%Q tt 1000 [[[250; 6]]]%Q
              [[[255; 0]]]%Q [(0%Q, 0%Q, 0%Q)] [] E)
    as (m & Em & _ & _ & _ & Hr).
  exists m. split; assumption.
Defined.

(** Three spots given on the two pixels; the region counts the two spots
    that are returned. *)
Lemma decompose_dense_spot_count_witness :
  (forall image sigma, ndim (keep_background image sigma) = ndim image)
  /\ decompose_dense flat_reference_spot label_above region_of_pair
       index_grid_2d index_grid_3d point_gaussian_2d point_gaussian_3d
       sigma_of keep_background fitted_parameters no_table 10 uneven_pair
       three_spots None 100%Q None 200%Q (1 # 2)%Q 1%Q 0%Q
     = (Ok (IntArray 2 [[0; 1]; [0; 0]], IntArray 6 [[0; 1; 2; 2; 5; 0]],
            NdArray uint16 (Arr2 (repeat (repeat 4%Q 5) 5))),
        [UserWarning less_spots_message])
  /\ 2 <= Z.of_nat (length [[0; 1]; [0; 0]])
     <= Z.of_nat (length (rows three_spots)) + 2.
Proof.
  assert (E : decompose_dense flat_reference_spot label_above region_of_pair
                index_grid_2d index_grid_3d point_gaussian_2d
                point_gaussian_3d sigma_of keep_background fitted_parameters
                no_table 10 uneven_pair three_spots None 100%Q None 200%Q
                (1 # 2)%Q 1%Q 0%Q
              = (Ok (IntArray 2 [[0; 1]; [0; 0]],
                     IntArray 6 [[0; 1; 2; 2; 5; 0]],
                     NdArray uint16 (Arr2 (repeat (repeat 4%Q 5) 5))),
                 [UserWarning less_spots_message]))
    by (vm_compute; reflexivity).
  split; [exact keep_background_ndim |]. split; [exact E |].
  pose proof (decompose_dense_spot_count flat_reference_spot label_above
                region_of_pair unit index_grid_2d index_grid_3d
                point_gaussian_2d point_gaussian_3d sigma_of keep_background
                fitted_parameters no_table keep_background_ndim 10%nat
                uneven_pair three_spots None 100%Q None 200%Q (1 # 2)%Q 1%Q
                0%Q (IntArray 2 [[0; 1]; [0; 0]])
                (IntArray 6 [[0; 1; 2; 2; 5; 0]])
                (NdArray uint16 (Arr2 (repeat (repeat 4%Q 5) 5)))
                [UserWarning less_spots_message] E) as W.
  cbv zeta in W.
  exact (proj2 (proj2 (proj2 (proj2 W)))).
Defined.

End DetectorRuns.
